(** * mlproject: the training-loop driver [MLProject]

    A shallow embedding of [mlproject/mlproject.py]: the class [MLProject]
    with its constructor, the improvement rule, the evaluation runner, the
    stop predicate, the log-level selection, the epoch and training loops and
    the checkpoint store, followed by the properties of the specification.

    Python objects are mutated in place and exceptions leave the mutation
    behind; the methods are therefore written in a state-and-exception monad
    over the instance, the file system and the trace of collaborator calls. *)

From Stdlib Require Import ZArith String Ascii List Lia Bool DecimalString.
From Stdlib Require Import DecimalN DecimalPos DecimalZ.
From Stdlib Require Import PrimFloat Uint63.
From stdpp Require Import base option gmap strings list.

Local Open Scope Z_scope.

(* ===================================================================== *)
(** * Python values, exceptions and outcomes *)
(* ===================================================================== *)

(** The values a sacred configuration entry holds in this program: [None],
    an integer (budgets, intervals) or a string (directories, device). *)
Inductive value : Type :=
  | VNone
  | VInt (z : Z)
  | VStr (s : string).

(** Python truthiness: [None], [0] and [''] are falsy. *)
Definition truthy (v : value) : bool :=
  match v with
  | VNone => false
  | VInt z => negb (z =? 0)
  | VStr s => negb (String.eqb s EmptyString)
  end.

Inductive exn : Type :=
  | Exception (msg : string)
  | KeyError (key : string)
  | TypeError
  | ZeroDivisionError
  | FileNotFoundError (path : string)
  | FileExistsError (path : string)
  | RuntimeError (msg : string)
  | TrainingStop.

(** What a call does: it returns, it raises, or (for the model of an unbounded
    [while True]) the fuel of the model ran out. *)
Inductive outcome (A : Type) : Type :=
  | Ok (a : A)
  | Raise (e : exn)
  | OutOfFuel.
Arguments Ok {A} a.
Arguments Raise {A} e.
Arguments OutOfFuel {A}.

Definition obind {A B : Type} (o : outcome A) (k : A -> outcome B) : outcome B :=
  match o with
  | Ok a => k a
  | Raise e => Raise e
  | OutOfFuel => OutOfFuel
  end.

(** [config[key]] *)
Definition dict_getitem (config : gmap string value) (key : string) : outcome value :=
  match config !! key with
  | Some v => Ok v
  | None => Raise (KeyError key)
  end.

(** [config.get(key, None)] *)
Definition dict_get (config : gmap string value) (key : string) : value :=
  default VNone (config !! key).

(** [a >= v] for an int [a]: defined against an int, a [TypeError] against
    [None] or a string. *)
Definition py_ge (a : Z) (v : value) : outcome bool :=
  match v with
  | VInt n => Ok (n <=? a)
  | _ => Raise TypeError
  end.

(** [a % v] for an int [a]: Python's modulo takes the sign of the divisor, as
    [Z.modulo] does. *)
Definition py_mod (a : Z) (v : value) : outcome Z :=
  match v with
  | VInt n => if n =? 0 then Raise ZeroDivisionError else Ok (a mod n)
  | _ => Raise TypeError
  end.

(** [v and (a % v) == 0] as a branch condition. *)
Definition py_and_divides (v : value) (a : Z) : outcome bool :=
  if truthy v then obind (py_mod a v) (fun r => Ok (r =? 0)) else Ok false.

(* ===================================================================== *)
(** * [str], [format] and [os.path] *)
(* ===================================================================== *)

(** [str(z)] *)
Definition str (z : Z) : string := NilZero.string_of_int (Z.to_int z).

(** The decimal digits of [|z|]. *)
Definition digits (z : Z) : string := NilZero.string_of_uint (N.to_uint (Z.abs_N z)).

Fixpoint zeros (n : nat) : string :=
  match n with
  | O => EmptyString
  | S n' => String "0" (zeros n')
  end.

(** ["{:05}".format(z)]: sign first, then zeros up to a total width of 5;
    a longer number is not cut. *)
Definition format_05 (z : Z) : string :=
  let d := digits z in
  if z <? 0 then "-" +:+ zeros (4 - String.length d) +:+ d
  else zeros (5 - String.length d) +:+ d.

Module posixpath.

Definition sep : ascii := "/"%char.

Definition startswith_sep (s : string) : bool :=
  match s with
  | String c _ => Ascii.eqb c sep
  | EmptyString => false
  end.

Fixpoint endswith_sep (s : string) : bool :=
  match s with
  | EmptyString => false
  | String c EmptyString => Ascii.eqb c sep
  | String _ s' => endswith_sep s'
  end.

Definition isabs (s : string) : bool := startswith_sep s.

(** [os.path.join(a, b)] *)
Definition join (a b : string) : string :=
  if startswith_sep b then b
  else if String.eqb a EmptyString || endswith_sep a then a +:+ b
  else a +:+ "/" +:+ b.

(** [path.split('/')] *)
Fixpoint split (s : string) : list string :=
  match s with
  | EmptyString => [EmptyString]
  | String c s' =>
      if Ascii.eqb c sep then EmptyString :: split s'
      else match split s' with
           | [] => [String c EmptyString]
           | h :: t => String c h :: t
           end
  end.

(** One turn of the loop of [normpath] over the components. *)
Definition norm_step (initial_slashes : nat) (new_comps : list string) (comp : string)
  : list string :=
  if String.eqb comp EmptyString || String.eqb comp "." then new_comps
  else if negb (String.eqb comp "..")
          || (Nat.eqb initial_slashes 0 && bool_decide (new_comps = []))
          || (negb (bool_decide (new_comps = []))
              && String.eqb (List.last new_comps EmptyString) "..")
  then new_comps ++ [comp]
  else if negb (bool_decide (new_comps = [])) then removelast new_comps
  else new_comps.

Definition initial_slashes (path : string) : nat :=
  match path with
  | String c1 (String c2 (String c3 _)) =>
      if Ascii.eqb c1 sep then
        if Ascii.eqb c2 sep then (if Ascii.eqb c3 sep then 1%nat else 2%nat) else 1%nat
      else 0%nat
  | String c1 (String c2 EmptyString) =>
      if Ascii.eqb c1 sep then (if Ascii.eqb c2 sep then 2%nat else 1%nat) else 0%nat
  | String c1 EmptyString => if Ascii.eqb c1 sep then 1%nat else 0%nat
  | EmptyString => 0%nat
  end.

Fixpoint seps (n : nat) : string :=
  match n with
  | O => EmptyString
  | S n' => String sep (seps n')
  end.

(** [os.path.normpath(path)] *)
Definition normpath (path : string) : string :=
  if String.eqb path EmptyString then "."
  else
    let i := initial_slashes path in
    let comps := fold_left (norm_step i) (split path) [] in
    let p := seps i +:+ String.concat "/" comps in
    if String.eqb p EmptyString then "." else p.

(** [os.path.abspath(path)], [cwd] being [os.getcwd()]. *)
Definition abspath (cwd path : string) : string :=
  normpath (if isabs path then path else join cwd path).

End posixpath.

(* ===================================================================== *)
(** * The collaborators *)
(* ===================================================================== *)

(** [mlproject.model.LogLevel] *)
Inductive LogLevel : Type := ALL | SCALARS | NONE.

(** The calls into the model that hand nothing back: [on_train_begin()],
    [train()], [eval()], [on_epoch_begin(epoch)], [on_epoch_end(epoch)] and
    [on_train_end()]. *)
Inductive hook : Type :=
  | on_train_begin
  | train_mode
  | eval_mode
  | on_epoch_begin (epoch : Z)
  | on_epoch_end (epoch : Z)
  | on_train_end.

(** What [MLProject] is handed from outside this file: the model and the
    dataset factory its subclasses build ([get_model], [get_dataset_factory]
    raise [NotImplementedError] in the base class), [mlproject.log] and
    [mlproject.utils], and the arithmetic of the numbers the model reports.
    [Tensor] is what the model returns per batch, [Score] the plain Python
    number that [float(to_numpy(value) / n)] makes of it. The model is a value
    that each call may replace; [model.log] is kept beside it and handed to
    the batch calls that read it. A call into a collaborator is taken to
    return: what it raises is not caught by [MLProject] and ends the run. *)
Class Collaborators : Type := {
  Model : Type;
  Batch : Type;
  Tensor : Type;
  Score : Type;
  DatasetFactory : Type;
  (* mlproject.model.Model *)
  model_name : Model -> string;
  benchmark_metric : Model -> string;
  metrics : Model -> list string;
  model_state_dict : Model -> list (string * Tensor);
  load_state_dict : Model -> list (string * Tensor) -> outcome Model;
  model_to : string -> Model -> Model;
  model_hook : hook -> Model -> Model;
  train_batch : option LogLevel -> Batch -> Model -> Model * gmap string Tensor;
  test_batch : option LogLevel -> Batch -> Model -> Model * gmap string Tensor;
  (* mlproject.data.DatasetFactory *)
  train_loader : DatasetFactory -> list Batch;
  test_loader : DatasetFactory -> list Batch;
  test_set_len : DatasetFactory -> Z;
  has_test_set : DatasetFactory -> bool;
  (* the static methods a subclass provides *)
  get_model : gmap string value -> Model;
  get_dataset_factory : gmap string value -> DatasetFactory;
  (* mlproject.log, torch.cuda, torch.device *)
  get_tensorboard_dir : string -> string;
  cuda_is_available : bool;
  torch_device : value -> outcome string;
  (* float(to_numpy(value) / n), 0, + and < on Python numbers *)
  score_of : Tensor -> Z -> Score;
  score_zero : Score;
  score_add : Score -> Score -> Score;
  score_lt : Score -> Score -> bool;
}.

(* ===================================================================== *)
(** * The instance, the checkpoint and the world around them *)
(* ===================================================================== *)

Section MLProject.

Context {C : Collaborators}.

(** [sacred.run.Run], as far as it is read. *)
Record Run : Type := mkRun {
  run_id : option Z;
  run_config : gmap string value;
}.

(** The attributes of an [MLProject] instance ([self.writer] follows from
    [tensorboard_run_dir]; [model_log] is [self.model.log]). *)
Record MLProject : Type := mkMLProject {
  _id : Z;
  config : gmap string value;
  _run : option Run;
  dataset_factory : DatasetFactory;
  model : Model;
  model_log : option LogLevel;
  device : string;
  global_step : Z;
  epoch : Z;
  epoch_step : Z;
  best_score : option Score;
  tensorboard_run_dir : option string;
  model_save_dir : string;
}.

(** The dictionary [state_dict()] returns and [torch.save] writes. *)
Record Checkpoint : Type := mkCheckpoint {
  ck_id : Z;
  ck_config : gmap string value;
  ck_global_step : Z;
  ck_epoch : Z;
  ck_epoch_step : Z;
  ck_best_score : option Score;
  ck_model_save_dir : string;
  ck_tensorboard_run_dir : option string;
  ck_model_state : list (string * Tensor);
}.

(** The file system: the checkpoint files by path, the directories made, and
    the working directory [os.path.abspath] resolves against. *)
Record World : Type := mkWorld {
  files : gmap string Checkpoint;
  dirs : gset string;
  cwd : string;
}.

(** The calls that leave the instance, in the order they are made. *)
Inductive call : Type :=
  | CallHook (h : hook)
  | CallTrainBatch (b : Batch)
  | CallTestBatch (b : Batch)
  | CallAddScalarsTrain (metrics : gmap string Tensor) (step : Z)
  | CallAddScalarsTest (test_losses : gmap string Score) (step : Z)
  | CallPrint (test_losses : gmap string Score)
  | CallTorchSave (filename : string)
  | CallAddArtifact (filename : string).

(** The state a method runs in: [self], the world, and the trace of calls,
    each with the instance as it was when the call was made. *)
Record St : Type := mkSt {
  self : MLProject;
  world : World;
  trace : list (call * MLProject);
}.

Definition set_model (m : Model) (s : MLProject) : MLProject :=
  mkMLProject (_id s) (config s) (_run s) (dataset_factory s) m (model_log s) (device s)
    (global_step s) (epoch s) (epoch_step s) (best_score s)
    (tensorboard_run_dir s) (model_save_dir s).

Definition set_model_log (l : LogLevel) (s : MLProject) : MLProject :=
  mkMLProject (_id s) (config s) (_run s) (dataset_factory s) (model s) (Some l) (device s)
    (global_step s) (epoch s) (epoch_step s) (best_score s)
    (tensorboard_run_dir s) (model_save_dir s).

Definition set_global_step (z : Z) (s : MLProject) : MLProject :=
  mkMLProject (_id s) (config s) (_run s) (dataset_factory s) (model s) (model_log s) (device s)
    z (epoch s) (epoch_step s) (best_score s)
    (tensorboard_run_dir s) (model_save_dir s).

Definition set_epoch (z : Z) (s : MLProject) : MLProject :=
  mkMLProject (_id s) (config s) (_run s) (dataset_factory s) (model s) (model_log s) (device s)
    (global_step s) z (epoch_step s) (best_score s)
    (tensorboard_run_dir s) (model_save_dir s).

Definition set_epoch_step (z : Z) (s : MLProject) : MLProject :=
  mkMLProject (_id s) (config s) (_run s) (dataset_factory s) (model s) (model_log s) (device s)
    (global_step s) (epoch s) z (best_score s)
    (tensorboard_run_dir s) (model_save_dir s).

Definition set_best_score (b : option Score) (s : MLProject) : MLProject :=
  mkMLProject (_id s) (config s) (_run s) (dataset_factory s) (model s) (model_log s) (device s)
    (global_step s) (epoch s) (epoch_step s) b
    (tensorboard_run_dir s) (model_save_dir s).

(* ===================================================================== *)
(** * The monad of the methods *)
(* ===================================================================== *)

Definition M (A : Type) : Type := St -> outcome A * St.

Definition ret {A : Type} (a : A) : M A := fun st => (Ok a, st).

Definition bind {A B : Type} (m : M A) (k : A -> M B) : M B :=
  fun st =>
    match m st with
    | (Ok a, st') => k a st'
    | (Raise e, st') => (Raise e, st')
    | (OutOfFuel, st') => (OutOfFuel, st')
    end.

Definition raise {A : Type} (e : exn) : M A := fun st => (Raise e, st).

Definition out_of_fuel {A : Type} : M A := fun st => (OutOfFuel, st).

(** Read [self]. *)
Definition get : M MLProject := fun st => (Ok (self st), st).

(** Assign attributes of [self]. *)
Definition modify (f : MLProject -> MLProject) : M unit :=
  fun st => (Ok tt, mkSt (f (self st)) (world st) (trace st)).

(** A method that only reads [self]. *)
Definition reads {A : Type} (f : MLProject -> outcome A) : M A :=
  fun st => (f (self st), st).

(** A method that assigns attributes of [self], or raises before it does. *)
Definition updates (f : MLProject -> outcome MLProject) : M unit :=
  fun st =>
    match f (self st) with
    | Ok s' => (Ok tt, mkSt s' (world st) (trace st))
    | Raise e => (Raise e, st)
    | OutOfFuel => (OutOfFuel, st)
    end.

(** Record a call that leaves the instance. *)
Definition emit (c : call) : M unit :=
  fun st => (Ok tt, mkSt (self st) (world st) (trace st ++ [(c, self st)])).

(** [try: m except TrainingStop: break]: says whether the stop was raised. *)
Definition catch_stop (m : M unit) : M bool :=
  fun st =>
    match m st with
    | (Ok _, st') => (Ok false, st')
    | (Raise TrainingStop, st') => (Ok true, st')
    | (Raise e, st') => (Raise e, st')
    | (OutOfFuel, st') => (OutOfFuel, st')
    end.

#[global] Instance M_ret : MRet M := @ret.
#[global] Instance M_bind : MBind M := fun A B k m => bind m k.

End MLProject.

(* ===================================================================== *)
(** * The methods of [MLProject] *)
(* ===================================================================== *)

Section Methods.

Context {C : Collaborators}.

(** [get_model_dir(config, model_identifier)] *)
Definition get_model_dir (config : gmap string value) (model_identifier : string)
  : outcome string :=
  match config !! "model_dir" with
  | Some (VStr model_dir) => Ok (posixpath.join model_dir model_identifier)
  | Some _ => Raise TypeError
  | None => Raise (Exception "Cannot figure out model dir.")
  end.

(** The name of the device: [config['device']] when the key is there, else
    what [torch.cuda.is_available()] decides. *)
Definition device_name (config : gmap string value) : value :=
  match config !! "device" with
  | Some v => v
  | None => VStr (if cuda_is_available then "cuda:0" else "cpu")
  end.

(** The arguments of [MLProject.__init__]. *)
Record InitArgs : Type := mkInitArgs {
  arg_config : gmap string value;
  arg_id : option Z;
  arg_global_step : Z;
  arg_epoch : Z;
  arg_epoch_step : Z;
  arg_best_score : option Score;
  arg_model_save_dir : option string;
  arg_tensorboard_run_dir : option string;
  arg_model_state : option (list (string * Tensor));
  arg_run : option Run;
}.

(** The defaults of the keyword arguments. *)
Definition default_args (config : gmap string value) : InitArgs :=
  mkInitArgs config None 0 0 0 None None None None None.

(** [MLProject.__init__]; [rnd] is what [random.randint(int(1e10), int(1e10)
    + int(1e8))] draws when it is called. [copy.deepcopy] of a configuration
    of immutable values is the configuration. The [best_score] argument is
    accepted and not read. *)
Definition __init__ (rnd : Z) (a : InitArgs) (w : World) : outcome (MLProject * World) :=
  let _id := match arg_id a with
             | Some z => if z =? 0 then rnd else z
             | None => rnd
             end in
  let config := arg_config a in
  let dataset_factory := get_dataset_factory config in
  let model := get_model config in
  obind (match arg_model_state a with
         | Some ((_ :: _) as model_state) => load_state_dict model model_state
         | _ => Ok model
         end) (fun model =>
  obind (torch_device (device_name config)) (fun device =>
  let model := model_to device model in
  let tensorboard_run_dir :=
    match arg_tensorboard_run_dir a with
    | None =>
        if truthy (dict_get config "tensorboard_dir")
        then Some (get_tensorboard_dir (str _id +:+ "_" +:+ model_name model))
        else None
    | Some d => Some d
    end in
  let finish (model_save_dir : string) : MLProject :=
    mkMLProject _id config (arg_run a) dataset_factory model None device
      (arg_global_step a) (arg_epoch a) (arg_epoch_step a) None
      tensorboard_run_dir model_save_dir in
  match arg_model_save_dir a with
  | None =>
      obind (get_model_dir config (str _id +:+ "_" +:+ model_name model))
        (fun model_save_dir =>
           (* os.makedirs(self.model_save_dir) *)
           if bool_decide (model_save_dir ∈ dirs w)
           then Raise (FileExistsError model_save_dir)
           else Ok (finish model_save_dir,
                    mkWorld (files w) ({[model_save_dir]} ∪ dirs w) (cwd w)))
  | Some model_save_dir => Ok (finish model_save_dir, w)
  end)).

(** [MLProject.from_run] *)
Definition from_run (rnd : Z) (_run : Run) (w : World) : outcome (MLProject * World) :=
  __init__ rnd (mkInitArgs (run_config _run) (run_id _run) 0 0 0 None None None None
                  (Some _run)) w.

(** A call of a model hook: the model may change, nothing comes back. *)
Definition call_hook (h : hook) : M unit :=
  emit (CallHook h) ;;
  modify (fun s => set_model (model_hook h (model s)) s).

(** [self.model.train_batch(batch)] *)
Definition call_train_batch (b : Batch) : M (gmap string Tensor) :=
  emit (CallTrainBatch b) ;;
  s ← get ;
  let r := train_batch (model_log s) b (model s) in
  modify (set_model (fst r)) ;;
  ret (snd r).

(** [self.model.test_batch(batch)] *)
Definition call_test_batch (b : Batch) : M (gmap string Tensor) :=
  emit (CallTestBatch b) ;;
  s ← get ;
  let r := test_batch (model_log s) b (model s) in
  modify (set_model (fst r)) ;;
  ret (snd r).

(** [MLProject._is_better]; [self.best_score > score] is [score <
    self.best_score] on Python numbers. *)
Definition _is_better (s : MLProject) (score : Score) : outcome bool :=
  match best_score s with
  | None => Ok true
  | Some best =>
      if bool_decide (benchmark_metric (model s) ∈ ["accuracy"; "loss"])
      then Ok (score_lt best score)
      else if String.eqb (benchmark_metric (model s)) "nll"
      then Ok (score_lt score best)
      else Raise (Exception EmptyString)
  end.

(** The inner loop of [test]: one batch's losses added into [test_losses]. *)
Definition accumulate (n_test_samples : Z) (losses : gmap string Tensor)
    (test_losses : gmap string Score) : gmap string Score :=
  map_fold (fun name value acc =>
              <[name := score_add (default score_zero (acc !! name))
                                  (score_of value n_test_samples)]> acc)
           test_losses losses.

(** The outer loop of [test] over [test_loader()]. *)
Fixpoint test_batches (n_test_samples : Z) (batches : list Batch)
    (test_losses : gmap string Score) : M (gmap string Score) :=
  match batches with
  | [] => ret test_losses
  | batch :: rest =>
      losses ← call_test_batch batch ;
      test_batches n_test_samples rest (accumulate n_test_samples losses test_losses)
  end.

(** [MLProject.test] *)
Definition test : M Score :=
  call_hook eval_mode ;;
  s ← get ;
  let n_test_samples := test_set_len (dataset_factory s) in
  test_losses ← test_batches n_test_samples (test_loader (dataset_factory s)) ∅ ;
  s ← get ;
  emit (CallAddScalarsTest test_losses (global_step s)) ;;
  emit (CallPrint test_losses) ;;
  match test_losses !! benchmark_metric (model s) with
  | Some v => ret v
  | None => raise (KeyError (benchmark_metric (model s)))
  end.

(** [MLProject._should_stop_training] *)
Definition _should_stop_training (s : MLProject) : outcome bool :=
  match config s !! "n_global_iterations" with
  | Some n_global_iterations => py_ge (global_step s) n_global_iterations
  | None =>
      obind (dict_getitem (config s) "n_epochs") (fun n_epochs =>
      py_ge (epoch s) n_epochs)
  end.

(** [MLProject._set_log_level] *)
Definition _set_log_level (s : MLProject) : outcome MLProject :=
  let log_it_scalars := dict_get (config s) "log_iteration_scalars" in
  let log_it_all := dict_get (config s) "log_iteration_all" in
  obind (py_and_divides log_it_all (epoch_step s)) (fun use_all =>
  if use_all : bool then Ok (set_model_log ALL s)
  else
    obind (py_and_divides log_it_scalars (epoch_step s)) (fun use_scalars =>
    if use_scalars : bool then Ok (set_model_log SCALARS s)
    else Ok (set_model_log NONE s))).

(** The body of the loop of [train_epoch] over the batches of the loader. *)
Fixpoint train_batches (batches : list Batch) : M unit :=
  match batches with
  | [] => ret tt
  | batch :: rest =>
      updates _set_log_level ;;
      outs ← call_train_batch batch ;
      s ← get ;
      let metrics := filter (fun kv => fst kv ∈ metrics (model s)) outs in
      emit (CallAddScalarsTrain metrics (global_step s)) ;;
      modify (fun s => set_global_step (global_step s + 1) s) ;;
      modify (fun s => set_epoch_step (epoch_step s + 1) s) ;;
      stop ← reads _should_stop_training ;
      if stop : bool then raise TrainingStop else train_batches rest
  end.

(** [MLProject.train_epoch] *)
Definition train_epoch : M unit :=
  stop ← reads _should_stop_training ;
  if stop : bool then raise TrainingStop
  else
    s ← get ;
    let progbar := train_loader (dataset_factory s) in
    call_hook (on_epoch_begin (epoch s)) ;;
    modify (set_epoch_step 0) ;;
    train_batches progbar ;;
    s ← get ;
    call_hook (on_epoch_end (epoch s)).

(** [MLProject.state_dict] *)
Definition state_dict (s : MLProject) : Checkpoint :=
  mkCheckpoint (_id s) (config s) (global_step s) (epoch s) (epoch_step s)
    (best_score s) (model_save_dir s) (tensorboard_run_dir s)
    (model_state_dict (model s)).

(** [MLProject.save_filename] *)
Definition save_filename (cwd : string) (s : MLProject) : string :=
  posixpath.abspath cwd
    (posixpath.join (model_save_dir s)
       (model_name (model s) +:+ "_e" +:+ format_05 (epoch s) +:+ "_b"
          +:+ format_05 (epoch_step s) +:+ ".torch")).

(** [MLProject.save]: [torch.save] writes the dictionary under the name. *)
Definition save : M string :=
  fun st =>
    let filename := save_filename (cwd (world st)) (self st) in
    (Ok filename,
     mkSt (self st)
          (mkWorld (<[filename := state_dict (self st)]> (files (world st)))
                   (dirs (world st)) (cwd (world st)))
          (trace st ++ [(CallTorchSave filename, self st)])).

(** [MLProject.load]: the class called on what [torch.load(filename)]
    returns, every key of the dictionary a keyword argument. *)
Definition load (rnd : Z) (filename : string) (w : World) : outcome (MLProject * World) :=
  match files w !! filename with
  | None => Raise (FileNotFoundError filename)
  | Some d =>
      __init__ rnd
        (mkInitArgs (ck_config d) (Some (ck_id d)) (ck_global_step d) (ck_epoch d)
           (ck_epoch_step d) (ck_best_score d) (Some (ck_model_save_dir d))
           (ck_tensorboard_run_dir d) (Some (ck_model_state d)) None) w
  end.

(** The [while True] of [train], [fuel] turns of it at most. *)
Fixpoint train_loop (fuel : nat) (best_model_fname : option string) : M (option string) :=
  match fuel with
  | O => out_of_fuel
  | S fuel' =>
      stopped ← catch_stop train_epoch ;
      if stopped : bool then ret best_model_fname
      else
        s ← get ;
        best_model_fname ←
          (if has_test_set (dataset_factory s) then
             score ← test ;
             better ← reads (fun s => _is_better s score) ;
             if better : bool then
               fname ← save ;
               modify (set_best_score (Some score)) ;;
               ret (Some fname)
             else ret best_model_fname
           else ret best_model_fname) ;
        modify (fun s => set_epoch (epoch s + 1) s) ;;
        train_loop fuel' best_model_fname
  end.

(** [MLProject.train] *)
Definition train (fuel : nat) : M unit :=
  call_hook on_train_begin ;;
  call_hook train_mode ;;
  best_model_fname ← train_loop fuel None ;
  s ← get ;
  match best_model_fname, _run s with
  | Some fname, Some _ => emit (CallAddArtifact fname)
  | _, _ => ret tt
  end ;;
  call_hook on_train_end.

End Methods.

(* ===================================================================== *)
(** * The vocabulary of the properties *)
(* ===================================================================== *)

Section Vocabulary.

Context {C : Collaborators}.

Definition set_config (c : gmap string value) (s : MLProject) : MLProject :=
  mkMLProject (_id s) c (_run s) (dataset_factory s) (model s) (model_log s) (device s)
    (global_step s) (epoch s) (epoch_step s) (best_score s)
    (tensorboard_run_dir s) (model_save_dir s).

(** The benchmark-metric kinds the improvement rule knows. *)
Definition known_kind (kind : string) : Prop :=
  kind = "accuracy" \/ kind = "loss" \/ kind = "nll".

(** A logging interval as the configuration holds it: an integer, or [None]
    when none is set. *)
Definition interval (o : option Z) : value :=
  match o with
  | Some k => VInt k
  | None => VNone
  end.

(** The interval is configured (set, and not to 0) and [step] is a multiple
    of it. *)
Definition due (o : option Z) (step : Z) : Prop :=
  exists k, o = Some k /\ k <> 0 /\ (k | step).

(** The level the specification asks for. *)
Definition select_level (log_it_all log_it_scalars : option Z) (step : Z) (l : LogLevel)
  : Prop :=
  (due log_it_all step /\ l = ALL)
  \/ (~ due log_it_all step /\ due log_it_scalars step /\ l = SCALARS)
  \/ (~ due log_it_all step /\ ~ due log_it_scalars step /\ l = NONE).

(** ** Evaluation *)

(** What [test_batch] hands back, batch after batch, the model going from
    one call to the next. *)
Fixpoint test_outputs (l : option LogLevel) (m : Model) (batches : list Batch)
  : list (gmap string Tensor) :=
  match batches with
  | [] => []
  | b :: rest => snd (test_batch l b m) :: test_outputs l (fst (test_batch l b m)) rest
  end.

Fixpoint model_after_test (l : option LogLevel) (m : Model) (batches : list Batch) : Model :=
  match batches with
  | [] => m
  | b :: rest => model_after_test l (fst (test_batch l b m)) rest
  end.

(** The mapping [test] has accumulated when the loader is exhausted. *)
Definition aggregate (n_test_samples : Z) (outputs : list (gmap string Tensor))
  : gmap string Score :=
  fold_left (fun acc losses => accumulate n_test_samples losses acc) outputs ∅.

(** The values the batches report under [name], in the order of the batches. *)
Definition reported (name : string) (outputs : list (gmap string Tensor)) : list Tensor :=
  omap (fun losses : gmap string Tensor => losses !! name) outputs.

(** The sum over the batches of [value / n], from 0 on. *)
Definition weighted_sum (n : Z) (values : list Tensor) : Score :=
  fold_left score_add (map (fun v => score_of v n) values) score_zero.

(** The state in which [test] runs its batches, and the outputs it gets. *)
Definition eval_model (s : MLProject) : Model := model_hook eval_mode (model s).

Definition eval_outputs (s : MLProject) : list (gmap string Tensor) :=
  test_outputs (model_log s) (eval_model s) (test_loader (dataset_factory s)).

Definition eval_losses (s : MLProject) : gmap string Score :=
  aggregate (test_set_len (dataset_factory s)) (eval_outputs s).

(** The name [test] looks up: the benchmark metric of the model as the
    batches left it. *)
Definition eval_benchmark (s : MLProject) : string :=
  benchmark_metric
    (model_after_test (model_log s) (eval_model s) (test_loader (dataset_factory s))).

(** ** The training loop as a transition system *)

Definition with_self (f : MLProject -> MLProject) (st : St) : St :=
  mkSt (f (self st)) (world st) (trace st).

Definition push (c : call) (st : St) : St :=
  mkSt (self st) (world st) (trace st ++ [(c, self st)]).

Definition with_files (f : gmap string Checkpoint) (st : St) : St :=
  mkSt (self st) (mkWorld f (dirs (world st)) (cwd (world st))) (trace st).

(** The calls that neither train on a batch nor open an epoch. *)
Definition quiet (c : call) : Prop :=
  match c with
  | CallTrainBatch _ | CallAddScalarsTrain _ _ | CallHook (on_epoch_begin _) => False
  | _ => True
  end.

(** How a model comes out of a call into it. *)
Inductive model_call (m : Model) : Model -> Prop :=
  | mc_hook (h : hook) : model_call m (model_hook h m)
  | mc_train (l : option LogLevel) (b : Batch) : model_call m (fst (train_batch l b m))
  | mc_test (l : option LogLevel) (b : Batch) : model_call m (fst (test_batch l b m)).

(** The steps that leave the counters, the best score and the configuration
    alone. *)
Inductive quiet_step : St -> St -> Prop :=
  | qs_model (st : St) (m' : Model) :
      model_call (model (self st)) m' -> quiet_step st (with_self (set_model m') st)
  | qs_log (st : St) (l : LogLevel) : quiet_step st (with_self (set_model_log l) st)
  | qs_call (st : St) (c : call) : quiet c -> quiet_step st (push c st)
  | qs_save (st : St) (filename : string) (d : Checkpoint) :
      quiet_step st (with_files (<[filename := d]> (files (world st))) st).

(** The opening of an epoch: the hook, then [epoch_step = 0]. *)
Definition epoch_begin_step (st : St) : St :=
  let h := on_epoch_begin (epoch (self st)) in
  with_self (set_epoch_step 0)
    (with_self (fun s => set_model (model_hook h (model s)) s) (push (CallHook h) st)).

(** One batch, from the call of the model to the two counters. *)
Definition batch_step (b : Batch) (st : St) : St :=
  let st1 := push (CallTrainBatch b) st in
  let r := train_batch (model_log (self st1)) b (model (self st1)) in
  let st2 := with_self (set_model (fst r)) st1 in
  let metrics := filter (fun kv => fst kv ∈ metrics (model (self st2))) (snd r) in
  let st3 := push (CallAddScalarsTrain metrics (global_step (self st2))) st2 in
  with_self (fun s => set_epoch_step (epoch_step s + 1) s)
    (with_self (fun s => set_global_step (global_step s + 1) s) st3).

(** The end of an evaluation that improves: the summary is printed, the
    checkpoint saved, the score kept. *)
Definition best_step (test_losses : gmap string Score) (score : Score) (st : St) : St :=
  with_self (set_best_score (Some score)) (snd (save (push (CallPrint test_losses) st))).

Definition epoch_end_step (st : St) : St :=
  with_self (fun s => set_epoch (epoch s + 1) s) st.

(** The steps of [train]. A batch is trained on, and the epoch counted, only
    from a state in which the stop predicate says no. *)
Inductive loop_step : St -> St -> Prop :=
  | ls_quiet (st st' : St) : quiet_step st st' -> loop_step st st'
  | ls_epoch_begin (st : St) : loop_step st (epoch_begin_step st)
  | ls_batch (st : St) (b : Batch) :
      _should_stop_training (self st) = Ok false -> loop_step st (batch_step b st)
  | ls_best (st : St) (test_losses : gmap string Score) (score : Score) :
      loop_step st (best_step test_losses score st)
  | ls_epoch_end (st : St) :
      _should_stop_training (self st) = Ok false -> loop_step st (epoch_end_step st).

(** Whatever the method returns or raises, its state was reached by steps
    of [R]. *)
Definition runs (R : St -> St -> Prop) {A : Type} (m : M A) : Prop :=
  forall st : St, rtc R st (snd (m st)).

(** The evaluation [train] runs after an epoch when there is a test set. *)
Definition improve (best_model_fname : option string) : M (option string) :=
  score ← test ;
  better ← reads (fun s => _is_better s score) ;
  if better : bool then
    fname ← save ;
    modify (set_best_score (Some score)) ;;
    ret (Some fname)
  else ret best_model_fname.

(** What no step of the loop assigns. *)
Definition same_setup (s s' : MLProject) : Prop :=
  _id s' = _id s /\ config s' = config s /\ _run s' = _run s
  /\ dataset_factory s' = dataset_factory s /\ device s' = device s
  /\ tensorboard_run_dir s' = tensorboard_run_dir s
  /\ model_save_dir s' = model_save_dir s.

(** What an evaluation leaves alone besides. *)
Definition same_progress (s s' : MLProject) : Prop :=
  global_step s' = global_step s /\ epoch s' = epoch s /\ epoch_step s' = epoch_step s.

(** ** The counters read off the trace *)

(** The batches a sequence of calls has completed: a batch is done when the
    model was trained on it and its metrics went to the writer. *)
Definition completed_batches (calls : list call) : Z :=
  fold_left (fun k c => match c with
                        | CallAddScalarsTrain _ _ => k + 1
                        | _ => k
                        end) calls 0.

(** The batches completed since the last epoch was opened, [k0] when none
    was. *)
Definition batches_in_epoch (k0 : Z) (calls : list call) : Z :=
  fold_left (fun k c => match c with
                        | CallHook (on_epoch_begin _) => 0
                        | CallAddScalarsTrain _ _ => k + 1
                        | _ => k
                        end) calls k0.

(** An evaluation has got as far as its summary. *)
Definition evaluated (calls : list call) : bool :=
  existsb (fun c => match c with CallPrint _ => true | _ => false end) calls.

(** The counters of [s] are what the calls made since [s0] account for. *)
Definition accounted (s0 : MLProject) (calls : list call) (s : MLProject) : Prop :=
  global_step s = global_step s0 + completed_batches calls
  /\ epoch_step s = batches_in_epoch (epoch_step s0) calls
  /\ (evaluated calls = false -> best_score s = best_score s0).

Definition is_train_batch (c : call) : Prop :=
  match c with
  | CallTrainBatch _ => True
  | _ => False
  end.

(** The trace since [st0] accounts for the counters at every call made
    since, and for the counters now. *)
Definition faithful (st0 st : St) : Prop :=
  exists seg : list (call * MLProject),
    trace st = trace st0 ++ seg
    /\ (forall (i : nat) (c : call) (s : MLProject),
          seg !! i = Some (c, s) -> accounted (self st0) (map fst (take i seg)) s)
    /\ accounted (self st0) (map fst seg) (self st).

(** No call trains on a batch once [global_step] has reached [n]. *)
Definition trains_below (n : Z) (seg : list (call * MLProject)) : Prop :=
  Forall (fun e => is_train_batch (fst e) -> global_step (snd e) < n) seg.

(** ** File names *)

(** No ['/'] in the string. *)
Fixpoint slash_free (s : string) : bool :=
  match s with
  | EmptyString => true
  | String c s' => negb (Ascii.eqb c posixpath.sep) && slash_free s'
  end.

Definition ends_with (suffix s : string) : Prop :=
  exists prefix : string, s = prefix +:+ suffix.

Definition contains (part s : string) : Prop :=
  exists before after : string, s = before +:+ part +:+ after.

(** [<model_name>_e<epoch:05d>_b<epoch_step:05d>.<ext>] *)
Definition checkpoint_pattern (model_name : string) (epoch epoch_step : Z) (ext : string)
  : string :=
  model_name +:+ "_e" +:+ format_05 epoch +:+ "_b" +:+ format_05 epoch_step
    +:+ "." +:+ ext.

(** What comes before the last component of a path: nothing, or something
    that ends in ['/']. *)
Definition dir_prefix (q : string) : Prop :=
  q = EmptyString \/ exists q', q = q' +:+ "/".

(** ** Checkpoints *)

(** The names under which a model keeps its state. *)
Definition state_keys (m : Model) : list string := map fst (model_state_dict m).

(** What the checkpoint store relies on from [torch.nn.Module]: a state
    loads into a model with the same keys and no other, the loaded model
    holds that state, moving a model to a device keeps its state, and no call
    changes the keys. *)
Class ModelLaws : Prop := {
  load_state_dict_holds (m m' : Model) (sd : list (string * Tensor)) :
    load_state_dict m sd = Ok m' -> model_state_dict m' = sd;
  load_state_dict_strict (m m' : Model) (sd : list (string * Tensor)) :
    load_state_dict m sd = Ok m' -> map fst sd = state_keys m;
  load_state_dict_fits (m : Model) (sd : list (string * Tensor)) :
    map fst sd = state_keys m -> exists m', load_state_dict m sd = Ok m';
  model_to_state (d : string) (m : Model) :
    model_state_dict (model_to d m) = model_state_dict m;
  model_call_keys (m m' : Model) : model_call m m' -> state_keys m' = state_keys m;
}.

(** The states a run is in: a new instance, an instance loaded from a
    checkpoint, and whatever the methods make of them. *)
Inductive reachable : St -> Prop :=
  | reach_init (rnd : Z) (a : InitArgs) (w w' : World) (s : MLProject)
               (tr : list (call * MLProject)) :
      10 ^ 10 <= rnd <= 10 ^ 10 + 10 ^ 8 ->
      __init__ rnd a w = Ok (s, w') ->
      reachable (mkSt s w' tr)
  | reach_load (rnd : Z) (filename : string) (st : St) (w' : World) (s : MLProject) :
      10 ^ 10 <= rnd <= 10 ^ 10 + 10 ^ 8 ->
      reachable st ->
      load rnd filename (world st) = Ok (s, w') ->
      reachable (mkSt s w' (trace st))
  | reach_train (fuel : nat) (st : St) : reachable st -> reachable (snd (train fuel st))
  | reach_train_epoch (st : St) : reachable st -> reachable (snd (train_epoch st))
  | reach_test (st : St) : reachable st -> reachable (snd (test st))
  | reach_save (st : St) : reachable st -> reachable (snd (save st)).

(** What [load] needs of the instance that was saved. *)
Definition loadable (s : MLProject) : Prop :=
  _id s <> 0
  /\ (tensorboard_run_dir s = None -> truthy (dict_get (config s) "tensorboard_dir") = false)
  /\ (exists d, torch_device (device_name (config s)) = Ok d)
  /\ state_keys (model s) = state_keys (get_model (config s)).

End Vocabulary.

(* ===================================================================== *)
(** * What a run can be seen to do *)
(* ===================================================================== *)

Section Observations.

Context {C : Collaborators}.

(** From [st] to [st'] the run has made the calls [calls], in that order,
    and no other. *)
Definition calls_made (st st' : St) (calls : list call) : Prop :=
  exists seg : list (call * MLProject), trace st' = trace st ++ seg /\ map fst seg = calls.

(** ** The kinds of calls *)

(** The two calls [train_epoch] makes for a batch. *)
Definition batch_call (c : call) : bool :=
  match c with
  | CallTrainBatch _ | CallAddScalarsTrain _ _ => true
  | _ => false
  end.

(** The calls of [train_epoch]. *)
Definition training_call (c : call) : bool :=
  match c with
  | CallHook (on_epoch_begin _) | CallHook (on_epoch_end _) => true
  | _ => batch_call c
  end.

(** The calls of [test]. *)
Definition evaluation_call (c : call) : bool :=
  match c with
  | CallHook eval_mode | CallTestBatch _ | CallAddScalarsTest _ _ | CallPrint _ => true
  | _ => false
  end.

Definition save_call (c : call) : bool :=
  match c with
  | CallTorchSave _ => true
  | _ => false
  end.

(** The calls of the [while True] of [train]: those of the epochs, of the
    evaluations and of the checkpoints. *)
Definition loop_call (c : call) : bool :=
  training_call c || evaluation_call c || save_call c.

(** ** What the calls tell *)

(** The batches the model was trained on, in the order of the calls. *)
Definition trained_on (calls : list call) : list Batch :=
  omap (fun c => match c with CallTrainBatch b => Some b | _ => None end) calls.

(** The steps under which the metrics of the batches went to the writer. *)
Definition scalar_steps (calls : list call) : list Z :=
  omap (fun c => match c with CallAddScalarsTrain _ step => Some step | _ => None end) calls.

(** The files [torch.save] was asked to write. *)
Definition saved (calls : list call) : list string :=
  omap (fun c => match c with CallTorchSave filename => Some filename | _ => None end) calls.

(** The files handed to [_run.add_artifact]. *)
Definition artifacts (calls : list call) : list string :=
  omap (fun c => match c with CallAddArtifact filename => Some filename | _ => None end) calls.

(** The epochs whose start the model was told of. *)
Definition begun_epochs (calls : list call) : list Z :=
  omap (fun c => match c with CallHook (on_epoch_begin e) => Some e | _ => None end) calls.

(** The epochs whose end the model was told of. *)
Definition ended_epochs (calls : list call) : list Z :=
  omap (fun c => match c with CallHook (on_epoch_end e) => Some e | _ => None end) calls.

(** The evaluations started: one for every [model.eval()]. *)
Definition evaluations (calls : list call) : nat :=
  length (omap (fun c => match c with CallHook eval_mode => Some tt | _ => None end) calls).

(** ** The loop of [train] *)

(** The checkpoint [train] has in hand: the last one saved, or the one it
    had. *)
Definition in_hand (best : option string) (calls : list call) : option string :=
  match last (saved calls) with
  | Some filename => Some filename
  | None => best
  end.

(** What [train] does once its loop has ended. *)
Definition closing (run : option Run) (loop : list call) : list call :=
  match run, last (saved loop) with
  | Some _, Some filename => [CallAddArtifact filename; CallHook on_train_end]
  | _, _ => [CallHook on_train_end]
  end.

(** The files from [st] to [st'] are the checkpoints that [calls] saved and
    otherwise what they were, and the best score has changed only if a
    checkpoint was saved. *)
Definition checkpoints_kept (st st' : St) (calls : list call) : Prop :=
  (forall f : string, f ∈ saved calls -> is_Some (files (world st') !! f))
  /\ (forall f : string, f ∉ saved calls -> files (world st') !! f = files (world st) !! f)
  /\ (saved calls = [] -> best_score (self st') = best_score (self st))
  /\ (saved calls <> [] -> is_Some (best_score (self st'))).

(** The epochs from [st] on: those begun and those ended are the epoch of
    [st] and the ones after it, one after the other; at most the last one
    begun has not ended; and each one that ended was evaluated if there is a
    test set. *)
Definition epochs_run (st : St) (calls : list call) : Prop :=
  begun_epochs calls = seqZ (epoch (self st)) (Z.of_nat (length (begun_epochs calls)))
  /\ ended_epochs calls = seqZ (epoch (self st)) (Z.of_nat (length (ended_epochs calls)))
  /\ (length (ended_epochs calls) <= length (begun_epochs calls)
      <= S (length (ended_epochs calls)))%nat
  /\ evaluations calls
     = (if has_test_set (dataset_factory (self st)) then length (ended_epochs calls)
        else 0%nat).

(** ** The log level *)

(** An interval is configured when it is set, and not to 0. *)
Definition configured (o : option Z) : bool :=
  match o with
  | Some k => negb (k =? 0)
  | None => false
  end.

(** The highest level that is configured. *)
Definition highest_level (log_it_all log_it_scalars : option Z) : LogLevel :=
  if configured log_it_all then ALL
  else if configured log_it_scalars then SCALARS
  else NONE.

(** ** Names *)

(** No character [c] in the string. *)
Fixpoint lacks (c : ascii) (s : string) : bool :=
  match s with
  | EmptyString => true
  | String x s' => negb (Ascii.eqb x c) && lacks c s'
  end.

(** The number a string of [format_05] spells: [int(s)]. *)
Definition int_of (s : string) : option Z :=
  option_map Z.of_int (NilZero.int_of_string s).

(** [k] zeros in front of a number. *)
Fixpoint leading_zeros (k : nat) (d : Decimal.uint) : Decimal.uint :=
  match k with
  | O => d
  | S k' => Decimal.D0 (leading_zeros k' d)
  end.

End Observations.

(* ===================================================================== *)
(** * A concrete set of collaborators *)
(* ===================================================================== *)

(** A model with one weight that sums the batches it is trained on and
    reports each batch as its [loss], over float batches; used to run the
    methods on concrete inputs. *)
Module Example.

Record LinearModel : Type := mkLinearModel {
  lm_name : string;
  lm_benchmark : string;
  weight : float;
}.

Record Data : Type := mkData {
  train_batches_of : list float;
  test_batches_of : list float;
  n_test : Z;
}.

Definition float_of_Z (z : Z) : float := PrimFloat.of_uint63 (Uint63.of_Z z).

Definition lm_load (m : LinearModel) (sd : list (string * float)) : outcome LinearModel :=
  match sd with
  | [(k, w)] =>
      if String.eqb k "weight" then Ok (mkLinearModel (lm_name m) (lm_benchmark m) w)
      else Raise (RuntimeError "Unexpected key(s) in state_dict")
  | _ => Raise (RuntimeError "Error(s) in loading state_dict")
  end.

Definition collaborators (m0 : LinearModel) (d : Data) : Collaborators := {|
  Model := LinearModel;
  Batch := float;
  Tensor := float;
  Score := float;
  DatasetFactory := Data;
  model_name := lm_name;
  benchmark_metric := lm_benchmark;
  metrics := fun _ => ["loss"];
  model_state_dict := fun m => [("weight", weight m)];
  load_state_dict := lm_load;
  model_to := fun _ m => m;
  model_hook := fun _ m => m;
  train_batch := fun _ b m =>
    (mkLinearModel (lm_name m) (lm_benchmark m) (weight m + b)%float, {["loss" := b]});
  test_batch := fun _ b m => (m, {["loss" := b]});
  train_loader := train_batches_of;
  test_loader := test_batches_of;
  test_set_len := n_test;
  has_test_set := fun d => bool_decide (test_batches_of d <> []);
  get_model := fun _ => m0;
  get_dataset_factory := fun _ => d;
  get_tensorboard_dir := fun name => "/tensorboard/" +:+ name;
  cuda_is_available := false;
torch_device := fun v => match v with
                         | VStr d => Ok d
                         | _ => Raise TypeError
                         end;
  score_of := fun v n => (v / float_of_Z n)%float;
  score_zero := 0%float;
  score_add := PrimFloat.add;
  score_lt := PrimFloat.ltb;
|}.

(** The model [net], scored by its [loss]; three training batches, two
    held-out batches over a test set of ten items. *)
Definition net : LinearModel := mkLinearModel "net" "loss" 0%float.

Definition data : Data := mkData [1%float; 2%float; 3%float] [2%float; 3%float] 10.

Definition world0 : World (C := collaborators net data) :=
  @mkWorld (collaborators net data) ∅ ∅ "/home/user".

Definition config_iterations : gmap string value :=
  <["model_dir" := VStr "models"]> (<["n_global_iterations" := VInt 100]> ∅).

Definition config_epochs : gmap string value :=
  <["model_dir" := VStr "models"]>
    (<["n_epochs" := VInt 3]>
       (<["log_iteration_all" := VInt 10]> (<["log_iteration_scalars" := VInt 2]> ∅))).

(** A new instance for a configuration, as [__init__] makes it when
    [random.randint] draws [10000000005]. *)
Definition project (config : gmap string value) : MLProject (C := collaborators net data) :=
  @mkMLProject (collaborators net data) 10000000005 config None data net None "cpu"
    0 0 0 None None "models/10000000005_net".

Definition world1 : World (C := collaborators net data) :=
  @mkWorld (collaborators net data) ∅ {["models/10000000005_net"]} "/home/user".

Definition start (config : gmap string value) : St (C := collaborators net data) :=
  @mkSt (collaborators net data) (project config) world1 [].

(** The instance once an evaluation has left a best score. *)
Definition scored (best : float) : MLProject (C := collaborators net data) :=
  @set_best_score (collaborators net data) (Some best) (project config_epochs).

(** A model whose benchmark metric is of a kind the improvement rule does
    not know and no batch reports, before and after a first best score. *)
Definition f1_net : LinearModel := mkLinearModel "net" "f1" 0%float.

Definition f1_project (best : option float) : MLProject (C := collaborators f1_net data) :=
  @mkMLProject (collaborators f1_net data) 10000000005 config_epochs None data f1_net
    None "cpu" 0 0 0 best None "models/10000000005_net".

Definition f1_start : St (C := collaborators f1_net data) :=
  @mkSt (collaborators f1_net data) (f1_project None)
    (@mkWorld (collaborators f1_net data) ∅ {["models/10000000005_net"]} "/home/user") [].

(** A sacred run with the id 7, and the instance [from_run] makes of it. *)
Definition run7 : Run := mkRun (Some 7) config_epochs.

Definition project_of_run : MLProject (C := collaborators net data) :=
  @mkMLProject (collaborators net data) 7 config_epochs (Some run7) data net None "cpu"
    0 0 0 None None "models/7_net".

Definition start_of_run : St (C := collaborators net data) :=
  @mkSt (collaborators net data) project_of_run
    (@mkWorld (collaborators net data) ∅ {["models/7_net"]} "/home/user") [].

(** The same data without a held-out part. *)
Definition data_no_test : Data := mkData [1%float; 2%float; 3%float] [] 0.

Definition start_no_test : St (C := collaborators net data_no_test) :=
  @mkSt (collaborators net data_no_test)
    (@mkMLProject (collaborators net data_no_test) 10000000005 config_epochs None
       data_no_test net None "cpu" 0 0 0 None None "models/10000000005_net")
    (@mkWorld (collaborators net data_no_test) ∅ {["models/10000000005_net"]} "/home/user")
    [].

(** A configuration with a directory and no budget, and one whose first
    interval is a string. *)
Definition config_no_budget : gmap string value := <["model_dir" := VStr "models"]> ∅.

Definition config_often : gmap string value :=
  <["log_iteration_all" := VStr "often"]> config_epochs.

End Example.

(* ===================================================================== *)
(** * Properties *)
(* ===================================================================== *)

Section Properties.

Context {C : Collaborators}.

(** ** The improvement rule *)

(** C2. With no best score yet every score is an improvement, whatever the
    kind of the benchmark metric. With a best score, a model of kind [nll]
    improves exactly when the score is strictly less than the best score, and
    a model of kind [accuracy] or [loss] exactly when it is strictly greater. *)
Theorem is_better_rule (s : MLProject) (score : Score) :
  (best_score s = None -> _is_better s score = Ok true) /\
  (forall best : Score, best_score s = Some best ->
     (benchmark_metric (model s) = "nll" ->
        _is_better s score = Ok (score_lt score best)) /\
     (benchmark_metric (model s) = "accuracy" \/ benchmark_metric (model s) = "loss" ->
        _is_better s score = Ok (score_lt best score))).
Proof.
  unfold _is_better. split.
  - intros ->. reflexivity.
  - intros best ->. split.
    + intros ->. reflexivity.
    + intros [-> | ->]; reflexivity.
Qed.

(** C3, as the code has it. Once a best score exists, a benchmark-metric kind
    that is none of [accuracy], [loss] and [nll] makes [_is_better] raise. *)
Theorem is_better_unknown_kind (s : MLProject) (score best : Score) :
  best_score s = Some best ->
  ~ known_kind (benchmark_metric (model s)) ->
  _is_better s score = Raise (Exception EmptyString).
Proof.
  intros Hb Hk. unfold _is_better. rewrite Hb.
  rewrite bool_decide_eq_false_2.
  - destruct (String.eqb_spec (benchmark_metric (model s)) "nll") as [E|E]; [|reflexivity].
    exfalso. apply Hk. right. right. exact E.
  - intros Hin. apply Hk. unfold known_kind.
    rewrite !elem_of_cons in Hin. destruct Hin as [H|[H|H]]; auto.
    apply elem_of_nil in H. destruct H.
Qed.

(** ** The log level *)

Lemma py_and_divides_interval (o : option Z) (step : Z) :
  exists b, py_and_divides (interval o) step = Ok b /\ (b = true <-> due o step).
Proof.
  destruct o as [k|]; cbn.
  - unfold py_and_divides. cbn. destruct (Z.eqb_spec k 0) as [->|Hk]; cbn.
    + exists false. split; [reflexivity|]. split; [discriminate|].
      intros (k & Hk & Hne & _). congruence.
    + exists (step mod k =? 0). split; [reflexivity|].
      rewrite Z.eqb_eq. split.
      * intros Hm. exists k. repeat split; [assumption|].
        apply Z.mod_divide; assumption.
      * intros (k' & Hk' & Hne & Hd). injection Hk' as <-.
        apply Z.mod_divide; assumption.
  - exists false. split; [reflexivity|]. split; [discriminate|].
    intros (k & Hk & _). discriminate.
Qed.

Lemma due_10_10 : due (Some 10) 10.
Proof. exists 10. repeat split; [lia|]. exists 1. lia. Qed.

Lemma due_2_4 : due (Some 2) 4.
Proof. exists 2. repeat split; [lia|]. exists 2. lia. Qed.

Lemma not_due_10_4 : ~ due (Some 10) 4.
Proof.
  intros (k & Hk & _ & Hd). injection Hk as <-.
  apply Z.mod_divide in Hd; [|lia]. discriminate.
Qed.

Lemma not_due_10_5 : ~ due (Some 10) 5.
Proof.
  intros (k & Hk & _ & Hd). injection Hk as <-.
  apply Z.mod_divide in Hd; [|lia]. discriminate.
Qed.

Lemma not_due_2_5 : ~ due (Some 2) 5.
Proof.
  intros (k & Hk & _ & Hd). injection Hk as <-.
  apply Z.mod_divide in Hd; [|lia]. discriminate.
Qed.

(** C5. Whatever the two intervals are set to, [_set_log_level] sets
    [model.log] to [ALL] when [log_iteration_all] is configured (set, and not
    to 0) and [epoch_step] is a multiple of it, otherwise to [SCALARS] when
    [log_iteration_scalars] is configured and [epoch_step] is a multiple of
    it, otherwise to [NONE]. With the intervals 10 and 2 the level is [ALL]
    at step 10, [SCALARS] at step 4 and [NONE] at step 5. *)
Theorem set_log_level_selection (s : MLProject) (log_it_all log_it_scalars : option Z) :
  dict_get (config s) "log_iteration_all" = interval log_it_all ->
  dict_get (config s) "log_iteration_scalars" = interval log_it_scalars ->
  exists l,
    _set_log_level s = Ok (set_model_log l s)
    /\ select_level log_it_all log_it_scalars (epoch_step s) l
    /\ (log_it_all = Some 10 -> log_it_scalars = Some 2 ->
        (epoch_step s = 10 -> l = ALL)
        /\ (epoch_step s = 4 -> l = SCALARS)
        /\ (epoch_step s = 5 -> l = NONE)).
Proof.
  intros Ha Hs. unfold _set_log_level. rewrite Ha, Hs.
  destruct (py_and_divides_interval log_it_all (epoch_step s)) as (ba & -> & Hba).
  destruct (py_and_divides_interval log_it_scalars (epoch_step s)) as (bs & Hbs' & Hbs).
  assert (Hsel : forall l, select_level log_it_all log_it_scalars (epoch_step s) l ->
            log_it_all = Some 10 -> log_it_scalars = Some 2 ->
            (epoch_step s = 10 -> l = ALL)
            /\ (epoch_step s = 4 -> l = SCALARS)
            /\ (epoch_step s = 5 -> l = NONE)).
  { intros l Hl -> ->. repeat split; intros E; rewrite E in Hl.
    - destruct Hl as [[_ H]|[[H _]|[H _]]]; [exact H| |]; destruct (H due_10_10).
    - destruct Hl as [[H _]|[(_ & _ & H)|(_ & H & _)]];
        [destruct (not_due_10_4 H) | exact H | destruct (H due_2_4)].
    - destruct Hl as [[H _]|[(_ & H & _)|(_ & _ & H)]];
        [destruct (not_due_10_5 H) | destruct (not_due_2_5 H) | exact H]. }
  cbn. destruct ba.
  - exists ALL. assert (select_level log_it_all log_it_scalars (epoch_step s) ALL).
    { left. split; [apply Hba|]; reflexivity. }
    split; [reflexivity|]. split; [assumption|]. apply Hsel; assumption.
  - rewrite Hbs'. cbn.
    assert (~ due log_it_all (epoch_step s)) by (intros H; apply Hba in H; discriminate).
    destruct bs.
    + exists SCALARS.
      assert (select_level log_it_all log_it_scalars (epoch_step s) SCALARS).
      { right. left. repeat split; [assumption|apply Hbs; reflexivity]. }
      split; [reflexivity|]. split; [assumption|]. apply Hsel; assumption.
    + exists NONE.
      assert (select_level log_it_all log_it_scalars (epoch_step s) NONE).
      { right. right. repeat split; [assumption|].
        intros H'; apply Hbs in H'; discriminate. }
      split; [reflexivity|]. split; [assumption|]. apply Hsel; assumption.
Qed.

(** ** The stop predicate *)

(** C10. When the configuration has [n_global_iterations], the stop decision
    is [global_step >= n_global_iterations] and nothing else: setting
    [n_epochs] to any value, or removing it, leaves the decision as it is.
    [n_epochs] is read only when [n_global_iterations] is absent, and the
    decision is then [epoch >= n_epochs]. *)
Theorem stop_budget_precedence (s : MLProject) :
  (forall v : value, config s !! "n_global_iterations" = Some v ->
     _should_stop_training s = py_ge (global_step s) v
     /\ (forall n : Z, v = VInt n ->
           _should_stop_training s = Ok (bool_decide (n <= global_step s)))
     /\ (forall e : value,
           _should_stop_training (set_config (<["n_epochs" := e]> (config s)) s)
           = _should_stop_training s)
     /\ _should_stop_training (set_config (delete "n_epochs" (config s)) s)
        = _should_stop_training s)
  /\ (config s !! "n_global_iterations" = None ->
      _should_stop_training s
      = obind (dict_getitem (config s) "n_epochs") (py_ge (epoch s))
      /\ (config s !! "n_epochs" = None ->
          _should_stop_training s = Raise (KeyError "n_epochs"))
      /\ (forall n : Z, config s !! "n_epochs" = Some (VInt n) ->
            _should_stop_training s = Ok (bool_decide (n <= epoch s)))).
Proof.
  unfold _should_stop_training. split.
  - intros v Hv. rewrite Hv. split; [reflexivity|]. split; [|split].
    + intros n ->. cbn. f_equal.
      destruct (Z.leb_spec n (global_step s));
        [rewrite bool_decide_eq_true_2 | rewrite bool_decide_eq_false_2]; auto; lia.
    + intros e. cbn [config set_config global_step epoch].
      rewrite lookup_insert_ne by discriminate. rewrite Hv. reflexivity.
    + cbn [config set_config global_step epoch].
      rewrite lookup_delete_ne by discriminate. rewrite Hv. reflexivity.
  - intros Hn. rewrite Hn. split; [reflexivity|]. split.
    + intros He. unfold dict_getitem. rewrite He. reflexivity.
    + intros n He. unfold dict_getitem. rewrite He. cbn. f_equal.
      destruct (Z.leb_spec n (epoch s));
        [rewrite bool_decide_eq_true_2 | rewrite bool_decide_eq_false_2]; auto; lia.
Qed.

(** ** The monad *)

Lemma bind_run {A B : Type} (m : M A) (k : A -> M B) (st : St) :
  (m ≫= k) st = match m st with
                | (Ok a, st') => k a st'
                | (Raise e, st') => (Raise e, st')
                | (OutOfFuel, st') => (OutOfFuel, st')
                end.
Proof. reflexivity. Qed.

(** ** The aggregation of the losses *)

Lemma accumulate_lookup (n : Z) (losses : gmap string Tensor) (acc : gmap string Score)
    (name : string) :
  accumulate n losses acc !! name
  = match losses !! name with
    | Some v => Some (score_add (default score_zero (acc !! name)) (score_of v n))
    | None => acc !! name
    end.
Proof.
  unfold accumulate.
  apply (map_fold_weak_ind
           (fun (r : gmap string Score) (m : gmap string Tensor) =>
              r !! name = match m !! name with
                          | Some v => Some (score_add (default score_zero (acc !! name))
                                                      (score_of v n))
                          | None => acc !! name
                          end)).
  - rewrite lookup_empty. reflexivity.
  - intros i x m r Hi IH. destruct (decide (i = name)) as [->|Hne].
    + rewrite !lookup_insert_eq. rewrite IH, Hi. reflexivity.
    + rewrite !lookup_insert_ne by assumption. exact IH.
Qed.

Lemma aggregate_from_lookup n outs (acc : gmap string Score) name :
  fold_left (fun acc losses => accumulate n losses acc) outs acc !! name
  = match reported name outs with
    | [] => acc !! name
    | vs => Some (fold_left score_add (map (fun v => score_of v n) vs)
                    (default score_zero (acc !! name)))
    end.
Proof.
  revert acc. induction outs as [|o outs IH]; intros acc; [reflexivity|].
  cbn [fold_left]. rewrite IH. unfold reported. cbn [omap list_omap].
  fold (reported name outs).
  rewrite accumulate_lookup.
  destruct (o !! name) as [v|] eqn:Ho; cbn.
  - destruct (reported name outs); reflexivity.
  - reflexivity.
Qed.

Lemma aggregate_lookup n outs name :
  aggregate n outs !! name
  = match reported name outs with
    | [] => None
    | vs => Some (weighted_sum n vs)
    end.
Proof.
  unfold aggregate. rewrite aggregate_from_lookup. rewrite lookup_empty. reflexivity.
Qed.

(** ** Methods as runs of the transition system *)

Lemma set_log_level_shape (s s' : MLProject) :
  _set_log_level s = Ok s' -> exists l, s' = set_model_log l s.
Proof.
  unfold _set_log_level.
  destruct (py_and_divides _ _) as [[]|e|]; cbn; try discriminate.
  - intros [= <-]. eauto.
  - destruct (py_and_divides _ _) as [[]|e|]; cbn; try discriminate;
      intros [= <-]; eauto.
Qed.

Lemma call_hook_run (h : hook) (st : St) :
  call_hook h st
  = (Ok tt, with_self (fun s => set_model (model_hook h (model s)) s) (push (CallHook h) st)).
Proof. reflexivity. Qed.

Lemma runs_call_hook (h : hook) : quiet (CallHook h) -> runs quiet_step (call_hook h).
Proof.
  intros Hq st. rewrite call_hook_run. cbn [snd].
  eapply rtc_l; [apply (qs_call st _ Hq)|].
  apply rtc_once. apply (qs_model (push (CallHook h) st)). apply mc_hook.
Qed.

Lemma call_test_batch_run (b : Batch) (st : St) :
  call_test_batch b st
  = (Ok (snd (test_batch (model_log (self st)) b (model (self st)))),
     with_self (set_model (fst (test_batch (model_log (self st)) b (model (self st)))))
       (push (CallTestBatch b) st)).
Proof. reflexivity. Qed.

Lemma test_batches_run (n : Z) (batches : list Batch) (acc : gmap string Score) (st : St) :
  exists st',
    test_batches n batches acc st
    = (Ok (fold_left (fun acc losses => accumulate n losses acc)
             (test_outputs (model_log (self st)) (model (self st)) batches) acc), st')
    /\ rtc quiet_step st st'
    /\ self st' = set_model (model_after_test (model_log (self st)) (model (self st)) batches)
                    (self st)
    /\ world st' = world st.
Proof.
  revert acc st. induction batches as [|b rest IH]; intros acc st.
  - exists st. cbn. split; [reflexivity|]. split; [apply rtc_refl|].
    split; [destruct st as [[] ? ?]; reflexivity | reflexivity].
  - cbn [test_batches]. rewrite bind_run, call_test_batch_run.
    set (r := test_batch (model_log (self st)) b (model (self st))).
    set (st1 := with_self (set_model (fst r)) (push (CallTestBatch b) st)).
    destruct (IH (accumulate n (snd r) acc) st1) as (st' & Hrun & Hsteps & Hself & Hw).
    exists st'. split; [exact Hrun|]. split; [|split].
    + eapply rtc_l; [apply (qs_call st (CallTestBatch b) I)|].
      eapply rtc_l; [apply (qs_model (push (CallTestBatch b) st)), mc_test|].
      exact Hsteps.
    + rewrite Hself. reflexivity.
    + rewrite Hw. reflexivity.
Qed.

Lemma quiet_step_trace (st st' : St) :
  quiet_step st st' -> exists seg, trace st' = trace st ++ seg.
Proof.
  intros [st0 m' _|st0 l|st0 c _|st0 f d]; cbn.
  - exists []. symmetry. apply app_nil_r.
  - exists []. symmetry. apply app_nil_r.
  - eexists. reflexivity.
  - exists []. symmetry. apply app_nil_r.
Qed.

Lemma rtc_trace (R : St -> St -> Prop) (st st' : St) :
  (forall a b, R a b -> exists seg, trace b = trace a ++ seg) ->
  rtc R st st' -> exists seg, trace st' = trace st ++ seg.
Proof.
  intros HR H. induction H as [x|x y z Hxy _ (seg2 & IH)].
  - exists []. symmetry. apply app_nil_r.
  - destruct (HR _ _ Hxy) as (seg1 & E1). exists (seg1 ++ seg2).
    rewrite IH, E1. symmetry. apply app_assoc.
Qed.

(** What [test] does: quiet steps up to the summary, the summary printed,
    and the benchmark metric looked up in it. *)
Lemma test_run (st : St) :
  exists st1,
    rtc quiet_step st st1
    /\ self st1
       = set_model (model_after_test (model_log (self st)) (eval_model (self st))
                      (test_loader (dataset_factory (self st)))) (self st)
    /\ world st1 = world st
    /\ (exists pre s1,
          trace st1 = trace st ++ pre
                        ++ [(CallAddScalarsTest (eval_losses (self st)) (global_step (self st)), s1)])
    /\ test st
       = (match eval_losses (self st) !! eval_benchmark (self st) with
          | Some v => Ok v
          | None => Raise (KeyError (eval_benchmark (self st)))
          end,
          push (CallPrint (eval_losses (self st))) st1).
Proof.
  unfold test. rewrite bind_run, call_hook_run.
  set (st0 := with_self _ (push (CallHook eval_mode) st)).
  rewrite bind_run. cbn [get].
  rewrite bind_run.
  destruct (test_batches_run (test_set_len (dataset_factory (self st0)))
              (test_loader (dataset_factory (self st0))) ∅ st0)
    as (st' & Hrun & Hsteps & Hself & Hw).
  rewrite Hrun.
  exists (push (CallAddScalarsTest (eval_losses (self st)) (global_step (self st))) st').
  split; [|split; [|split; [|split]]].
  - eapply rtc_trans; [apply (runs_call_hook eval_mode I st)|].
    rewrite call_hook_run. cbn [snd]. fold st0.
    eapply rtc_trans; [exact Hsteps|].
    apply rtc_once. apply qs_call. exact I.
  - cbn [push self]. rewrite Hself. reflexivity.
  - cbn [push world]. rewrite Hw. reflexivity.
  - destruct (rtc_trace _ _ _ quiet_step_trace Hsteps) as (seg & Hseg).
    exists ((CallHook eval_mode, self st) :: seg). eexists.
    cbn [push trace]. rewrite Hseg. cbn [st0 with_self push trace].
    rewrite <- !app_assoc. reflexivity.
  - rewrite bind_run. cbn [get]. rewrite bind_run. cbn [emit].
    rewrite bind_run. cbn [emit]. unfold push. cbn [self world trace].
    rewrite !Hself.
    unfold eval_losses, eval_benchmark, eval_outputs, aggregate, eval_model.
    destruct (_ !! _); reflexivity.
Qed.

Lemma test_steps (st : St) : rtc quiet_step st (snd (test st)).
Proof.
  destruct (test_run st) as (st1 & Hsteps & _ & _ & _ & Hrun). rewrite Hrun.
  eapply rtc_r; [exact Hsteps|]. apply qs_call. exact I.
Qed.

Lemma save_steps (st : St) : rtc quiet_step st (snd (save st)).
Proof.
  eapply rtc_l;
    [apply (qs_save st (save_filename (cwd (world st)) (self st)) (state_dict (self st)))|].
  apply rtc_once.
  apply (qs_call (with_files _ st) (CallTorchSave (save_filename (cwd (world st)) (self st)))).
  exact I.
Qed.

(** ** What the steps leave alone *)

Lemma same_setup_refl (s : MLProject) : same_setup s s.
Proof. repeat split. Qed.

Lemma same_setup_trans (s1 s2 s3 : MLProject) :
  same_setup s1 s2 -> same_setup s2 s3 -> same_setup s1 s3.
Proof.
  unfold same_setup. intros (?&?&?&?&?&?&?) (?&?&?&?&?&?&?).
  repeat split; congruence.
Qed.

Lemma same_progress_refl (s : MLProject) : same_progress s s.
Proof. repeat split. Qed.

Lemma same_progress_trans (s1 s2 s3 : MLProject) :
  same_progress s1 s2 -> same_progress s2 s3 -> same_progress s1 s3.
Proof.
  unfold same_progress. intros (?&?&?) (?&?&?). repeat split; congruence.
Qed.

Lemma quiet_step_frame (st st' : St) :
  quiet_step st st' ->
  same_setup (self st) (self st') /\ same_progress (self st) (self st')
  /\ best_score (self st') = best_score (self st).
Proof. intros [st0 m' _|st0 l|st0 c _|st0 f d]; repeat split. Qed.

Lemma quiet_steps_frame (st st' : St) :
  rtc quiet_step st st' ->
  same_setup (self st) (self st') /\ same_progress (self st) (self st')
  /\ best_score (self st') = best_score (self st).
Proof.
  induction 1 as [x|x y z Hxy _ (IH1 & IH2 & IH3)].
  - repeat split.
  - destruct (quiet_step_frame _ _ Hxy) as (H1 & H2 & H3).
    split; [eapply same_setup_trans; eassumption|].
    split; [eapply same_progress_trans; eassumption|congruence].
Qed.

Lemma loop_step_frame (st st' : St) : loop_step st st' -> same_setup (self st) (self st').
Proof.
  intros [st0 st1 H|st0|st0 b _|st0 tl sc|st0 _]; try (repeat split; fail).
  apply quiet_step_frame. exact H.
Qed.

Lemma loop_steps_frame (st st' : St) :
  rtc loop_step st st' -> same_setup (self st) (self st').
Proof.
  induction 1 as [x|x y z Hxy _ IH]; [apply same_setup_refl|].
  eapply same_setup_trans; [apply loop_step_frame; exact Hxy | exact IH].
Qed.

Lemma quiet_loop (st st' : St) : rtc quiet_step st st' -> rtc loop_step st st'.
Proof.
  induction 1 as [x|x y z Hxy _ IH]; [apply rtc_refl|].
  eapply rtc_l; [apply ls_quiet; exact Hxy | exact IH].
Qed.

(** The stop predicate reads the configuration, [global_step] and [epoch]. *)
Lemma should_stop_frame (s s' : MLProject) :
  config s' = config s -> global_step s' = global_step s -> epoch s' = epoch s ->
  _should_stop_training s' = _should_stop_training s.
Proof. unfold _should_stop_training. intros -> -> ->. reflexivity. Qed.

Lemma should_stop_quiet (st st' : St) :
  rtc quiet_step st st' ->
  _should_stop_training (self st') = _should_stop_training (self st).
Proof.
  intros H. apply quiet_steps_frame in H as ((_ & Hc & _) & (Hg & He & _) & _).
  apply should_stop_frame; assumption.
Qed.

(** ** The loops *)

Lemma py_and_divides_error (v : value) (a : Z) :
  match py_and_divides v a with
  | Ok _ => True
  | Raise e => e = TypeError
  | OutOfFuel => False
  end.
Proof.
  unfold py_and_divides, py_mod. destruct (truthy v) eqn:Ht; [|exact I].
  destruct v as [|z|s]; cbn; try reflexivity.
  destruct (Z.eqb_spec z 0) as [->|_]; [discriminate|exact I].
Qed.

(** [_set_log_level] returns, or raises a [TypeError]. *)
Lemma set_log_level_error (s : MLProject) :
  match _set_log_level s with
  | Ok _ => True
  | Raise e => e = TypeError
  | OutOfFuel => False
  end.
Proof.
  unfold _set_log_level.
  pose proof (py_and_divides_error (dict_get (config s) "log_iteration_all")
                (epoch_step s)) as H1.
  pose proof (py_and_divides_error (dict_get (config s) "log_iteration_scalars")
                (epoch_step s)) as H2.
  destruct (py_and_divides (dict_get (config s) "log_iteration_all") _) as [[]|?|];
    cbn; try exact I; try exact H1.
  destruct (py_and_divides (dict_get (config s) "log_iteration_scalars") _) as [[]|?|];
    cbn; try exact I; exact H2.
Qed.

(** [_should_stop_training] returns, or raises a [TypeError] or the
    [KeyError] of a configuration with neither budget. *)
Lemma should_stop_error (s : MLProject) :
  match _should_stop_training s with
  | Ok _ => True
  | Raise e => e = TypeError \/ e = KeyError "n_epochs"
  | OutOfFuel => False
  end.
Proof.
  unfold _should_stop_training.
  destruct (_ !! _) as [v|]; [destruct v; cbn; auto|].
  unfold dict_getitem. destruct (_ !! _) as [v|]; [destruct v|]; cbn; auto.
Qed.

Lemma batch_body_run {A : Type} (b : Batch) (k : bool -> M A) (st : St) :
  (outs ← call_train_batch b ;
   s ← get ;
   emit (CallAddScalarsTrain (filter (fun kv => fst kv ∈ metrics (model s)) outs)
           (global_step s)) ;;
   modify (fun s => set_global_step (global_step s + 1) s) ;;
   modify (fun s => set_epoch_step (epoch_step s + 1) s) ;;
   stop ← reads _should_stop_training ;
   k stop) st
  = match _should_stop_training (self (batch_step b st)) with
    | Ok stop => k stop (batch_step b st)
    | Raise e => (Raise e, batch_step b st)
    | OutOfFuel => (OutOfFuel, batch_step b st)
    end.
Proof. reflexivity. Qed.

(** One turn of the loop over the batches: the level is set, the batch
    trained on and counted, and the stop predicate asked before the next. *)
Lemma train_batches_cons (b : Batch) (rest : list Batch) (st : St) :
  train_batches (b :: rest) st
  = match _set_log_level (self st) with
    | Ok s1 =>
        let st2 := batch_step b (mkSt s1 (world st) (trace st)) in
        match _should_stop_training (self st2) with
        | Ok true => (Raise TrainingStop, st2)
        | Ok false => train_batches rest st2
        | Raise e => (Raise e, st2)
        | OutOfFuel => (OutOfFuel, st2)
        end
    | Raise e => (Raise e, st)
    | OutOfFuel => (OutOfFuel, st)
    end.
Proof.
  cbn [train_batches]. rewrite bind_run. unfold updates at 1.
  destruct (_set_log_level (self st)) as [s1|e|]; try reflexivity.
  etransitivity; [apply batch_body_run|]. cbv zeta.
  destruct (_should_stop_training _) as [[]|e|]; reflexivity.
Qed.

Lemma train_batches_spec (batches : list Batch) (st : St) :
  _should_stop_training (self st) = Ok false ->
  exists o st',
    train_batches batches st = (o, st')
    /\ rtc loop_step st st'
    /\ epoch (self st') = epoch (self st)
    /\ match o with
       | Ok _ =>
           _should_stop_training (self st') = Ok false
           /\ global_step (self st') = global_step (self st) + Z.of_nat (length batches)
       | Raise TrainingStop => _should_stop_training (self st') = Ok true
       | Raise _ => True
       | OutOfFuel => False
       end.
Proof.
  revert st. induction batches as [|b rest IH]; intros st Hstop.
  - exists (Ok tt), st. cbn. split; [reflexivity|]. split; [apply rtc_refl|].
    split; [reflexivity|]. split; [exact Hstop|lia].
  - rewrite train_batches_cons.
    destruct (_set_log_level (self st)) as [s1|e|] eqn:Elog.
    2:{ pose proof (set_log_level_error (self st)) as He. rewrite Elog in He. subst e.
        exists (Raise TypeError), st. split; [reflexivity|]. split; [apply rtc_refl|].
        split; [reflexivity|exact I]. }
    2:{ pose proof (set_log_level_error (self st)) as He. rewrite Elog in He.
        destruct He. }
    apply set_log_level_shape in Elog as [l ->].
    set (st1 := mkSt (set_model_log l (self st)) (world st) (trace st)).
    assert (Hstop1 : _should_stop_training (self st1) = Ok false).
    { rewrite <- Hstop. apply should_stop_frame; reflexivity. }
    assert (Hstep : rtc loop_step st (batch_step b st1)).
    { eapply rtc_l; [apply ls_quiet, (qs_log st l)|].
      apply rtc_once. apply ls_batch. exact Hstop1. }
    cbv zeta.
    destruct (_should_stop_training (self (batch_step b st1))) as [[]|e|] eqn:E2.
    + eexists _, _. split; [reflexivity|]. split; [exact Hstep|].
      split; [reflexivity|exact E2].
    + destruct (IH (batch_step b st1) E2) as (o & st' & Hrun & IH1 & IH2 & IH3).
      exists o, st'. split; [exact Hrun|].
      split; [eapply rtc_trans; eassumption|]. split; [rewrite IH2; reflexivity|].
      destruct o as [[]|[]|]; try exact I; try exact IH3.
      destruct IH3 as [IH3 IH4]. split; [exact IH3|]. rewrite IH4.
      unfold batch_step, with_self, push. cbn [self global_step set_epoch_step
        set_global_step set_model set_model_log st1 length].
      lia.
    + eexists _, _. split; [reflexivity|]. split; [exact Hstep|].
      split; [reflexivity|].
      pose proof (should_stop_error (self (batch_step b st1))) as He. rewrite E2 in He.
      destruct He as [-> | ->]; exact I.
    + pose proof (should_stop_error (self (batch_step b st1))) as He. rewrite E2 in He.
      destruct He.
Qed.
(** The stop predicate is asked when an epoch starts; a yes stops the
    training before anything else happens. *)
Lemma train_epoch_unfold (st : St) :
  train_epoch st
  = match _should_stop_training (self st) with
    | Ok true => (Raise TrainingStop, st)
    | Ok false =>
        match train_batches (train_loader (dataset_factory (self st)))
                (epoch_begin_step st) with
        | (Ok _, st2) => call_hook (on_epoch_end (epoch (self st2))) st2
        | (Raise e, st2) => (Raise e, st2)
        | (OutOfFuel, st2) => (OutOfFuel, st2)
        end
    | Raise e => (Raise e, st)
    | OutOfFuel => (OutOfFuel, st)
    end.
Proof.
  unfold train_epoch. rewrite bind_run. unfold reads at 1.
  destruct (_should_stop_training (self st)) as [[]|e|]; reflexivity.
Qed.

Lemma train_epoch_spec (st : St) :
  exists o st',
    train_epoch st = (o, st')
    /\ rtc loop_step st st'
    /\ epoch (self st') = epoch (self st)
    /\ match o with
       | Ok _ =>
           _should_stop_training (self st') = Ok false
           /\ global_step (self st')
              = global_step (self st)
                + Z.of_nat (length (train_loader (dataset_factory (self st))))
       | Raise TrainingStop => _should_stop_training (self st') = Ok true
       | Raise _ => True
       | OutOfFuel => False
       end.
Proof.
  rewrite train_epoch_unfold.
  pose proof (should_stop_error (self st)) as Herr.
  destruct (_should_stop_training (self st)) as [[]|e|] eqn:Hstop.
  - exists (Raise TrainingStop), st. split; [reflexivity|]. split; [apply rtc_refl|].
    split; [reflexivity|exact Hstop].
  - assert (Hstop1 : _should_stop_training (self (epoch_begin_step st)) = Ok false).
    { rewrite <- Hstop. apply should_stop_frame; reflexivity. }
    destruct (train_batches_spec (train_loader (dataset_factory (self st)))
                (epoch_begin_step st) Hstop1) as (o & st2 & Hrun & Hsteps & Hep & Hpost).
    rewrite Hrun.
    assert (Hsteps' : rtc loop_step st st2).
    { eapply rtc_l; [apply ls_epoch_begin | exact Hsteps]. }
    destruct o as [[]|e|].
    + rewrite call_hook_run. eexists _, _. split; [reflexivity|].
      destruct Hpost as [Hp1 Hp2].
      split; [|split; [|split]].
      * eapply rtc_trans; [exact Hsteps'|]. apply quiet_loop.
        pose proof (runs_call_hook (on_epoch_end (epoch (self st2))) I st2) as H.
        rewrite call_hook_run in H. exact H.
      * cbn. exact Hep.
      * rewrite <- Hp1. apply should_stop_frame; reflexivity.
      * cbn. exact Hp2.
    + exists (Raise e), st2. split; [reflexivity|]. split; [exact Hsteps'|].
      split; [exact Hep|]. exact Hpost.
    + destruct Hpost.
  - exists (Raise e), st. split; [reflexivity|]. split; [apply rtc_refl|].
    split; [reflexivity|]. destruct Herr as [-> | ->]; exact I.
  - destruct Herr.
Qed.

Lemma improve_spec (best_model_fname : option string) (st : St) :
  exists o st',
    improve best_model_fname st = (o, st')
    /\ rtc loop_step st st'
    /\ same_progress (self st) (self st')
    /\ o <> OutOfFuel.
Proof.
  destruct (improve best_model_fname st) as [o st'] eqn:E.
  exists o, st'. split; [reflexivity|].
  unfold improve in E. rewrite bind_run in E.
  destruct (test_run st) as (st1 & Hsteps & Hself & Hw & _ & Hrun). rewrite Hrun in E.
  set (st2 := push (CallPrint (eval_losses (self st))) st1) in *.
  assert (Hq : rtc quiet_step st st2).
  { eapply rtc_r; [exact Hsteps|]. apply qs_call. exact I. }
  assert (Hp2 : same_progress (self st) (self st2)).
  { apply quiet_steps_frame in Hq. apply Hq. }
  destruct (eval_losses (self st) !! eval_benchmark (self st)) as [score|];
    cbv beta iota in E.
  2:{ injection E as <- <-. split; [apply quiet_loop, Hq|].
      split; [exact Hp2|discriminate]. }
  rewrite bind_run in E. unfold reads at 1 in E.
  destruct (_is_better (self st2) score) as [[]|e|] eqn:Hb; cbv beta iota in E.
  - rewrite bind_run in E. unfold save at 1 in E. cbv beta iota zeta in E.
    rewrite bind_run in E. cbn [modify] in E. cbn [ret] in E.
    injection E as <- <-.
    change (mkSt _ _ _) with (best_step (eval_losses (self st)) score st1).
    split; [|split; [|discriminate]].
    + eapply rtc_r; [apply quiet_loop, Hsteps|]. apply ls_best.
    + apply quiet_steps_frame in Hsteps as (_ & Hp & _).
      destruct Hp as (?&?&?). repeat split; assumption.
  - injection E as <- <-. split; [apply quiet_loop, Hq|].
    split; [exact Hp2|discriminate].
  - injection E as <- <-. split; [apply quiet_loop, Hq|].
    split; [exact Hp2|discriminate].
  - exfalso. unfold _is_better in Hb. destruct (best_score _); [|discriminate].
    destruct (bool_decide _); [discriminate|]. destruct (String.eqb _ _); discriminate.
Qed.
(** One turn of the [while True] of [train]. *)
Lemma train_loop_unfold (fuel : nat) (best_model_fname : option string) (st : St) :
  train_loop (S fuel) best_model_fname st
  = match train_epoch st with
    | (Ok _, st1) =>
        match (if has_test_set (dataset_factory (self st1))
               then improve best_model_fname st1
               else (Ok best_model_fname, st1)) with
        | (Ok best, st2) => train_loop fuel best (epoch_end_step st2)
        | (Raise e, st2) => (Raise e, st2)
        | (OutOfFuel, st2) => (OutOfFuel, st2)
        end
    | (Raise TrainingStop, st1) => (Ok best_model_fname, st1)
    | (Raise e, st1) => (Raise e, st1)
    | (OutOfFuel, st1) => (OutOfFuel, st1)
    end.
Proof.
  cbn [train_loop]. rewrite bind_run. unfold catch_stop at 1.
  destruct (train_epoch st) as [[[]|e|] st1]; try reflexivity.
  - cbv beta iota. rewrite bind_run. cbn [get]. rewrite bind_run.
    fold (improve best_model_fname).
    destruct (has_test_set (dataset_factory (self st1))).
    + destruct (improve best_model_fname st1) as [[best|e|] st2]; reflexivity.
    + reflexivity.
  - destruct e; reflexivity.
Qed.

Lemma train_loop_spec (fuel : nat) (best_model_fname : option string) (st : St) :
  exists o st',
    train_loop fuel best_model_fname st = (o, st')
    /\ rtc loop_step st st'
    /\ match o with
       | Ok _ => _should_stop_training (self st') = Ok true
       | _ => True
       end.
Proof.
  revert best_model_fname st. induction fuel as [|fuel IH]; intros best st.
  - exists OutOfFuel, st. split; [reflexivity|]. split; [apply rtc_refl|exact I].
  - rewrite train_loop_unfold.
    destruct (train_epoch_spec st) as (o1 & st1 & Hrun1 & Hsteps1 & Hep1 & Hpost1).
    rewrite Hrun1. destruct o1 as [[]|e|].
    2:{ destruct e; try (eexists _, _; split; [reflexivity|]; split; [exact Hsteps1|exact I]).
        eexists _, _. split; [reflexivity|]. split; [exact Hsteps1|exact Hpost1]. }
    2:{ destruct Hpost1. }
    destruct Hpost1 as [Hstop1 _].
    assert (Hev : exists o2 st2,
               (if has_test_set (dataset_factory (self st1))
                then improve best st1 else (Ok best, st1)) = (o2, st2)
               /\ rtc loop_step st1 st2 /\ same_progress (self st1) (self st2)).
    { destruct (has_test_set _).
      - destruct (improve_spec best st1) as (o2 & st2 & H1 & H2 & H3 & _). eauto.
      - eexists _, _. split; [reflexivity|]. split; [apply rtc_refl|].
        apply same_progress_refl. }
    destruct Hev as (o2 & st2 & Hrun2 & Hsteps2 & Hp2). rewrite Hrun2.
    assert (Hstop2 : _should_stop_training (self st2) = Ok false).
    { rewrite <- Hstop1. apply loop_steps_frame in Hsteps2 as (_ & Hc & _).
      destruct Hp2 as (Hg & He & _). apply should_stop_frame; assumption. }
    destruct o2 as [best'|e|].
    + destruct (IH best' (epoch_end_step st2)) as (o3 & st3 & Hrun3 & Hsteps3 & Hpost3).
      exists o3, st3. split; [exact Hrun3|]. split; [|exact Hpost3].
      eapply rtc_trans; [exact Hsteps1|]. eapply rtc_trans; [exact Hsteps2|].
      eapply rtc_l; [apply ls_epoch_end, Hstop2 | exact Hsteps3].
    + eexists _, _. split; [reflexivity|]. split; [|exact I].
      eapply rtc_trans; eassumption.
    + eexists _, _. split; [reflexivity|]. split; [|exact I].
      eapply rtc_trans; eassumption.
Qed.

(** [train] around its loop: the two hooks before, the artifact and the
    last hook after. *)
Lemma train_unfold (fuel : nat) (st : St) :
  train fuel st
  = match train_loop fuel None (snd (call_hook train_mode (snd (call_hook on_train_begin st))))
    with
    | (Ok best, st1) =>
        call_hook on_train_end
          (match best, _run (self st1) with
           | Some fname, Some _ => push (CallAddArtifact fname) st1
           | _, _ => st1
           end)
    | (Raise e, st1) => (Raise e, st1)
    | (OutOfFuel, st1) => (OutOfFuel, st1)
    end.
Proof.
  unfold train. rewrite bind_run, call_hook_run. rewrite bind_run, call_hook_run.
  rewrite bind_run. cbn [snd].
  destruct (train_loop fuel None _) as [[best|e|] st1]; try reflexivity.
  rewrite bind_run. cbn [get]. rewrite bind_run.
  destruct best as [fname|]; [destruct (_run (self st1))|]; reflexivity.
Qed.

Lemma train_spec (fuel : nat) (st : St) :
  exists o st',
    train fuel st = (o, st')
    /\ rtc loop_step st st'
    /\ match o with
       | Ok _ => _should_stop_training (self st') = Ok true
       | _ => True
       end.
Proof.
  rewrite train_unfold.
  set (st0 := snd (call_hook train_mode (snd (call_hook on_train_begin st)))).
  assert (H0 : rtc loop_step st st0).
  { apply quiet_loop. eapply rtc_trans.
    - apply (runs_call_hook on_train_begin I st).
    - apply (runs_call_hook train_mode I). }
  destruct (train_loop_spec fuel None st0) as (o & st1 & Hrun & Hsteps & Hpost).
  rewrite Hrun. destruct o as [best|e|].
  2,3: eexists _, _; (split; [reflexivity|]); (split; [|exact I]);
       eapply rtc_trans; eassumption.
  set (st2 := match best, _run (self st1) with
              | Some fname, Some _ => push (CallAddArtifact fname) st1
              | _, _ => st1
              end).
  assert (H2 : rtc quiet_step st1 st2).
  { unfold st2. destruct best as [fname|]; [destruct (_run (self st1))|];
      try apply rtc_refl. apply rtc_once, qs_call. exact I. }
  rewrite call_hook_run. eexists _, _. split; [reflexivity|].
  assert (H3 : rtc quiet_step st2
                 (with_self (fun s => set_model (model_hook on_train_end (model s)) s)
                    (push (CallHook on_train_end) st2))).
  { pose proof (runs_call_hook on_train_end I st2) as H.
    rewrite call_hook_run in H. exact H. }
  split.
  - eapply rtc_trans; [exact H0|]. eapply rtc_trans; [exact Hsteps|].
    apply quiet_loop. eapply rtc_trans; eassumption.
  - rewrite <- Hpost. apply should_stop_quiet. eapply rtc_trans; eassumption.
Qed.
(** ** The counters along the steps *)

Lemma completed_batches_snoc (calls : list call) (c : call) :
  completed_batches (calls ++ [c])
  = match c with
    | CallAddScalarsTrain _ _ => completed_batches calls + 1
    | _ => completed_batches calls
    end.
Proof. unfold completed_batches. rewrite fold_left_app. reflexivity. Qed.

Lemma batches_in_epoch_snoc (k0 : Z) (calls : list call) (c : call) :
  batches_in_epoch k0 (calls ++ [c])
  = match c with
    | CallHook (on_epoch_begin _) => 0
    | CallAddScalarsTrain _ _ => batches_in_epoch k0 calls + 1
    | _ => batches_in_epoch k0 calls
    end.
Proof. unfold batches_in_epoch. rewrite fold_left_app. reflexivity. Qed.

Lemma evaluated_snoc (calls : list call) (c : call) :
  evaluated (calls ++ [c])
  = evaluated calls || match c with CallPrint _ => true | _ => false end.
Proof. unfold evaluated. rewrite existsb_app. cbn. rewrite orb_false_r. reflexivity. Qed.

Lemma completed_batches_app_le (calls more : list call) :
  completed_batches calls <= completed_batches (calls ++ more).
Proof.
  induction more as [|c more IH] using rev_ind.
  - rewrite app_nil_r. lia.
  - rewrite app_assoc, completed_batches_snoc. destruct c; lia.
Qed.

Lemma completed_batches_nonneg (calls : list call) : 0 <= completed_batches calls.
Proof. apply (completed_batches_app_le [] calls). Qed.

Lemma faithful_refl (st : St) : faithful st st.
Proof.
  exists []. split; [symmetry; apply app_nil_r|]. split.
  - intros i c s H. rewrite lookup_nil in H. discriminate.
  - unfold accounted, completed_batches, batches_in_epoch. cbn.
    repeat split. lia.
Qed.

(** A step that makes no call. *)
Lemma faithful_silent (st0 st st' : St) :
  faithful st0 st ->
  trace st' = trace st ->
  (forall calls, accounted (self st0) calls (self st) ->
                 accounted (self st0) calls (self st')) ->
  faithful st0 st'.
Proof.
  intros (seg & Htr & Hall & Hnow) Htr' Hacc. exists seg.
  split; [congruence|]. split; [exact Hall|]. apply Hacc, Hnow.
Qed.

(** A step that makes one call, from the instance [s]. *)
Lemma faithful_call (st0 st st' : St) (c : call) (s : MLProject) :
  faithful st0 st ->
  trace st' = trace st ++ [(c, s)] ->
  (forall calls, accounted (self st0) calls (self st) ->
                 accounted (self st0) calls s
                 /\ accounted (self st0) (calls ++ [c]) (self st')) ->
  faithful st0 st'.
Proof.
  intros (seg & Htr & Hall & Hnow) Htr' Hacc. exists (seg ++ [(c, s)]).
  destruct (Hacc _ Hnow) as [Hs Hs']. split; [|split].
  - rewrite Htr', Htr. symmetry. apply app_assoc.
  - intros i c' s' Hi. apply lookup_snoc_Some in Hi as [[Hlt Hi]|[-> E]].
    + rewrite take_app_le by lia. apply (Hall i c' s'). exact Hi.
    + injection E as <- <-. rewrite take_app_length. exact Hs.
  - rewrite map_app. exact Hs'.
Qed.

(** A step that makes two calls, from the instances [s1] and [s2]. *)
Lemma faithful_calls (st0 st st' : St) (c1 c2 : call) (s1 s2 : MLProject) :
  faithful st0 st ->
  trace st' = trace st ++ [(c1, s1); (c2, s2)] ->
  (forall calls, accounted (self st0) calls (self st) ->
                 accounted (self st0) calls s1
                 /\ accounted (self st0) (calls ++ [c1]) s2
                 /\ accounted (self st0) ((calls ++ [c1]) ++ [c2]) (self st')) ->
  faithful st0 st'.
Proof.
  intros (seg & Htr & Hall & Hnow) Htr' Hacc. exists ((seg ++ [(c1, s1)]) ++ [(c2, s2)]).
  destruct (Hacc _ Hnow) as (Hs1 & Hs2 & Hs'). split; [|split].
  - rewrite Htr', Htr. rewrite <- !app_assoc. reflexivity.
  - intros i c' s' Hi. apply lookup_snoc_Some in Hi as [[Hlt Hi]|[-> E]].
    + rewrite take_app_le by lia.
      apply lookup_snoc_Some in Hi as [[Hlt' Hi]|[-> E]].
      * rewrite take_app_le by lia. apply (Hall i c' s'). exact Hi.
      * injection E as <- <-. rewrite take_app_length. exact Hs1.
    + injection E as <- <-. rewrite take_app_length, map_app. exact Hs2.
  - rewrite !map_app. exact Hs'.
Qed.

Lemma accounted_quiet (s0 s s' : MLProject) (calls : list call) (c : call) :
  quiet c ->
  global_step s' = global_step s -> epoch_step s' = epoch_step s ->
  best_score s' = best_score s ->
  accounted s0 calls s -> accounted s0 (calls ++ [c]) s'.
Proof.
  intros Hq Hg He Hb (H1 & H2 & H3). unfold accounted.
  rewrite completed_batches_snoc, batches_in_epoch_snoc, evaluated_snoc.
  destruct c as [[]| | | | | | |]; try destruct Hq; rewrite ?orb_false_r;
    (split; [congruence|]); (split; [congruence|]);
    intros Hev; try discriminate; try (rewrite Hb; auto);
    apply orb_false_iff in Hev as [_ Hev]; discriminate.
Qed.

Lemma accounted_same (s0 s s' : MLProject) (calls : list call) :
  global_step s' = global_step s -> epoch_step s' = epoch_step s ->
  best_score s' = best_score s ->
  accounted s0 calls s -> accounted s0 calls s'.
Proof. intros Hg He Hb (H1 & H2 & H3). unfold accounted. rewrite Hg, He, Hb. auto. Qed.

Lemma quiet_step_faithful (st0 st st' : St) :
  faithful st0 st -> quiet_step st st' -> faithful st0 st'.
Proof.
  intros Hf Hstep. revert Hf. destruct Hstep as [st1 m' _|st1 l|st1 c Hq|st1 f d]; intros Hf.
  - eapply faithful_silent; [exact Hf|reflexivity|].
    intros calls. apply accounted_same; reflexivity.
  - eapply faithful_silent; [exact Hf|reflexivity|].
    intros calls. apply accounted_same; reflexivity.
  - eapply faithful_call; [exact Hf|reflexivity|].
    intros calls Hacc. split; [exact Hacc|].
    eapply accounted_quiet; [exact Hq|..|exact Hacc]; reflexivity.
  - eapply faithful_silent; [exact Hf|reflexivity|].
    intros calls. apply accounted_same; reflexivity.
Qed.

Lemma loop_step_faithful (st0 st st' : St) :
  faithful st0 st -> loop_step st st' -> faithful st0 st'.
Proof.
  intros Hf Hstep. revert Hf.
  destruct Hstep as [st1 st2 H|st1|st1 b _|st1 tl sc|st1 _]; intros Hf.
  - eapply quiet_step_faithful; eassumption.
  - eapply faithful_call; [exact Hf|reflexivity|].
    intros calls (H1 & H2 & H3). split; [repeat split; assumption|].
    unfold accounted. rewrite completed_batches_snoc, batches_in_epoch_snoc, evaluated_snoc.
    rewrite orb_false_r. repeat split; assumption.
  - eapply faithful_calls; [exact Hf| |].
    + unfold batch_step. cbn. rewrite <- app_assoc. reflexivity.
    + intros calls (H1 & H2 & H3). split; [repeat split; assumption|].
      unfold accounted.
      rewrite !completed_batches_snoc, !batches_in_epoch_snoc, !evaluated_snoc.
      rewrite !orb_false_r. cbn. repeat split; try assumption; lia.
  - eapply faithful_calls; [exact Hf| |].
    + unfold best_step, save. cbn. rewrite <- app_assoc. reflexivity.
    + intros calls (H1 & H2 & H3). split; [repeat split; assumption|].
      unfold accounted.
      rewrite !completed_batches_snoc, !batches_in_epoch_snoc, !evaluated_snoc.
      rewrite orb_true_r. cbn. repeat split; try assumption; discriminate.
  - eapply faithful_silent; [exact Hf|reflexivity|].
    intros calls. apply accounted_same; reflexivity.
Qed.
Lemma loop_steps_faithful (st0 st : St) : rtc loop_step st0 st -> faithful st0 st.
Proof.
  intros H. revert st H. apply rtc_ind_r.
  - apply faithful_refl.
  - intros y z _ Hyz IH. eapply loop_step_faithful; eassumption.
Qed.

(** ** The budgets along the steps *)

Lemma stop_iterations (s : MLProject) (n : Z) :
  config s !! "n_global_iterations" = Some (VInt n) ->
  _should_stop_training s = Ok (n <=? global_step s).
Proof. unfold _should_stop_training. intros ->. reflexivity. Qed.

Lemma stop_epochs (s : MLProject) (n : Z) :
  config s !! "n_global_iterations" = None ->
  config s !! "n_epochs" = Some (VInt n) ->
  _should_stop_training s = Ok (n <=? epoch s).
Proof.
  unfold _should_stop_training, dict_getitem. intros -> ->. reflexivity.
Qed.

Lemma loop_steps_iterations (n : Z) (st0 st : St) :
  config (self st0) !! "n_global_iterations" = Some (VInt n) ->
  rtc loop_step st0 st ->
  global_step (self st) <= Z.max (global_step (self st0)) n
  /\ exists seg, trace st = trace st0 ++ seg /\ trains_below n seg.
Proof.
  intros Hcfg H. revert st H. apply rtc_ind_r.
  - split; [lia|]. exists []. split; [symmetry; apply app_nil_r|constructor].
  - intros y z Hy Hyz (IH1 & seg & IH2 & IH3).
    assert (Hcy : config (self y) !! "n_global_iterations" = Some (VInt n)).
    { apply loop_steps_frame in Hy as (_ & -> & _). exact Hcfg. }
    revert IH1 IH2 Hcy. clear Hy.
    destruct Hyz as [st1 st2 H|st1|st1 b Hstop|st1 tl sc|st1 _]; intros IH1 IH2 Hcy.
    + pose proof (quiet_step_frame _ _ H) as (_ & (Hg & _) & _).
      split; [lia|]. revert IH2. clear Hg.
      destruct H as [st1 m' _|st1 l|st1 c Hq|st1 f d]; intros IH2;
        try (exists seg; split; [exact IH2|exact IH3]).
      exists (seg ++ [(c, self st1)]). split.
      * cbn. rewrite IH2. symmetry. apply app_assoc.
      * apply Forall_app. split; [exact IH3|]. constructor; [|constructor].
        cbn. intros Hb. destruct c; destruct Hb. destruct Hq.
    + split; [exact IH1|]. exists (seg ++ [(CallHook (on_epoch_begin (epoch (self st1))), self st1)]).
      split.
      * cbn. rewrite IH2. symmetry. apply app_assoc.
      * apply Forall_app. split; [exact IH3|]. constructor; [|constructor].
        cbn. intros [].
    + rewrite (stop_iterations _ _ Hcy) in Hstop. injection Hstop as Hstop.
      apply Z.leb_gt in Hstop. split; [cbn; lia|].
      eexists (seg ++ [_; _]). split.
      * unfold batch_step. cbn. rewrite IH2. rewrite <- !app_assoc. reflexivity.
      * apply Forall_app. split; [exact IH3|].
        constructor; [|constructor; [|constructor]]; cbn.
        -- intros _. exact Hstop.
        -- intros [].
    + split; [exact IH1|]. eexists (seg ++ [_; _]). split.
      * unfold best_step, save. cbn. rewrite IH2. rewrite <- !app_assoc. reflexivity.
      * apply Forall_app. split; [exact IH3|].
        constructor; [|constructor; [|constructor]]; cbn; intros [].
    + split; [exact IH1|]. exists seg. split; [exact IH2|exact IH3].
Qed.

Lemma loop_steps_epochs (n : Z) (st0 st : St) :
  config (self st0) !! "n_global_iterations" = None ->
  config (self st0) !! "n_epochs" = Some (VInt n) ->
  rtc loop_step st0 st ->
  epoch (self st0) <= epoch (self st) <= Z.max (epoch (self st0)) n.
Proof.
  intros Hcfg1 Hcfg2 H. revert st H. apply rtc_ind_r; [lia|].
  intros y z Hy Hyz IH.
  assert (Hcy : config (self y) = config (self st0)).
  { apply loop_steps_frame in Hy as (_ & -> & _). reflexivity. }
  rewrite <- Hcy in Hcfg1, Hcfg2.
  revert IH Hcfg1 Hcfg2. clear Hy Hcy.
  destruct Hyz as [st1 st2 H|st1|st1 b _|st1 tl sc|st1 Hstop]; intros IH Hcfg1 Hcfg2;
    try exact IH.
  - pose proof (quiet_step_frame _ _ H) as (_ & (_ & He & _) & _). lia.
  - rewrite (stop_epochs _ _ Hcfg1 Hcfg2) in Hstop. injection Hstop as Hstop.
    apply Z.leb_gt in Hstop. cbn. lia.
Qed.
(** ** Termination of the loop *)

(** The evaluation after an epoch, whether there is a test set or not. *)
Lemma after_epoch_spec (best : option string) (st1 : St) :
  exists o2 st2,
    (if has_test_set (dataset_factory (self st1))
     then improve best st1 else (Ok best, st1)) = (o2, st2)
    /\ rtc loop_step st1 st2 /\ same_progress (self st1) (self st2)
    /\ o2 <> OutOfFuel.
Proof.
  destruct (has_test_set _).
  - apply improve_spec.
  - eexists _, _. split; [reflexivity|]. split; [apply rtc_refl|].
    split; [apply same_progress_refl|discriminate].
Qed.

(** The loop returns or raises within [fuel] turns when a measure on the
    instance goes down with every completed epoch. *)
Lemma train_loop_fuel (P : MLProject -> Prop) (mu : MLProject -> nat) :
  (forall s s', same_setup s s' -> P s -> P s') ->
  (forall st u st1 s2,
     P (self st) -> train_epoch st = (Ok u, st1) ->
     same_setup (self st1) s2 -> same_progress (self st1) s2 ->
     (mu (set_epoch (epoch s2 + 1) s2) < mu (self st))%nat) ->
  forall (fuel : nat) (best : option string) (st : St),
    P (self st) -> (mu (self st) < fuel)%nat ->
    fst (train_loop fuel best st) <> OutOfFuel.
Proof.
  intros HP Hdec. induction fuel as [|fuel IH]; intros best st Hst Hmu; [lia|].
  rewrite train_loop_unfold.
  destruct (train_epoch_spec st) as (o1 & st1 & Hrun1 & Hsteps1 & _ & Hpost1).
  rewrite Hrun1. destruct o1 as [[]|e|].
  - destruct (after_epoch_spec best st1) as (o2 & st2 & Hrun2 & Hsteps2 & Hp2 & Hf2).
    rewrite Hrun2. destruct o2 as [best'|e|]; [|discriminate|congruence].
    pose proof (loop_steps_frame _ _ Hsteps1) as Hs1.
    pose proof (loop_steps_frame _ _ Hsteps2) as Hs2.
    apply IH.
    + apply (HP (self st)); [|exact Hst].
      eapply same_setup_trans; [exact Hs1|]. eapply same_setup_trans; [exact Hs2|].
      repeat split.
    + specialize (Hdec st tt st1 (self st2) Hst Hrun1 Hs2 Hp2).
      unfold epoch_end_step, with_self. cbn [self]. lia.
  - destruct e; discriminate.
  - destruct Hpost1.
Qed.

Lemma train_fuel (P : MLProject -> Prop) (mu : MLProject -> nat) :
  (forall s s', same_setup s s' -> P s -> P s') ->
  (forall s s', same_setup s s' -> same_progress s s' -> mu s' = mu s) ->
  (forall st u st1 s2,
     P (self st) -> train_epoch st = (Ok u, st1) ->
     same_setup (self st1) s2 -> same_progress (self st1) s2 ->
     (mu (set_epoch (epoch s2 + 1) s2) < mu (self st))%nat) ->
  forall (fuel : nat) (st : St),
    P (self st) -> (mu (self st) < fuel)%nat ->
    fst (train fuel st) <> OutOfFuel.
Proof.
  intros HP Hmu Hdec fuel st Hst Hlt. rewrite train_unfold.
  set (st0 := snd (call_hook train_mode (snd (call_hook on_train_begin st)))).
  assert (H0 : same_setup (self st) (self st0) /\ same_progress (self st) (self st0)).
  { split; repeat split. }
  pose proof (train_loop_fuel P mu HP Hdec fuel None st0) as H.
  destruct (train_loop fuel None st0) as [[best|e|] st1]; cbn in H.
  - rewrite call_hook_run. discriminate.
  - discriminate.
  - exfalso. apply H; [| |reflexivity].
    + apply (HP (self st)); [apply H0|exact Hst].
    + rewrite (Hmu (self st) (self st0)); [exact Hlt|apply H0|apply H0].
Qed.

Lemma train_epoch_ok (st st1 : St) (u : unit) :
  train_epoch st = (Ok u, st1) ->
  rtc loop_step st st1
  /\ _should_stop_training (self st1) = Ok false
  /\ epoch (self st1) = epoch (self st)
  /\ global_step (self st1)
     = global_step (self st) + Z.of_nat (length (train_loader (dataset_factory (self st)))).
Proof.
  intros E. destruct (train_epoch_spec st) as (o & st' & Hrun & Hsteps & Hep & Hpost).
  rewrite E in Hrun. injection Hrun as <- <-. destruct Hpost. auto.
Qed.

(** With an iteration budget and a loader that is not empty. *)
Lemma train_fuel_iterations (n : Z) (fuel : nat) (st : St) :
  config (self st) !! "n_global_iterations" = Some (VInt n) ->
  train_loader (dataset_factory (self st)) <> [] ->
  (Z.to_nat (n - global_step (self st)) < fuel)%nat ->
  fst (train fuel st) <> OutOfFuel.
Proof.
  intros Hcfg Hload Hfuel.
  apply (train_fuel
           (fun s => config s !! "n_global_iterations" = Some (VInt n)
                     /\ train_loader (dataset_factory s) <> [])
           (fun s => Z.to_nat (n - global_step s))).
  - intros s s' (_ & -> & _ & -> & _) H. exact H.
  - intros s s' _ (-> & _). reflexivity.
  - intros st0 u st1 s2 [Hc Hl] E _ (Hg & _).
    apply train_epoch_ok in E as (Hsteps & Hstop & _ & Hgs).
    assert (Hc1 : config (self st1) !! "n_global_iterations" = Some (VInt n)).
    { apply loop_steps_frame in Hsteps as (_ & -> & _). exact Hc. }
    rewrite (stop_iterations _ _ Hc1) in Hstop. injection Hstop as Hstop.
    apply Z.leb_gt in Hstop.
    assert (0 < Z.of_nat (length (train_loader (dataset_factory (self st0))))).
    { destruct (train_loader (dataset_factory (self st0))); [congruence|].
      rewrite length_cons. lia. }
    cbn [global_step set_epoch]. lia.
  - split; assumption.
  - exact Hfuel.
Qed.

(** With an epoch budget and no iteration budget. *)
Lemma train_fuel_epochs (n : Z) (fuel : nat) (st : St) :
  config (self st) !! "n_global_iterations" = None ->
  config (self st) !! "n_epochs" = Some (VInt n) ->
  (Z.to_nat (n - epoch (self st)) < fuel)%nat ->
  fst (train fuel st) <> OutOfFuel.
Proof.
  intros Hcfg1 Hcfg2 Hfuel.
  apply (train_fuel
           (fun s => config s !! "n_global_iterations" = None
                     /\ config s !! "n_epochs" = Some (VInt n))
           (fun s => Z.to_nat (n - epoch s))).
  - intros s s' (_ & -> & _) H. exact H.
  - intros s s' _ (_ & -> & _). reflexivity.
  - intros st0 u st1 s2 [Hc1 Hc2] E _ (_ & He & _).
    apply train_epoch_ok in E as (Hsteps & Hstop & Hep & _).
    apply loop_steps_frame in Hsteps as (_ & Hc & _).
    rewrite <- Hc in Hc1, Hc2.
    rewrite (stop_epochs _ _ Hc1 Hc2) in Hstop. injection Hstop as Hstop.
    apply Z.leb_gt in Hstop.
    cbn [epoch set_epoch]. lia.
  - split; assumption.
  - exact Hfuel.
Qed.

(** With an epoch budget, a training that returns has run every epoch up
    to the budget over the whole loader. *)
Lemma train_loop_epochs_count (n : Z) (fuel : nat) (best r : option string) (st st' : St) :
  config (self st) !! "n_global_iterations" = None ->
  config (self st) !! "n_epochs" = Some (VInt n) ->
  train_loop fuel best st = (Ok r, st') ->
  global_step (self st')
  = global_step (self st)
    + (Z.max (epoch (self st)) n - epoch (self st))
      * Z.of_nat (length (train_loader (dataset_factory (self st)))).
Proof.
  revert best st. induction fuel as [|fuel IH]; intros best st Hc1 Hc2 E; [discriminate|].
  rewrite train_loop_unfold in E.
  pose proof (train_epoch_unfold st) as Hun.
  rewrite (stop_epochs _ _ Hc1 Hc2) in Hun.
  destruct (Z.leb_spec n (epoch (self st))) as [Hle|Hlt].
  - rewrite Hun in E. injection E as _ <-. lia.
  - clear Hun. destruct (train_epoch st) as [[[]|e|] st1] eqn:E1.
    + apply train_epoch_ok in E1 as (Hsteps1 & _ & Hep1 & Hgs1).
      destruct (after_epoch_spec best st1) as (o2 & st2 & Hrun2 & Hsteps2 & Hp2 & _).
      rewrite Hrun2 in E. destruct o2 as [best'|e|]; try discriminate.
      pose proof (loop_steps_frame _ _ Hsteps1) as (_ & Hcfg1 & _ & Hd1 & _).
      pose proof (loop_steps_frame _ _ Hsteps2) as (_ & Hcfg2 & _ & Hd2 & _).
      destruct Hp2 as (Hg2 & He2 & _).
      apply IH in E.
      * rewrite E. unfold epoch_end_step, with_self.
        cbn [self global_step epoch dataset_factory set_epoch].
        rewrite Hd2, Hd1, Hg2, He2, Hgs1, Hep1.
        rewrite !Z.max_r by lia. lia.
      * cbn. rewrite Hcfg2, Hcfg1. exact Hc1.
      * cbn. rewrite Hcfg2, Hcfg1. exact Hc2.
    + destruct e; try discriminate. 
      destruct (train_epoch_spec st) as (o & st0 & Hrun & _ & Hep & Hpost).
      rewrite E1 in Hrun. injection Hrun as <- <-. exfalso.
      pose proof (train_epoch_unfold st) as Hun.
      rewrite (stop_epochs _ _ Hc1 Hc2) in Hun.
      destruct (n <=? epoch (self st)) eqn:El; [apply Z.leb_le in El; lia|].
      rewrite E1 in Hun.
      assert (Hs0 : _should_stop_training (self (epoch_begin_step st)) = Ok false).
      { rewrite (stop_epochs _ n); [cbn; rewrite El; reflexivity|exact Hc1|exact Hc2]. }
      destruct (train_batches_spec (train_loader (dataset_factory (self st)))
                  (epoch_begin_step st) Hs0) as (o & st2 & Hrun & Hsteps & Hep2 & Hpost2).
      rewrite Hrun in Hun. destruct o as [[]|e|].
      * rewrite call_hook_run in Hun. discriminate.
      * injection Hun as <- <-.
        apply loop_steps_frame in Hsteps as (_ & Hcfg & _).
        cbn in Hcfg, Hep2. rewrite <- Hcfg in Hc1, Hc2.
        rewrite (stop_epochs _ _ Hc1 Hc2) in Hpost2. rewrite Hep2 in Hpost2.
        rewrite El in Hpost2. discriminate.
      * discriminate.
    + discriminate.
Qed.
(** ** The evaluation runner *)

(** C6. Over a held-out stream of batches and the item count [N] of the
    test set, the mapping [test] hands to the writer and prints holds, for
    every metric name, the sum over the batches that report the metric of
    their value divided by [N], built up from 0 in the order of the batches;
    a metric no batch reports is absent. Two batches reporting [v1] and
    [v2] aggregate to [0 + v1 / N + v2 / N]: each batch weighs in with its
    value over [N], and nothing is divided by the number of batches. *)
Theorem test_aggregation (st : St) :
  exists (pre : list (call * MLProject)) (s1 s2 : MLProject),
    trace (snd (test st))
    = trace st ++ pre
        ++ [(CallAddScalarsTest (eval_losses (self st)) (global_step (self st)), s1);
            (CallPrint (eval_losses (self st)), s2)]
    /\ (forall name : string,
          eval_losses (self st) !! name
          = match reported name (eval_outputs (self st)) with
            | [] => None
            | values => Some (weighted_sum (test_set_len (dataset_factory (self st))) values)
            end)
    /\ (forall (name : string) (v1 v2 : Tensor),
          reported name (eval_outputs (self st)) = [v1; v2] ->
          eval_losses (self st) !! name
          = Some (score_add
                    (score_add score_zero
                       (score_of v1 (test_set_len (dataset_factory (self st)))))
                    (score_of v2 (test_set_len (dataset_factory (self st)))))).
Proof.
  destruct (test_run st) as (st1 & _ & _ & _ & (pre & s1 & Htr) & Hrun).
  exists pre, s1, (self st1). split; [|split].
  - rewrite Hrun. cbn [snd push trace]. rewrite Htr. rewrite <- !app_assoc. reflexivity.
  - intros name. apply aggregate_lookup.
  - intros name v1 v2 Hrep. unfold eval_losses. rewrite aggregate_lookup, Hrep.
    reflexivity.
Qed.

(** C8. When the stream is exhausted, [test] looks the benchmark metric of
    the model up in the aggregated mapping, the one it has just printed: if
    the name is absent it raises a [KeyError] and returns no score, if it is
    present it returns the aggregated value under it. The name is absent
    exactly when no batch reported it. *)
Theorem test_benchmark_lookup (st : St) :
  (exists st1 : St, snd (test st) = push (CallPrint (eval_losses (self st))) st1)
  /\ (eval_losses (self st) !! eval_benchmark (self st) = None ->
      fst (test st) = Raise (KeyError (eval_benchmark (self st))))
  /\ (forall v : Score,
        eval_losses (self st) !! eval_benchmark (self st) = Some v ->
        fst (test st) = Ok v)
  /\ (eval_losses (self st) !! eval_benchmark (self st) = None
      <-> reported (eval_benchmark (self st)) (eval_outputs (self st)) = []).
Proof.
  destruct (test_run st) as (st1 & _ & _ & _ & _ & Hrun).
  split; [exists st1; rewrite Hrun; reflexivity|].
  split; [intros H; rewrite Hrun, H; reflexivity|].
  split; [intros v H; rewrite Hrun, H; reflexivity|].
  unfold eval_losses. rewrite aggregate_lookup.
  destruct (reported _ _); split; intros H; try reflexivity; discriminate.
Qed.

(** ** The stop condition *)

Lemma train_ok (fuel : nat) (st : St) :
  fst (train fuel st) = Ok tt ->
  exists best st1,
    train_loop fuel None (snd (call_hook train_mode (snd (call_hook on_train_begin st))))
    = (Ok best, st1)
    /\ global_step (self (snd (train fuel st))) = global_step (self st1).
Proof.
  rewrite train_unfold.
  destruct (train_loop fuel None _) as [[best|e|] st1]; try discriminate.
  intros _. exists best, st1. split; [reflexivity|].
  rewrite call_hook_run. destruct best as [fname|]; [destruct (_run (self st1))|];
    reflexivity.
Qed.

(** C4. The stop predicate is asked when an epoch starts and after every
    batch: a yes at the start stops the epoch before anything happens, a yes
    after a batch stops it before the next batch. With an iteration budget
    [n] ([n_global_iterations = 100], say) and a loader that is not empty,
    [train] comes to an end (it returns, or a fatal error of the
    configuration or the evaluation ends it); no batch is trained on once
    [global_step] has reached [n], wherever the epochs end; and when [train]
    returns, [global_step] is [n] (or where it started, if that was beyond
    [n]). With an epoch budget [n] alone ([n_epochs = 3], say) [train] comes
    to an end, and when it returns [epoch] is [n] and every epoch from the
    first to epoch [n - 1] has run over the whole loader. *)
Theorem stop_condition (st : St) :
  (_should_stop_training (self st) = Ok true -> train_epoch st = (Raise TrainingStop, st))
  /\ (forall (b : Batch) (rest : list Batch) (s1 : MLProject),
        _set_log_level (self st) = Ok s1 ->
        _should_stop_training (self (batch_step b (mkSt s1 (world st) (trace st))))
        = Ok true ->
        train_batches (b :: rest) st
        = (Raise TrainingStop, batch_step b (mkSt s1 (world st) (trace st))))
  /\ (forall n : Z,
        config (self st) !! "n_global_iterations" = Some (VInt n) ->
        (train_loader (dataset_factory (self st)) <> [] ->
         forall fuel : nat,
           (Z.to_nat (n - global_step (self st)) < fuel)%nat ->
           fst (train fuel st) <> OutOfFuel)
        /\ (forall fuel : nat,
              (exists seg, trace (snd (train fuel st)) = trace st ++ seg
                           /\ trains_below n seg)
              /\ (fst (train fuel st) = Ok tt ->
                  global_step (self (snd (train fuel st)))
                  = Z.max (global_step (self st)) n)))
  /\ (forall n : Z,
        config (self st) !! "n_global_iterations" = None ->
        config (self st) !! "n_epochs" = Some (VInt n) ->
        (forall fuel : nat,
           (Z.to_nat (n - epoch (self st)) < fuel)%nat ->
           fst (train fuel st) <> OutOfFuel)
        /\ (forall fuel : nat,
              fst (train fuel st) = Ok tt ->
              epoch (self (snd (train fuel st))) = Z.max (epoch (self st)) n
              /\ global_step (self (snd (train fuel st)))
                 = global_step (self st)
                   + (Z.max (epoch (self st)) n - epoch (self st))
                     * Z.of_nat (length (train_loader (dataset_factory (self st)))))).
Proof.
  split; [|split; [|split]].
  - intros H. rewrite train_epoch_unfold, H. reflexivity.
  - intros b rest s1 H1 H2. rewrite train_batches_cons, H1. cbv zeta. rewrite H2.
    reflexivity.
  - intros n Hcfg. split.
    + intros Hload fuel Hfuel. apply (train_fuel_iterations n); assumption.
    + intros fuel. destruct (train_spec fuel st) as (o & st' & Hrun & Hsteps & Hpost).
      rewrite Hrun. cbn [fst snd].
      destruct (loop_steps_iterations n st st' Hcfg Hsteps) as (Hle & Hseg).
      split; [exact Hseg|]. intros ->.
      assert (Hcfg' : config (self st') !! "n_global_iterations" = Some (VInt n)).
      { apply loop_steps_frame in Hsteps as (_ & -> & _). exact Hcfg. }
      rewrite (stop_iterations _ _ Hcfg') in Hpost. injection Hpost as Hpost.
      apply Z.leb_le in Hpost.
      apply loop_steps_faithful in Hsteps as (seg & _ & _ & (Hg & _)).
      pose proof (completed_batches_nonneg (map fst seg)). lia.
  - intros n Hc1 Hc2. split.
    + intros fuel Hfuel. apply (train_fuel_epochs n); assumption.
    + intros fuel Hok. destruct (train_ok fuel st Hok) as (best & st1 & Hloop & Hgs).
      destruct (train_spec fuel st) as (o & st' & Hrun & Hsteps & Hpost).
      rewrite Hrun in Hok, Hgs |- *. cbn [fst snd] in *. subst o.
      split.
      * pose proof (loop_steps_epochs n st st' Hc1 Hc2 Hsteps) as Hep.
        apply loop_steps_frame in Hsteps as (_ & Hc & _). rewrite <- Hc in Hc1, Hc2.
        rewrite (stop_epochs _ _ Hc1 Hc2) in Hpost. injection Hpost as Hpost.
        apply Z.leb_le in Hpost. lia.
      * rewrite Hgs. apply (train_loop_epochs_count n) in Hloop; [|exact Hc1|exact Hc2].
        exact Hloop.
Qed.

(** ** The counters *)

(** C9. Along [train] (and along one [train_epoch], [test] or [save]) the
    trace accounts for the counters at every call and at the end: [global_step] is where it
    started plus the batches completed so far, one per batch, so it never
    goes down; [epoch_step] is the number of batches completed since the
    epoch was opened, 0 right after the opening; and [best_score] is what it
    was at the start until an evaluation has printed its summary. A new
    instance starts with [best_score = None]. *)
Theorem counters_invariant (fuel : nat) (st : St) :
  faithful st (snd (train fuel st))
  /\ faithful st (snd (train_epoch st))
  /\ faithful st (snd (test st))
  /\ faithful st (snd (save st))
  /\ (forall seg : list (call * MLProject),
        trace (snd (train fuel st)) = trace st ++ seg ->
        forall (i j : nat) (c1 c2 : call) (s1 s2 : MLProject),
          (i <= j)%nat -> seg !! i = Some (c1, s1) -> seg !! j = Some (c2, s2) ->
          global_step (self st) <= global_step s1
          /\ global_step s1 <= global_step s2
          /\ global_step s2 <= global_step (self (snd (train fuel st))))
  /\ (forall (rnd : Z) (a : InitArgs) (w w' : World) (s : MLProject),
        __init__ rnd a w = Ok (s, w') -> best_score s = None).
Proof.
  destruct (train_spec fuel st) as (o & st' & Hrun & Hsteps & _).
  destruct (train_epoch_spec st) as (o2 & st2 & Hrun2 & Hsteps2 & _).
  rewrite Hrun, Hrun2. cbn [snd].
  pose proof (loop_steps_faithful _ _ Hsteps) as Hf.
  split; [exact Hf|]. split; [apply loop_steps_faithful, Hsteps2|].
  split; [apply loop_steps_faithful, quiet_loop, test_steps|].
  split; [apply loop_steps_faithful, quiet_loop, save_steps|]. split.
  - intros seg Hseg i j c1 c2 s1 s2 Hij Hi Hj.
    destruct Hf as (seg' & Htr & Hall & Hnow).
    assert (seg' = seg) as -> by (rewrite Htr in Hseg; eapply app_inv_head; exact Hseg).
    destruct (Hall _ _ _ Hi) as (Hg1 & _). destruct (Hall _ _ _ Hj) as (Hg2 & _).
    destruct Hnow as (Hg3 & _).
    pose proof (completed_batches_nonneg (map fst (take i seg))).
    assert (Hij' : take j seg = take i seg ++ drop i (take j seg)).
    { rewrite <- (take_drop i (take j seg)) at 1. rewrite take_take.
      rewrite Nat.min_l by lia. reflexivity. }
    pose proof (completed_batches_app_le (map fst (take i seg))
                  (map fst (drop i (take j seg)))) as H12.
    rewrite <- map_app, <- Hij' in H12.
    pose proof (completed_batches_app_le (map fst (take j seg))
                  (map fst (drop j seg))) as H23.
    rewrite <- map_app, take_drop in H23. lia.
  - intros rnd a w w' s. unfold __init__.
    destruct (match arg_model_state a with
              | Some ((_ :: _) as ms) => load_state_dict (get_model (arg_config a)) ms
              | _ => Ok (get_model (arg_config a))
              end) as [m|e|]; cbn; try discriminate.
    destruct (torch_device (device_name (arg_config a))) as [d|e|]; cbn; try discriminate.
    destruct (arg_model_save_dir a).
    + intros [= <- _]. reflexivity.
    + destruct (get_model_dir _ _); cbn; try discriminate.
      destruct (bool_decide _); [discriminate|]. intros [= <- _]. reflexivity.
Qed.

(** ** Strings and paths *)

Lemma append_cons (x : ascii) (a b : string) : String x a +:+ b = String x (a +:+ b).
Proof. reflexivity. Qed.

Lemma append_nil_l (b : string) : EmptyString +:+ b = b.
Proof. reflexivity. Qed.

Lemma append_assoc (a b c : string) : (a +:+ b) +:+ c = a +:+ b +:+ c.
Proof.
  induction a as [|x a IH]; [reflexivity|]. rewrite !append_cons. f_equal. exact IH.
Qed.

Lemma append_nil_r (a : string) : a +:+ EmptyString = a.
Proof.
  induction a as [|x a IH]; [reflexivity|]. rewrite append_cons. f_equal. exact IH.
Qed.

Lemma length_append (a b : string) :
  String.length (a +:+ b) = (String.length a + String.length b)%nat.
Proof.
  induction a as [|x a IH]; [reflexivity|]. rewrite append_cons.
  cbn [String.length plus]. f_equal. exact IH.
Qed.

Lemma length_zeros (n : nat) : String.length (zeros n) = n.
Proof.
  induction n as [|n IH]; cbn [zeros String.length]; [reflexivity|]. f_equal. exact IH.
Qed.

Lemma slash_free_append (a b : string) :
  slash_free (a +:+ b) = slash_free a && slash_free b.
Proof.
  induction a as [|x a IH]; [reflexivity|]. rewrite append_cons.
  cbn [slash_free]. rewrite IH. apply andb_assoc.
Qed.

Lemma slash_free_zeros (n : nat) : slash_free (zeros n) = true.
Proof. induction n as [|n IH]; cbn; [reflexivity|exact IH]. Qed.

Lemma slash_free_uint (d : Decimal.uint) : slash_free (NilEmpty.string_of_uint d) = true.
Proof. induction d; cbn; try reflexivity; exact IHd. Qed.

Lemma slash_free_digits (z : Z) : slash_free (digits z) = true.
Proof.
  unfold digits, NilZero.string_of_uint.
  destruct (N.to_uint (Z.abs_N z)); try reflexivity; apply (slash_free_uint (_ _)).
Qed.

Lemma slash_free_format_05 (z : Z) : slash_free (format_05 z) = true.
Proof.
  unfold format_05. destruct (z <? 0);
    rewrite ?slash_free_append, ?slash_free_zeros, ?slash_free_digits; reflexivity.
Qed.

Lemma split_nonempty (s : string) : posixpath.split s <> [].
Proof.
  induction s as [|c s IH]; cbn; [discriminate|].
  destruct (Ascii.eqb c posixpath.sep); [discriminate|].
  destruct (posixpath.split s); discriminate.
Qed.

Lemma split_app_sep (p q : string) :
  posixpath.split (p +:+ String posixpath.sep q) = posixpath.split p ++ posixpath.split q.
Proof.
  induction p as [|c p IH].
  - reflexivity.
  - rewrite append_cons. cbn [posixpath.split].
    destruct (Ascii.eqb c posixpath.sep); cbn [app].
    + rewrite IH. reflexivity.
    + rewrite IH. pose proof (split_nonempty p) as Hne.
      destruct (posixpath.split p) as [|h t]; [congruence|reflexivity].
Qed.

Lemma split_slash_free (f : string) : slash_free f = true -> posixpath.split f = [f].
Proof.
  induction f as [|c f IH]; cbn; [reflexivity|].
  intros H. apply andb_true_iff in H as [Hc Hf].
  apply negb_true_iff in Hc. rewrite Hc, (IH Hf). reflexivity.
Qed.

Lemma endswith_sep_inv (a : string) :
  posixpath.endswith_sep a = true -> exists a', a = a' +:+ "/".
Proof.
  induction a as [|c a IH]; cbn; [discriminate|].
  destruct a as [|c' a'].
  - intros H. apply Ascii.eqb_eq in H. subst c. exists EmptyString. reflexivity.
  - intros H. destruct (IH H) as (b & Hb). exists (String c b).
    rewrite append_cons, <- Hb. reflexivity.
Qed.

Lemma slash_free_startswith (f : string) :
  slash_free f = true -> posixpath.startswith_sep f = false.
Proof.
  destruct f as [|c f]; cbn; [reflexivity|].
  intros H. apply andb_true_iff in H as [Hc _]. apply negb_true_iff in Hc. exact Hc.
Qed.

Lemma join_shape (a f : string) :
  posixpath.startswith_sep f = false ->
  exists q, posixpath.join a f = q +:+ f /\ dir_prefix q.
Proof.
  intros Hf. unfold posixpath.join. rewrite Hf.
  destruct (String.eqb_spec a EmptyString) as [->|Ha]; cbn [orb].
  - exists EmptyString. split; [reflexivity|]. left. reflexivity.
  - destruct (posixpath.endswith_sep a) eqn:He.
    + exists a. split; [reflexivity|]. right. apply endswith_sep_inv. exact He.
    + exists (a +:+ "/"). split; [symmetry; apply append_assoc|]. right. eauto.
Qed.

Lemma dir_prefix_append (p q : string) : dir_prefix p -> dir_prefix q -> dir_prefix (p +:+ q).
Proof.
  intros Hp [->|(q' & ->)].
  - rewrite append_nil_r. exact Hp.
  - right. exists (p +:+ q'). symmetry. apply append_assoc.
Qed.


Lemma abspath_shape (cwd a f : string) :
  slash_free f = true ->
  exists q, (if posixpath.isabs (posixpath.join a f) then posixpath.join a f
             else posixpath.join cwd (posixpath.join a f)) = q +:+ f
            /\ dir_prefix q.
Proof.
  intros Hf. pose proof (slash_free_startswith f Hf) as Hs.
  destruct (join_shape a f Hs) as (q & Hq & Hd). rewrite Hq.
  destruct (posixpath.isabs (q +:+ f)) eqn:Habs.
  - exists q. split; [reflexivity|exact Hd].
  - destruct (join_shape cwd (q +:+ f) Habs) as (q2 & Hq2 & Hd2). rewrite Hq2.
    exists (q2 +:+ q). split; [symmetry; apply append_assoc|].
    apply dir_prefix_append; assumption.
Qed.

Lemma split_dir_prefix (q f : string) :
  dir_prefix q -> slash_free f = true ->
  exists comps, posixpath.split (q +:+ f) = comps ++ [f].
Proof.
  intros [->|(q' & ->)] Hf.
  - exists []. apply split_slash_free. exact Hf.
  - exists (posixpath.split q'). rewrite append_assoc, append_cons, append_nil_l.
    rewrite split_app_sep, (split_slash_free f Hf). reflexivity.
Qed.

Lemma concat_snoc (sep : string) (comps : list string) (f : string) :
  exists p, String.concat sep (comps ++ [f]) = p +:+ f.
Proof.
  induction comps as [|x comps (p & IH)].
  - exists EmptyString. reflexivity.
  - destruct comps as [|y comps].
    + exists (x +:+ sep). cbn [app String.concat]. symmetry. apply append_assoc.
    + exists (x +:+ sep +:+ p). cbn [app String.concat] in *. rewrite IH.
      rewrite !append_assoc. reflexivity.
Qed.

Lemma append_nonempty (p f : string) : f <> EmptyString -> p +:+ f <> EmptyString.
Proof. destruct p; [auto|rewrite append_cons; discriminate]. Qed.

Lemma norm_step_plain (i : nat) (new_comps : list string) (f : string) :
  f <> EmptyString -> f <> "." -> f <> ".." ->
  posixpath.norm_step i new_comps f = new_comps ++ [f].
Proof.
  intros H0 H1 H2. unfold posixpath.norm_step.
  destruct (String.eqb_spec f EmptyString) as [E|_]; [contradiction|].
  destruct (String.eqb_spec f ".") as [E|_]; [contradiction|].
  destruct (String.eqb_spec f "..") as [E|_]; [contradiction|].
  reflexivity.
Qed.

(** [normpath] keeps a last component that is a plain name. *)
Lemma normpath_last (q f : string) :
  dir_prefix q -> slash_free f = true ->
  f <> EmptyString -> f <> "." -> f <> ".." ->
  ends_with f (posixpath.normpath (q +:+ f)).
Proof.
  intros Hq Hf H0 H1 H2. unfold posixpath.normpath.
  destruct (String.eqb_spec (q +:+ f) EmptyString) as [E|_].
  { destruct (append_nonempty q f H0 E). }
  destruct (split_dir_prefix q f Hq Hf) as (comps & ->).
  rewrite fold_left_app. cbn [fold_left].
  rewrite (norm_step_plain _ _ _ H0 H1 H2).
  destruct (concat_snoc "/" (fold_left (posixpath.norm_step
                                          (posixpath.initial_slashes (q +:+ f))) comps []) f)
    as (p & ->).
  cbv zeta. rewrite <- append_assoc.
  destruct (String.eqb_spec ((posixpath.seps (posixpath.initial_slashes (q +:+ f)) +:+ p)
                             +:+ f) EmptyString) as [E|_].
  { destruct (append_nonempty _ f H0 E). }
  eexists. reflexivity.
Qed.

Lemma abspath_join_last (cwd a f : string) :
  slash_free f = true ->
  f <> EmptyString -> f <> "." -> f <> ".." ->
  ends_with f (posixpath.abspath cwd (posixpath.join a f)).
Proof.
  intros Hf H0 H1 H2. unfold posixpath.abspath.
  destruct (abspath_shape cwd a f Hf) as (q & -> & Hq).
  apply normpath_last; assumption.
Qed.

Lemma format_05_nonneg (z : Z) :
  0 <= z -> format_05 z = zeros (5 - String.length (digits z)) +:+ digits z.
Proof.
  intros Hz. unfold format_05. destruct (Z.ltb_spec z 0); [lia|reflexivity].
Qed.

Lemma checkpoint_pattern_plain (name : string) (e b : Z) (ext : string) :
  checkpoint_pattern name e b ext <> EmptyString
  /\ checkpoint_pattern name e b ext <> "."
  /\ checkpoint_pattern name e b ext <> "..".
Proof.
  assert (H : (3 <= String.length (checkpoint_pattern name e b ext))%nat).
  { unfold checkpoint_pattern. rewrite !length_append. cbn. lia. }
  repeat split; intros E; rewrite E in H; cbn in H; lia.
Qed.
(** ** The checkpoint store *)

(** C7. The name [save_filename] hands to the path functions is
    [<model_name>_e<epoch:05d>_b<epoch_step:05d>.torch] for every model name,
    epoch and epoch_step, the two numbers padded with zeros to five digits
    (a number that needs more keeps all its digits). The path ends with that
    name whenever the model name has no ['/'] in it. For the model [net] at
    epoch 3 and epoch_step 7 the path contains [net_e00003_b00007], whatever
    the directories. *)
Theorem save_filename_pattern (cwd : string) (s : MLProject) :
  save_filename cwd s
  = posixpath.abspath cwd
      (posixpath.join (model_save_dir s)
         (checkpoint_pattern (model_name (model s)) (epoch s) (epoch_step s) "torch"))
  /\ (slash_free (model_name (model s)) = true ->
      ends_with (checkpoint_pattern (model_name (model s)) (epoch s) (epoch_step s) "torch")
        (save_filename cwd s))
  /\ (forall z : Z,
        0 <= z ->
        format_05 z = zeros (5 - String.length (digits z)) +:+ digits z
        /\ String.length (format_05 z) = Nat.max 5 (String.length (digits z)))
  /\ (model_name (model s) = "net" -> epoch s = 3 -> epoch_step s = 7 ->
      contains "net_e00003_b00007" (save_filename cwd s)).
Proof.
  assert (Hends : slash_free (model_name (model s)) = true ->
                  ends_with (checkpoint_pattern (model_name (model s)) (epoch s)
                               (epoch_step s) "torch") (save_filename cwd s)).
  { intros Hname.
    destruct (checkpoint_pattern_plain (model_name (model s)) (epoch s) (epoch_step s)
                "torch") as (H0 & H1 & H2).
    apply abspath_join_last; try assumption.
    unfold checkpoint_pattern.
    rewrite !slash_free_append, !slash_free_format_05, Hname. reflexivity. }
  split; [reflexivity|]. split; [exact Hends|]. split.
  - intros z Hz. rewrite (format_05_nonneg z Hz). split; [reflexivity|].
    rewrite length_append, length_zeros. lia.
  - intros Hn He Hb. destruct Hends as (prefix & Hp); [rewrite Hn; reflexivity|].
    rewrite Hp, Hn, He, Hb. exists prefix, ".torch". reflexivity.
Qed.

Lemma init_shape (rnd : Z) (a : InitArgs) (w w' : World) (s : MLProject) :
  __init__ rnd a w = Ok (s, w') ->
  exists m0,
    match arg_model_state a with
    | Some ((_ :: _) as model_state) => load_state_dict (get_model (arg_config a)) model_state
    | _ => Ok (get_model (arg_config a))
    end = Ok m0
    /\ (exists d, torch_device (device_name (arg_config a)) = Ok d)
    /\ _id s = match arg_id a with
               | Some z => if z =? 0 then rnd else z
               | None => rnd
               end
    /\ config s = arg_config a
    /\ model s = model_to (device s) m0
    /\ global_step s = arg_global_step a
    /\ epoch s = arg_epoch a
    /\ epoch_step s = arg_epoch_step a
    /\ best_score s = None
    /\ tensorboard_run_dir s
       = match arg_tensorboard_run_dir a with
         | None =>
             if truthy (dict_get (arg_config a) "tensorboard_dir")
             then Some (get_tensorboard_dir (str (_id s) +:+ "_" +:+ model_name (model s)))
             else None
         | Some d => Some d
         end
    /\ (forall d, arg_model_save_dir a = Some d -> model_save_dir s = d /\ w' = w).
Proof.
  unfold __init__.
  destruct (match arg_model_state a with
            | Some ((_ :: _) as ms) => load_state_dict (get_model (arg_config a)) ms
            | _ => Ok (get_model (arg_config a))
            end) as [m0|e|]; cbn [obind]; try discriminate.
  destruct (torch_device (device_name (arg_config a))) as [d|e|] eqn:Hdev; cbn [obind];
    try discriminate.
  destruct (arg_model_save_dir a) as [dir|].
  - intros [= <- <-]. exists m0. cbn. repeat split; eauto; congruence.
  - destruct (get_model_dir _ _); cbn [obind]; try discriminate.
    destruct (bool_decide _); [discriminate|]. intros [= <- <-].
    exists m0. cbn. repeat split; eauto; congruence.
Qed.

Section Roundtrip.

Context {L : ModelLaws}.

Lemma init_loadable (rnd : Z) (a : InitArgs) (w w' : World) (s : MLProject) :
  10 ^ 10 <= rnd <= 10 ^ 10 + 10 ^ 8 ->
  __init__ rnd a w = Ok (s, w') -> loadable s.
Proof.
  intros Hrnd Hinit.
  destruct (init_shape _ _ _ _ _ Hinit)
    as (m0 & Hm0 & Hdev & Hid & Hcfg & Hmodel & _ & _ & _ & _ & Htb & _).
  split; [|split; [|split]].
  - rewrite Hid. destruct (arg_id a) as [z|]; [|lia].
    destruct (Z.eqb_spec z 0); lia.
  - rewrite Htb, Hcfg. destruct (arg_tensorboard_run_dir a); [discriminate|].
    destruct (truthy _); [discriminate|reflexivity].
  - rewrite Hcfg. exact Hdev.
  - rewrite Hmodel, Hcfg. unfold state_keys. rewrite model_to_state.
    destruct (arg_model_state a) as [[|x sd]|].
    + injection Hm0 as <-. reflexivity.
    + pose proof (load_state_dict_holds _ _ _ Hm0) as H1.
      pose proof (load_state_dict_strict _ _ _ Hm0) as H2.
      rewrite H1. exact H2.
    + injection Hm0 as <-. reflexivity.
Qed.

Lemma loop_step_keys (st st' : St) :
  loop_step st st' -> state_keys (model (self st')) = state_keys (model (self st)).
Proof.
  intros [st0 st1 H|st0|st0 b _|st0 tl sc|st0 _]; try reflexivity.
  - destruct H as [st0 m' Hm|st0 l|st0 c _|st0 f d]; try reflexivity.
    apply model_call_keys. exact Hm.
  - cbn. apply model_call_keys. apply mc_hook.
  - cbn. apply model_call_keys. apply mc_train.
Qed.

Lemma loop_steps_loadable (st st' : St) :
  rtc loop_step st st' -> loadable (self st) -> loadable (self st').
Proof.
  intros H. induction H as [x|x y z Hxy _ IH]; [auto|].
  intros Hx. apply IH. clear IH.
  destruct (loop_step_frame _ _ Hxy) as (Hid & Hcfg & _ & _ & _ & Htb & _).
  destruct Hx as (H1 & H2 & H3 & H4). unfold loadable.
  rewrite Hid, Hcfg, Htb, (loop_step_keys _ _ Hxy). auto.
Qed.

Lemma reachable_loadable (st : St) : reachable st -> loadable (self st).
Proof.
  induction 1 as [rnd a w w' s tr Hrnd Hinit|rnd filename st w' s Hrnd _ _ Hload
                 |fuel st _ IH|st _ IH|st _ IH|st _ IH].
  - apply (init_loadable rnd a w w' s Hrnd Hinit).
  - unfold load in Hload. destruct (files (world st) !! filename); [|discriminate].
    eapply init_loadable; eassumption.
  - destruct (train_spec fuel st) as (o & st' & Hrun & Hsteps & _). rewrite Hrun.
    eapply loop_steps_loadable; eassumption.
  - destruct (train_epoch_spec st) as (o & st' & Hrun & Hsteps & _). rewrite Hrun.
    eapply loop_steps_loadable; eassumption.
  - eapply loop_steps_loadable; [|exact IH]. apply quiet_loop, test_steps.
  - exact IH.
Qed.


End Roundtrip.

End Properties.

(* ===================================================================== *)
(** * The properties on the concrete collaborators *)
(* ===================================================================== *)

Lemma lm_load_inv (m m' : Example.LinearModel) (sd : list (string * float)) :
  Example.lm_load m sd = Ok m' ->
  exists w, sd = [("weight", w)]
            /\ m' = Example.mkLinearModel (Example.lm_name m) (Example.lm_benchmark m) w.
Proof.
  unfold Example.lm_load. destruct sd as [|[k w] [|? ?]]; try discriminate.
  destruct (String.eqb_spec k "weight") as [->|]; [|discriminate].
  intros [= <-]. eauto.
Qed.

(** The linear model keeps the laws of a [torch.nn.Module]. *)
Lemma example_laws (m0 : Example.LinearModel) (d : Example.Data) :
  ModelLaws (C := Example.collaborators m0 d).
Proof.
  split.
  - intros m m' sd H. apply lm_load_inv in H as (w & -> & ->). reflexivity.
  - intros m m' sd H. apply lm_load_inv in H as (w & -> & ->). reflexivity.
  - intros m sd H. destruct sd as [|[k w] [|? ?]]; try discriminate.
    injection H as ->. eexists. reflexivity.
  - reflexivity.
  - intros m m' _. reflexivity.
Qed.

Lemma example_init (config : gmap string value) :
  config !! "model_dir" = Some (VStr "models") ->
  config !! "device" = None ->
  config !! "tensorboard_dir" = None ->
  __init__ 10000000005 (default_args config) Example.world0
  = Ok (Example.project config, Example.world1).
Proof.
  intros H1 H2 H3. unfold __init__, get_model_dir, dict_get, device_name.
  cbn [default_args arg_config arg_id arg_model_state arg_model_save_dir
       arg_tensorboard_run_dir arg_global_step arg_epoch arg_epoch_step arg_run obind].
  rewrite H2. cbn [obind]. rewrite H1, H3. reflexivity.
Qed.

Lemma example_reachable (config : gmap string value) :
  config !! "model_dir" = Some (VStr "models") ->
  config !! "device" = None ->
  config !! "tensorboard_dir" = None ->
  reachable (Example.start config).
Proof.
  intros H1 H2 H3.
  apply (reach_init 10000000005 (default_args config) Example.world0); [lia|].
  apply example_init; assumption.
Qed.


(** C3 as the specification states it fails on a new instance: the kind
    [f1] is none of the three, there is no best score yet, and [_is_better]
    returns [True]. *)
Lemma is_better_unknown_kind_first_score :
  ~ known_kind (benchmark_metric (model (Example.f1_project None)))
  /\ best_score (Example.f1_project None) = None
  /\ _is_better (Example.f1_project None) 1%float = Ok true
  /\ (forall e : exn, _is_better (Example.f1_project None) 1%float <> Raise e).
Proof.
  split; [|split; [|split]]; try reflexivity.
  - intros [H|[H|H]]; discriminate.
  - intros e. discriminate.
Qed.

(** C3 as the code has it, on the example: with a best score the kind [f1]
    raises. *)
Lemma is_better_unknown_kind_example :
  best_score (Example.f1_project (Some 2%float)) = Some 2%float
  /\ ~ known_kind (benchmark_metric (model (Example.f1_project (Some 2%float))))
  /\ _is_better (Example.f1_project (Some 2%float)) 1%float = Raise (Exception EmptyString).
Proof.
  assert (H : ~ known_kind (benchmark_metric (model (Example.f1_project (Some 2%float))))).
  { intros [H|[H|H]]; discriminate. }
  split; [reflexivity|]. split; [exact H|].
  apply (is_better_unknown_kind (Example.f1_project (Some 2%float)) 1%float 2%float);
    [reflexivity|exact H].
Defined.

(** C5 on the example: intervals 10 and 2, at the first batch of an epoch
    ([epoch_step = 0]) the level is [ALL]. *)
Lemma set_log_level_selection_example :
  dict_get Example.config_epochs "log_iteration_all" = interval (Some 10)
  /\ dict_get Example.config_epochs "log_iteration_scalars" = interval (Some 2)
  /\ exists l,
       _set_log_level (Example.project Example.config_epochs)
       = Ok (set_model_log l (Example.project Example.config_epochs))
       /\ select_level (Some 10) (Some 2) 0 l.
Proof.
  split; [reflexivity|]. split; [reflexivity|].
  destruct (set_log_level_selection (Example.project Example.config_epochs)
              (Some 10) (Some 2) eq_refl eq_refl) as (l & H1 & H2 & _).
  exists l. split; assumption.
Defined.

(** C6 on the example: two batches with losses 2.0 and 3.0 over ten items
    aggregate to [2.0 / 10 + 3.0 / 10], which is not their mean. *)
Lemma test_aggregation_example :
  eval_losses (Example.project Example.config_epochs) !! "loss"
  = Some (2 / 10 + 3 / 10)%float
  /\ (2 / 10 + 3 / 10)%float <> ((2 + 3) / 2)%float.
Proof.
  split.
  - destruct (test_aggregation (Example.start Example.config_epochs)) as (_ & _ & _ & _ & _ & H).
    etransitivity; [exact (H "loss" 2%float 3%float eq_refl)|reflexivity].
  - vm_compute. discriminate.
Defined.

(** C4 on the example: with [n_global_iterations = 100] and three batches
    an epoch, [train] returns at [global_step = 100], in the middle of epoch
    33; with [n_epochs = 3] it returns at [epoch = 3] after nine batches. *)
Lemma stop_condition_example :
  (fst (train 101 (Example.start Example.config_iterations)) = Ok tt
   /\ global_step (self (snd (train 101 (Example.start Example.config_iterations)))) = 100
   /\ epoch (self (snd (train 101 (Example.start Example.config_iterations)))) = 33
   /\ epoch_step (self (snd (train 101 (Example.start Example.config_iterations)))) = 1)
  /\ (fst (train 4 (Example.start Example.config_epochs)) = Ok tt
      /\ epoch (self (snd (train 4 (Example.start Example.config_epochs)))) = 3
      /\ global_step (self (snd (train 4 (Example.start Example.config_epochs)))) = 9).
Proof.
  destruct (stop_condition (Example.start Example.config_iterations))
    as (_ & _ & Hit & _).
  destruct (Hit 100 eq_refl) as (_ & Hit2).
  destruct (Hit2 101%nat) as (_ & Hgs).
  destruct (stop_condition (Example.start Example.config_epochs)) as (_ & _ & _ & Hep).
  destruct (Hep 3 eq_refl eq_refl) as (_ & Hep2).
  assert (H1 : fst (train 101 (Example.start Example.config_iterations)) = Ok tt)
    by (vm_compute; reflexivity).
  assert (H2 : fst (train 4 (Example.start Example.config_epochs)) = Ok tt)
    by (vm_compute; reflexivity).
  split.
  - split; [exact H1|]. split; [rewrite (Hgs H1); reflexivity|].
    split; vm_compute; reflexivity.
  - destruct (Hep2 4%nat H2) as (He & Hg).
    split; [exact H2|]. split; [rewrite He; reflexivity|rewrite Hg; reflexivity].
Defined.

(** C7 on the example: the model [net] at epoch 3 and epoch_step 7. *)
Lemma save_filename_pattern_example :
  save_filename "/home/user"
    (set_epoch 3 (set_epoch_step 7 (Example.project Example.config_epochs)))
  = "/home/user/models/10000000005_net/net_e00003_b00007.torch"
  /\ contains "net_e00003_b00007"
       (save_filename "/home/user"
          (set_epoch 3 (set_epoch_step 7 (Example.project Example.config_epochs)))).
Proof.
  split; [vm_compute; reflexivity|].
  destruct (save_filename_pattern "/home/user"
              (set_epoch 3 (set_epoch_step 7 (Example.project Example.config_epochs))))
    as (_ & _ & _ & H).
  apply H; reflexivity.
Defined.

(** C8 on the example: the model scored by its [loss] gets the aggregated
    loss back; the model scored by [f1], which no batch reports, gets a
    [KeyError]. *)
Lemma test_benchmark_lookup_example :
  fst (test (Example.start Example.config_epochs)) = Ok (2 / 10 + 3 / 10)%float
  /\ fst (test Example.f1_start) = Raise (KeyError "f1").
Proof.
  split.
  - destruct (test_benchmark_lookup (Example.start Example.config_epochs))
      as (_ & _ & H & _).
    apply H. vm_compute. reflexivity.
  - destruct (test_benchmark_lookup Example.f1_start) as (_ & H & _).
    etransitivity; [apply H; vm_compute; reflexivity|reflexivity].
Defined.

(** C9 on the example: nine batches in three epochs, each counted once, and
    [epoch_step] back at 3 when the last epoch ends. *)
Lemma counters_invariant_example :
  global_step (self (snd (train 4 (Example.start Example.config_epochs)))) = 9
  /\ epoch_step (self (snd (train 4 (Example.start Example.config_epochs)))) = 3
  /\ faithful (Example.start Example.config_epochs)
       (snd (train 4 (Example.start Example.config_epochs))).
Proof.
  split; [vm_compute; reflexivity|]. split; [vm_compute; reflexivity|].
  apply (counters_invariant 4 (Example.start Example.config_epochs)).
Defined.

(** C10 on the example: an epoch budget beside the iteration budget changes
    nothing. *)
Lemma stop_budget_precedence_example :
  _should_stop_training
    (set_config (<["n_epochs" := VInt 0]> Example.config_iterations)
       (Example.project Example.config_iterations))
  = Ok false
  /\ _should_stop_training
       (set_global_step 100
          (set_config (<["n_epochs" := VInt 0]> Example.config_iterations)
             (Example.project Example.config_iterations)))
     = Ok true.
Proof.
  split.
  - destruct (stop_budget_precedence (Example.project Example.config_iterations))
      as (H & _).
    destruct (H (VInt 100) eq_refl) as (_ & _ & H' & _).
    etransitivity; [exact (H' (VInt 0))|reflexivity].
  - vm_compute. reflexivity.
Defined.

(** C2 on the example, on floats: with a best score of 0.5 a [loss] of 0.75
    is an improvement and one of 0.5 is not; without a best score any is. *)
Lemma is_better_rule_example :
  _is_better (Example.scored 0.5%float) 0.75%float = Ok true
  /\ _is_better (Example.scored 0.5%float) 0.5%float = Ok false
  /\ _is_better (Example.project Example.config_epochs) 0.5%float = Ok true.
Proof.
  destruct (is_better_rule (Example.scored 0.5%float) 0.75%float) as (_ & H).
  destruct (H 0.5%float eq_refl) as (_ & H').
  split; [rewrite H'; [reflexivity|right; reflexivity]|].
  split; reflexivity.
Defined.

(* ===================================================================== *)
(** * Further properties: the runs *)
(* ===================================================================== *)

Section Runs.

Context {C : Collaborators}.

(** ** The calls of a run *)

Lemma calls_made_refl (st : St) : calls_made st st [].
Proof. exists []. split; [symmetry; apply app_nil_r|reflexivity]. Qed.

Lemma calls_made_trans (st1 st2 st3 : St) (c1 c2 : list call) :
  calls_made st1 st2 c1 -> calls_made st2 st3 c2 -> calls_made st1 st3 (c1 ++ c2).
Proof.
  intros (s1 & H1 & <-) (s2 & H2 & <-). exists (s1 ++ s2). split.
  - rewrite H2, H1. symmetry. apply app_assoc.
  - apply map_app.
Qed.

Lemma calls_made_push (st : St) (c : call) : calls_made st (push c st) [c].
Proof. exists [(c, self st)]. split; reflexivity. Qed.

Lemma calls_made_same (st st' : St) : trace st' = trace st -> calls_made st st' [].
Proof. intros H. exists []. split; [rewrite H; symmetry; apply app_nil_r|reflexivity]. Qed.

Lemma calls_made_cons (st st' : St) (c : call) (calls : list call) :
  calls_made (push c st) st' calls -> calls_made st st' (c :: calls).
Proof. intros H. apply (calls_made_trans st (push c st) st' [c]); [apply calls_made_push|exact H]. Qed.

Lemma calls_made_hook (h : hook) (st : St) : calls_made st (snd (call_hook h st)) [CallHook h].
Proof. rewrite call_hook_run. exists [(CallHook h, self st)]. split; reflexivity. Qed.

(** ** The calls of an evaluation *)

Lemma test_batches_calls (n : Z) (batches : list Batch) (acc : gmap string Score) (st : St) :
  calls_made st (snd (test_batches n batches acc st)) (map CallTestBatch batches).
Proof.
  revert acc st. induction batches as [|b rest IH]; intros acc st.
  - apply calls_made_refl.
  - cbn [test_batches]. rewrite bind_run, call_test_batch_run.
    cbn [map]. apply calls_made_cons.
    eapply (calls_made_trans _ _ _ [] _); [|apply IH].
    apply calls_made_same. reflexivity.
Qed.

(** [test], call by call. *)
Lemma test_exact (st : St) :
  calls_made st (snd (test st))
    (CallHook eval_mode
     :: map CallTestBatch (test_loader (dataset_factory (self st)))
     ++ [CallAddScalarsTest (eval_losses (self st)) (global_step (self st));
         CallPrint (eval_losses (self st))])
  /\ self (snd (test st))
     = set_model (model_after_test (model_log (self st)) (eval_model (self st))
                    (test_loader (dataset_factory (self st)))) (self st)
  /\ world (snd (test st)) = world st.
Proof.
  pose proof (test_batches_calls (test_set_len (dataset_factory (self st)))
                (test_loader (dataset_factory (self st))) ∅
                (snd (call_hook eval_mode st))) as Hc.
  destruct (test_batches_run (test_set_len (dataset_factory (self st)))
              (test_loader (dataset_factory (self st))) ∅
              (snd (call_hook eval_mode st))) as (st' & Hrun & _ & Hself & Hw).
  assert (E : test st
              = (match eval_losses (self st) !! eval_benchmark (self st) with
                 | Some v => Ok v
                 | None => Raise (KeyError (eval_benchmark (self st)))
                 end,
                 push (CallPrint (eval_losses (self st)))
                   (push (CallAddScalarsTest (eval_losses (self st)) (global_step (self st)))
                      st'))).
  { unfold test. rewrite bind_run, call_hook_run. rewrite bind_run. cbn [get].
    rewrite bind_run. rewrite call_hook_run in Hrun. cbn [snd] in Hrun.
    cbn [with_self push self dataset_factory set_model] in Hrun |- *.
    rewrite Hrun. rewrite bind_run. cbn [get]. rewrite bind_run. cbn [emit].
    rewrite bind_run. cbn [emit]. unfold push. cbn [self world trace].
    rewrite !Hself.
    unfold eval_losses, eval_benchmark, eval_outputs, aggregate, eval_model.
    rewrite call_hook_run. cbn.
    destruct (_ !! _); reflexivity. }
  rewrite Hrun in Hc. cbn [snd] in Hc.
  rewrite E. cbn [snd]. split; [|split].
  - apply (calls_made_trans st (snd (call_hook eval_mode st)) _ [CallHook eval_mode]);
      [apply calls_made_hook|].
    eapply calls_made_trans; [exact Hc|].
    eapply (calls_made_trans _ _ _ [_] [_]); apply calls_made_push.
  - cbn [push self]. rewrite Hself. rewrite call_hook_run. reflexivity.
  - cbn [push world]. rewrite Hw. rewrite call_hook_run. reflexivity.
Qed.

(** ** The calls of an epoch *)

Lemma scalar_steps_app (c1 c2 : list call) :
  scalar_steps (c1 ++ c2) = scalar_steps c1 ++ scalar_steps c2.
Proof. apply omap_app. Qed.

Lemma saved_app (c1 c2 : list call) : saved (c1 ++ c2) = saved c1 ++ saved c2.
Proof. apply omap_app. Qed.

Lemma artifacts_app (c1 c2 : list call) : artifacts (c1 ++ c2) = artifacts c1 ++ artifacts c2.
Proof. apply omap_app. Qed.

Lemma batch_step_calls (b : Batch) (st : St) :
  exists (m : gmap string Tensor),
    calls_made st (batch_step b st) [CallTrainBatch b; CallAddScalarsTrain m (global_step (self st))].
Proof.
  eexists. unfold batch_step, with_self, push. cbn [self world trace].
  eexists [_; _]. split; [rewrite <- app_assoc; reflexivity|reflexivity].
Qed.

(** The loop over the batches, batch by batch: the batches trained on are
    the first of the loader, each is counted once, and nothing but the model,
    its log level and the two counters changes. *)
Lemma train_batches_exact (batches : list Batch) (st : St) :
  exists (calls : list call) (done : list Batch),
    calls_made st (snd (train_batches batches st)) calls
    /\ forallb batch_call calls = true
    /\ trained_on calls = done
    /\ scalar_steps calls = seqZ (global_step (self st)) (Z.of_nat (length done))
    /\ done `prefix_of` batches
    /\ global_step (self (snd (train_batches batches st)))
       = global_step (self st) + Z.of_nat (length done)
    /\ epoch_step (self (snd (train_batches batches st)))
       = epoch_step (self st) + Z.of_nat (length done)
    /\ epoch (self (snd (train_batches batches st))) = epoch (self st)
    /\ best_score (self (snd (train_batches batches st))) = best_score (self st)
    /\ same_setup (self st) (self (snd (train_batches batches st)))
    /\ world (snd (train_batches batches st)) = world st
    /\ (fst (train_batches batches st) = Ok tt -> done = batches)
    /\ (fst (train_batches batches st) = Raise TrainingStop -> done <> []).
Proof.
  revert st. induction batches as [|b rest IH]; intros st.
  - exists [], []. cbn. split; [apply calls_made_refl|].
    repeat split; try reflexivity; try lia; try discriminate.
  - rewrite train_batches_cons.
    destruct (_set_log_level (self st)) as [s1|e|] eqn:Elog.
    2:{ exists [], []. cbn [fst snd]. split; [apply calls_made_refl|].
        pose proof (set_log_level_error (self st)) as He. rewrite Elog in He. subst e.
        repeat split; try reflexivity; try (cbn; lia); try discriminate.
        apply prefix_nil. }
    2:{ pose proof (set_log_level_error (self st)) as He. rewrite Elog in He.
        destruct He. }
    apply set_log_level_shape in Elog as [l ->].
    set (st1 := mkSt (set_model_log l (self st)) (world st) (trace st)).
    destruct (batch_step_calls b st1) as (m & Hb).
    assert (Hb' : calls_made st (batch_step b st1)
                    [CallTrainBatch b; CallAddScalarsTrain m (global_step (self st))]).
    { destruct Hb as (seg & Hseg & Hm). exists seg. split; assumption. }
    cbv zeta.
    assert (Hone : forall o,
      let r := (o : outcome unit, batch_step b st1) in
      (fst r = Ok tt -> False) ->
      exists (calls : list call) (done : list Batch),
        calls_made st (snd r) calls
        /\ forallb batch_call calls = true
        /\ trained_on calls = done
        /\ scalar_steps calls = seqZ (global_step (self st)) (Z.of_nat (length done))
        /\ done `prefix_of` b :: rest
        /\ global_step (self (snd r)) = global_step (self st) + Z.of_nat (length done)
        /\ epoch_step (self (snd r)) = epoch_step (self st) + Z.of_nat (length done)
        /\ epoch (self (snd r)) = epoch (self st)
        /\ best_score (self (snd r)) = best_score (self st)
        /\ same_setup (self st) (self (snd r))
        /\ world (snd r) = world st
        /\ (fst r = Ok tt -> done = b :: rest)
        /\ (fst r = Raise TrainingStop -> done <> [])).
    { intros o r Hno. exists [CallTrainBatch b; CallAddScalarsTrain m (global_step (self st))], [b].
      cbn [snd fst r]. split; [exact Hb'|].
      split; [reflexivity|]. split; [reflexivity|].
      split; [cbn; rewrite seqZ_cons by lia; cbn; rewrite seqZ_nil by lia; reflexivity|].
      split; [apply prefix_cons, prefix_nil|].
      repeat split; try (cbn; lia); try discriminate.
      intros E. destruct (Hno E). }
    destruct (_should_stop_training (self (batch_step b st1))) as [[]|e|] eqn:E2;
      try (apply Hone; cbn; discriminate).
    destruct (IH (batch_step b st1))
      as (calls & done & Hc & Hk & Ht & Hs & Hp & Hg & Hes & Hep & Hbs & Hset & Hw & Hok & Hstop).
    exists ([CallTrainBatch b; CallAddScalarsTrain m (global_step (self st))] ++ calls),
           (b :: done).
    split; [eapply calls_made_trans; eassumption|].
    split; [cbn [app forallb batch_call andb]; exact Hk|].
    split; [cbn; f_equal; exact Ht|].
    split.
    { rewrite scalar_steps_app, Hs. cbn [scalar_steps omap list_omap app length].
      rewrite Nat2Z.inj_succ. rewrite (seqZ_cons _ (Z.succ _)) by lia.
      rewrite Z.pred_succ. reflexivity. }
    split; [apply prefix_cons; exact Hp|].
    split; [rewrite Hg; cbn; lia|].
    split; [rewrite Hes; cbn; lia|].
    split; [rewrite Hep; reflexivity|].
    split; [rewrite Hbs; reflexivity|].
    split; [eapply same_setup_trans; [|exact Hset]; repeat split|].
    split; [rewrite Hw; reflexivity|].
    split; [intros E; f_equal; apply Hok; exact E|].
    intros _. discriminate.
Qed.

Lemma forallb_batch_training (calls : list call) :
  forallb batch_call calls = true -> forallb training_call calls = true.
Proof.
  intros H. rewrite forallb_forall in *. intros c Hc. specialize (H c Hc).
  destruct c as [[]| | | | | | |]; try discriminate; reflexivity.
Qed.

(** An epoch that is not stopped at its start, call by call. *)
Lemma train_epoch_exact (st : St) :
  _should_stop_training (self st) = Ok false ->
  exists (calls : list call) (done : list Batch),
    calls_made st (snd (train_epoch st))
      (CallHook (on_epoch_begin (epoch (self st))) :: calls
       ++ match fst (train_epoch st) with
          | Ok _ => [CallHook (on_epoch_end (epoch (self st)))]
          | _ => []
          end)
    /\ forallb batch_call calls = true
    /\ trained_on calls = done
    /\ scalar_steps calls = seqZ (global_step (self st)) (Z.of_nat (length done))
    /\ done `prefix_of` train_loader (dataset_factory (self st))
    /\ (fst (train_epoch st) = Ok tt -> done = train_loader (dataset_factory (self st)))
    /\ (fst (train_epoch st) = Raise TrainingStop -> done <> [])
    /\ global_step (self (snd (train_epoch st)))
       = global_step (self st) + Z.of_nat (length done)
    /\ epoch_step (self (snd (train_epoch st))) = Z.of_nat (length done)
    /\ epoch (self (snd (train_epoch st))) = epoch (self st)
    /\ best_score (self (snd (train_epoch st))) = best_score (self st)
    /\ same_setup (self st) (self (snd (train_epoch st)))
    /\ world (snd (train_epoch st)) = world st.
Proof.
  intros Hstop. rewrite train_epoch_unfold, Hstop.
  destruct (train_batches_exact (train_loader (dataset_factory (self st)))
              (epoch_begin_step st))
    as (calls & done & Hc & Hk & Ht & Hs & Hp & Hg & Hes & Hep & Hbs & Hset & Hw & Hok & Hst).
  exists calls, done.
  assert (Hbegin : calls_made st (epoch_begin_step st)
                     [CallHook (on_epoch_begin (epoch (self st)))]).
  { eexists [_]. split; reflexivity. }
  destruct (train_batches (train_loader (dataset_factory (self st))) (epoch_begin_step st))
    as [[[]|e|] st2]; cbn [fst snd] in *.
  - rewrite call_hook_run. cbn [fst snd].
    split.
    { apply (calls_made_trans st (epoch_begin_step st) _ [_]); [exact Hbegin|].
      eapply calls_made_trans; [exact Hc|].
      rewrite Hep. eexists [_]. split; reflexivity. }
    repeat split; try assumption; try discriminate; try (apply Hset);
      try (cbn; rewrite ?Hg, ?Hes, ?Hep, ?Hbs, ?Hw; cbn; first [reflexivity|lia]).
  - split.
    { apply (calls_made_trans st (epoch_begin_step st) _ [_]); [exact Hbegin|].
      rewrite app_nil_r. exact Hc. }
    repeat split; try assumption; try discriminate; try (apply Hset);
      try (cbn; rewrite ?Hg, ?Hes, ?Hep, ?Hbs, ?Hw; cbn; first [reflexivity|lia]).
  - split.
    { apply (calls_made_trans st (epoch_begin_step st) _ [_]); [exact Hbegin|].
      rewrite app_nil_r. exact Hc. }
    repeat split; try assumption; try discriminate; try (apply Hset);
      try (cbn; rewrite ?Hg, ?Hes, ?Hep, ?Hbs, ?Hw; cbn; first [reflexivity|lia]).
Qed.

(** Whatever an epoch comes to, its calls are those of training, and it
    leaves the best score and the files alone. *)
Lemma train_epoch_frame (st : St) :
  exists calls : list call,
    calls_made st (snd (train_epoch st)) calls
    /\ forallb training_call calls = true
    /\ best_score (self (snd (train_epoch st))) = best_score (self st)
    /\ same_setup (self st) (self (snd (train_epoch st)))
    /\ world (snd (train_epoch st)) = world st.
Proof.
  destruct (_should_stop_training (self st)) as [[]|e|] eqn:Hstop.
  2:{ destruct (train_epoch_exact st Hstop)
        as (calls & done & Hc & Hk & _ & _ & _ & _ & _ & _ & _ & _ & Hb & Hs & Hw).
      eexists. split; [exact Hc|]. split; [|auto].
      cbn [forallb training_call andb]. rewrite forallb_app.
      rewrite (forallb_batch_training _ Hk). cbn [andb].
      destruct (fst (train_epoch st)); reflexivity. }
  all: rewrite train_epoch_unfold, Hstop; exists []; cbn [fst snd];
    (split; [apply calls_made_refl|]); repeat split.
Qed.

(** ** The calls of the loop *)

Lemma forallb_training_loop (calls : list call) :
  forallb training_call calls = true -> forallb loop_call calls = true.
Proof.
  intros H. rewrite forallb_forall in *. intros c Hc. specialize (H c Hc).
  unfold loop_call. rewrite H. reflexivity.
Qed.

Lemma training_saved (calls : list call) :
  forallb training_call calls = true -> saved calls = [].
Proof.
  induction calls as [|c calls IH]; [reflexivity|]. cbn [forallb].
  intros H. apply andb_true_iff in H as [Hc H].
  destruct c as [[]| | | | | | |]; try discriminate; apply IH; exact H.
Qed.

Lemma loop_artifacts (calls : list call) :
  forallb loop_call calls = true -> artifacts calls = [].
Proof.
  induction calls as [|c calls IH]; [reflexivity|]. cbn [forallb].
  intros H. apply andb_true_iff in H as [Hc H].
  destruct c as [[]| | | | | | |]; try discriminate; apply IH; exact H.
Qed.

Lemma in_hand_app (best : option string) (c1 c2 : list call) :
  in_hand best (c1 ++ c2) = in_hand (in_hand best c1) c2.
Proof.
  unfold in_hand. rewrite saved_app, last_app.
  destruct (last (saved c2)); [reflexivity|]. destruct (last (saved c1)); reflexivity.
Qed.

Lemma in_hand_training (best : option string) (calls : list call) :
  forallb training_call calls = true -> in_hand best calls = best.
Proof. intros H. unfold in_hand. rewrite (training_saved _ H). reflexivity. Qed.

(** The evaluation after an epoch, outcome by outcome. *)
Lemma improve_exact (best : option string) (st : St) :
  improve best st
  = match fst (test st) with
    | Ok score =>
        match _is_better (self (snd (test st))) score with
        | Ok true =>
            (Ok (Some (save_filename (cwd (world (snd (test st)))) (self (snd (test st))))),
             with_self (set_best_score (Some score)) (snd (save (snd (test st)))))
        | Ok false => (Ok best, snd (test st))
        | Raise e => (Raise e, snd (test st))
        | OutOfFuel => (OutOfFuel, snd (test st))
        end
    | Raise e => (Raise e, snd (test st))
    | OutOfFuel => (OutOfFuel, snd (test st))
    end.
Proof.
  unfold improve. rewrite bind_run. destruct (test st) as [[score|e|] st2]; try reflexivity.
  cbn [fst snd]. rewrite bind_run. unfold reads at 1.
  destruct (_is_better (self st2) score) as [[]|e|]; reflexivity.
Qed.

Lemma test_calls_evaluation (st : St) :
  exists calls : list call,
    calls_made st (snd (test st)) calls /\ forallb evaluation_call calls = true.
Proof.
  destruct (test_exact st) as (Hc & _). eexists. split; [exact Hc|].
  cbn [forallb evaluation_call andb]. rewrite forallb_app. cbn.
  rewrite andb_true_r. apply forallb_forall. intros c Hc'.
  apply in_map_iff in Hc' as (b & <- & _). reflexivity.
Qed.

Lemma forallb_evaluation_loop (calls : list call) :
  forallb evaluation_call calls = true -> forallb loop_call calls = true.
Proof.
  intros H. rewrite forallb_forall in *. intros c Hc. specialize (H c Hc).
  unfold loop_call. rewrite H. apply orb_true_iff. left. apply orb_true_r.
Qed.

Lemma evaluation_saved (calls : list call) :
  forallb evaluation_call calls = true -> saved calls = [].
Proof.
  induction calls as [|c calls IH]; [reflexivity|]. cbn [forallb].
  intros H. apply andb_true_iff in H as [Hc H].
  destruct c as [[]| | | | | | |]; try discriminate; apply IH; exact H.
Qed.

Lemma save_calls (st : St) :
  calls_made st (snd (save st)) [CallTorchSave (save_filename (cwd (world st)) (self st))].
Proof. eexists [_]. split; reflexivity. Qed.

Lemma improve_calls (best : option string) (st : St) :
  exists calls : list call,
    calls_made st (snd (improve best st)) calls
    /\ forallb loop_call calls = true
    /\ (forall r, fst (improve best st) = Ok r -> r = in_hand best calls).
Proof.
  rewrite improve_exact. destruct (test_calls_evaluation st) as (calls & Hc & Hk).
  pose proof (forallb_evaluation_loop _ Hk) as Hl.
  assert (Hin : in_hand best calls = best).
  { unfold in_hand. rewrite (evaluation_saved _ Hk). reflexivity. }
  destruct (fst (test st)) as [score|e|];
    try (exists calls; cbn [fst snd]; split; [exact Hc|]; split; [exact Hl|]; discriminate).
  destruct (_is_better (self (snd (test st))) score) as [[]|e|];
    try (exists calls; cbn [fst snd]; split; [exact Hc|]; split; [exact Hl|];
         first [discriminate | intros r [= <-]; symmetry; exact Hin]).
  exists (calls ++ [CallTorchSave (save_filename (cwd (world (snd (test st))))
                      (self (snd (test st))))]).
  cbn [fst snd]. split; [|split].
  - eapply calls_made_trans; [exact Hc|].
    eapply (calls_made_trans _ _ _ [_] []); [apply save_calls|].
    apply calls_made_same. reflexivity.
  - rewrite forallb_app, Hl. reflexivity.
  - intros r [= <-]. rewrite in_hand_app. reflexivity.
Qed.

(** The loop of [train]: its calls are those of epochs, evaluations and
    checkpoints, and the checkpoint it returns is the last one saved. *)
Lemma train_loop_calls (fuel : nat) (best : option string) (st : St) :
  exists calls : list call,
    calls_made st (snd (train_loop fuel best st)) calls
    /\ forallb loop_call calls = true
    /\ (forall r, fst (train_loop fuel best st) = Ok r -> r = in_hand best calls).
Proof.
  revert best st. induction fuel as [|fuel IH]; intros best st.
  - exists []. split; [apply calls_made_refl|]. split; [reflexivity|]. discriminate.
  - rewrite train_loop_unfold.
    destruct (train_epoch_frame st) as (c1 & Hc1 & Hk1 & _).
    pose proof (forallb_training_loop _ Hk1) as Hl1.
    pose proof (in_hand_training best _ Hk1) as Hin1.
    destruct (train_epoch st) as [[[]|e|] st1]; cbn [snd] in Hc1.
    2:{ destruct e; (exists c1; cbn [fst snd]; split; [exact Hc1|]; split; [exact Hl1|]);
          try discriminate.
        intros r [= <-]. symmetry. exact Hin1. }
    2:{ exists c1. cbn [fst snd]. split; [exact Hc1|]. split; [exact Hl1|]. discriminate. }
    assert (Hev : exists c2,
               calls_made st1 (snd (if has_test_set (dataset_factory (self st1))
                                    then improve best st1 else (Ok best, st1))) c2
               /\ forallb loop_call c2 = true
               /\ (forall r, fst (if has_test_set (dataset_factory (self st1))
                                  then improve best st1 else (Ok best, st1)) = Ok r ->
                             r = in_hand best c2)).
    { destruct (has_test_set _); [apply improve_calls|].
      exists []. split; [apply calls_made_refl|]. split; [reflexivity|].
      intros r [= <-]. reflexivity. }
    destruct Hev as (c2 & Hc2 & Hl2 & Hr2).
    destruct (if has_test_set (dataset_factory (self st1))
              then improve best st1 else (Ok best, st1)) as [[best'|e|] st2];
      cbn [fst snd] in *.
    2,3: exists (c1 ++ c2); (split; [eapply calls_made_trans; eassumption|]);
         (split; [rewrite forallb_app, Hl1, Hl2; reflexivity|]); discriminate.
    destruct (IH best' (epoch_end_step st2)) as (c3 & Hc3 & Hl3 & Hr3).
    exists (c1 ++ c2 ++ c3). split; [|split].
    + eapply calls_made_trans; [exact Hc1|]. eapply calls_made_trans; [exact Hc2|].
      destruct Hc3 as (seg & Hseg & Hm). exists seg. split; assumption.
    + rewrite !forallb_app, Hl1, Hl2, Hl3. reflexivity.
    + intros r Hr. rewrite !in_hand_app, Hin1, <- (Hr2 best' eq_refl). apply Hr3. exact Hr.
Qed.

(** [train], from the first hook to the last. *)
Lemma train_shape (fuel : nat) (st : St) :
  exists loop : list call,
    forallb loop_call loop = true
    /\ calls_made st (snd (train fuel st))
         ([CallHook on_train_begin; CallHook train_mode] ++ loop
          ++ match fst (train fuel st) with
             | Ok _ => closing (_run (self st)) loop
             | _ => []
             end).
Proof.
  rewrite train_unfold.
  set (st0 := snd (call_hook train_mode (snd (call_hook on_train_begin st)))).
  assert (H0 : calls_made st st0 [CallHook on_train_begin; CallHook train_mode]).
  { apply (calls_made_trans st (snd (call_hook on_train_begin st)) st0 [_] [_]);
      apply calls_made_hook. }
  destruct (train_loop_calls fuel None st0) as (loop & Hc & Hl & Hr).
  destruct (train_loop_spec fuel None st0) as (o & st1 & Hrun & Hsteps & _).
  apply loop_steps_frame in Hsteps as (_ & _ & Hrun1 & _).
  rewrite Hrun in Hc, Hr |- *. cbn [fst snd] in Hc, Hr.
  exists loop. split; [exact Hl|].
  destruct o as [best|e|].
  2,3: cbn [fst snd]; rewrite app_nil_r; eapply calls_made_trans; eassumption.
  rewrite call_hook_run. cbn [fst snd].
  eapply calls_made_trans; [exact H0|]. eapply calls_made_trans; [exact Hc|].
  rewrite (Hr best eq_refl). unfold closing, in_hand. rewrite Hrun1.
  change (_run (self st0)) with (_run (self st)).
  destruct (_run (self st)); destruct (last (saved loop)) as [f|].
  - eexists [_; _]. split; [cbn; rewrite <- app_assoc; reflexivity|reflexivity].
  - eexists [_]. split; reflexivity.
  - eexists [_]. split; reflexivity.
  - eexists [_]. split; reflexivity.
Qed.

(** ** Training without a test set *)

Lemma train_loop_no_test (fuel : nat) (best : option string) (st : St) :
  has_test_set (dataset_factory (self st)) = false ->
  exists calls : list call,
    calls_made st (snd (train_loop fuel best st)) calls
    /\ forallb training_call calls = true
    /\ best_score (self (snd (train_loop fuel best st))) = best_score (self st)
    /\ world (snd (train_loop fuel best st)) = world st
    /\ (forall r, fst (train_loop fuel best st) = Ok r -> r = best).
Proof.
  revert st. induction fuel as [|fuel IH]; intros st Hno.
  - exists []. split; [apply calls_made_refl|]. repeat split. discriminate.
  - rewrite train_loop_unfold.
    destruct (train_epoch_frame st) as (c1 & Hc1 & Hk1 & Hb1 & Hs1 & Hw1).
    destruct (train_epoch st) as [[[]|e|] st1]; cbn [snd] in *.
    2:{ exists c1. destruct e; cbn [fst snd]; repeat split; try assumption; try discriminate.
        intros r [= <-]. reflexivity. }
    2:{ exists c1. cbn [fst snd]; repeat split; try assumption; discriminate. }
    assert (Hno1 : has_test_set (dataset_factory (self st1)) = false).
    { destruct Hs1 as (_ & _ & _ & -> & _). exact Hno. }
    rewrite Hno1.
    destruct (IH (epoch_end_step st1) Hno1) as (c2 & Hc2 & Hk2 & Hb2 & Hw2 & Hr2).
    exists (c1 ++ c2). split; [|split; [|split; [|split]]].
    + eapply calls_made_trans; [exact Hc1|].
      destruct Hc2 as (seg & Hseg & Hm). exists seg. split; assumption.
    + rewrite forallb_app, Hk1, Hk2. reflexivity.
    + rewrite Hb2. exact Hb1.
    + rewrite Hw2. exact Hw1.
    + exact Hr2.
Qed.

(** ** The steps under which the metrics are written *)

Lemma seqZ_snoc (m n : Z) : 0 <= n -> seqZ m (n + 1) = seqZ m n ++ [m + n].
Proof.
  intros Hn. rewrite seqZ_app by lia. reflexivity.
Qed.

Lemma quiet_scalar_steps (c : call) : quiet c -> scalar_steps [c] = [].
Proof. destruct c; cbn; intros H; try reflexivity; destruct H. Qed.

Lemma loop_steps_scalar_steps (st0 st : St) :
  rtc loop_step st0 st ->
  exists calls : list call,
    calls_made st0 st calls
    /\ global_step (self st0) <= global_step (self st)
    /\ scalar_steps calls
       = seqZ (global_step (self st0)) (global_step (self st) - global_step (self st0)).
Proof.
  intros H. revert st H. apply rtc_ind_r.
  - exists []. split; [apply calls_made_refl|]. split; [lia|].
    rewrite seqZ_nil by lia. reflexivity.
  - intros y z _ Hyz (calls & Hc & Hle & Hs).
    destruct Hyz as [st1 st2 H|st1|st1 b _|st1 tl sc|st1 _].
    + destruct H as [st1 m' _|st1 l|st1 c Hq|st1 f d];
        try (exists calls; split; [|split; [exact Hle|exact Hs]];
             destruct Hc as (seg & Hseg & Hm); exists seg; split; assumption).
      exists (calls ++ [c]). split; [|split; [exact Hle|]].
      * eapply calls_made_trans; [exact Hc|apply calls_made_push].
      * rewrite scalar_steps_app, (quiet_scalar_steps c Hq), app_nil_r. exact Hs.
    + exists (calls ++ [CallHook (on_epoch_begin (epoch (self st1)))]).
      split; [|split; [exact Hle|]].
      * eapply calls_made_trans; [exact Hc|]. eexists [_]. split; reflexivity.
      * rewrite scalar_steps_app, app_nil_r. exact Hs.
    + destruct (batch_step_calls b st1) as (m & Hb).
      exists (calls ++ [CallTrainBatch b; CallAddScalarsTrain m (global_step (self st1))]).
      split; [|split].
      * eapply calls_made_trans; eassumption.
      * cbn. lia.
      * rewrite scalar_steps_app, Hs. cbn [scalar_steps omap list_omap app].
        replace (global_step (self (batch_step b st1)) - global_step (self st0))
          with (global_step (self st1) - global_step (self st0) + 1) by (cbn; lia).
        rewrite seqZ_snoc by lia. f_equal. f_equal. lia.
    + exists (calls ++ [CallPrint tl; CallTorchSave (save_filename (cwd (world st1))
                                                      (self st1))]).
      split; [|split; [exact Hle|]].
      * eapply calls_made_trans; [exact Hc|]. eexists [_; _].
        split; [unfold best_step, save; cbn; rewrite <- app_assoc; reflexivity|reflexivity].
      * rewrite scalar_steps_app, app_nil_r. exact Hs.
    + exists calls. split; [|split; [exact Hle|exact Hs]].
      destruct Hc as (seg & Hseg & Hm); exists seg; split; assumption.
Qed.

(** ** Where an iteration budget stops the training *)

Lemma train_loop_position (n : Z) (fuel : nat) (best r : option string) (st st' : St) :
  config (self st) !! "n_global_iterations" = Some (VInt n) ->
  train_loader (dataset_factory (self st)) <> [] ->
  global_step (self st) < n ->
  train_loop fuel best st = (Ok r, st') ->
  global_step (self st') = n
  /\ epoch (self st')
     = epoch (self st)
       + (n - global_step (self st) - 1)
         / Z.of_nat (length (train_loader (dataset_factory (self st))))
  /\ epoch_step (self st')
     = (n - global_step (self st) - 1)
       mod Z.of_nat (length (train_loader (dataset_factory (self st)))) + 1.
Proof.
  revert best st. induction fuel as [|fuel IH]; intros best st Hcfg Hload Hlt E;
    [discriminate|].
  rewrite train_loop_unfold in E.
  assert (Hstop : _should_stop_training (self st) = Ok false).
  { rewrite (stop_iterations _ _ Hcfg). f_equal. apply Z.leb_gt. exact Hlt. }
  assert (HL : 0 < Z.of_nat (length (train_loader (dataset_factory (self st))))).
  { destruct (train_loader (dataset_factory (self st))); [congruence|].
    rewrite length_cons. lia. }
  destruct (train_epoch_exact st Hstop)
    as (calls & done & _ & _ & _ & _ & Hp & _ & Hne & Hg & Hes & Hep & _).
  destruct (train_epoch_spec st) as (o1 & st1 & Hrun1 & Hsteps1 & _ & Hpost1).
  rewrite Hrun1 in E, Hne, Hg, Hes, Hep. cbn [fst snd] in *.
  pose proof (loop_steps_frame _ _ Hsteps1) as (_ & Hcfg1 & _ & Hd1 & _).
  assert (Hc1 : config (self st1) !! "n_global_iterations" = Some (VInt n))
    by (rewrite Hcfg1; exact Hcfg).
  destruct o1 as [[]|e|]; [|destruct e; try discriminate|discriminate].
  - apply train_epoch_ok in Hrun1 as (_ & Hstop1 & Hep1 & Hgs1).
    rewrite (stop_iterations _ _ Hc1) in Hstop1. injection Hstop1 as Hstop1.
    apply Z.leb_gt in Hstop1.
    destruct (after_epoch_spec best st1) as (o2 & st2 & Hrun2 & Hsteps2 & Hp2 & _).
    rewrite Hrun2 in E. destruct o2 as [best'|e|]; try discriminate.
    pose proof (loop_steps_frame _ _ Hsteps2) as (_ & Hcfg2 & _ & Hd2 & _).
    destruct Hp2 as (Hg2 & He2 & _).
    apply IH in E.
    + destruct E as (E1 & E2 & E3).
      unfold epoch_end_step, with_self in E2, E3.
      cbn [self global_step epoch dataset_factory set_epoch] in E2, E3.
      rewrite Hd2, Hd1, Hg2 in E2, E3. rewrite He2, Hep1, Hgs1 in E2.
      rewrite Hgs1 in E3.
      set (L := Z.of_nat (length (train_loader (dataset_factory (self st))))) in *.
      split; [exact E1|]. split.
      * rewrite E2.
        replace (n - global_step (self st) - 1)
          with ((n - (global_step (self st) + L) - 1) + 1 * L) by lia.
        rewrite Z.div_add by lia. lia.
      * rewrite E3.
        replace (n - global_step (self st) - 1)
          with ((n - (global_step (self st) + L) - 1) + 1 * L) by lia.
        rewrite Z.mod_add by lia. reflexivity.
    + cbn. rewrite Hcfg2. exact Hc1.
    + cbn. rewrite Hd2, Hd1. exact Hload.
    + cbn. lia.
  - injection E as _ <-.
    rewrite (stop_iterations _ _ Hc1) in Hpost1. injection Hpost1 as Hpost1.
    apply Z.leb_le in Hpost1.
    destruct (loop_steps_iterations n st st1 Hcfg Hsteps1) as (Hle & _).
    specialize (Hne eq_refl). apply prefix_length in Hp.
    assert (0 < length done)%nat by (destruct done; [congruence|cbn; lia]).
    split; [lia|]. split.
    + rewrite Z.div_small by lia. lia.
    + rewrite Z.mod_small by lia. lia.
Qed.

(** ** The checkpoints of a run *)

Lemma checkpoints_kept_refl (st st' : St) :
  world st' = world st -> best_score (self st') = best_score (self st) ->
  checkpoints_kept st st' [].
Proof.
  intros Hw Hb. unfold checkpoints_kept. cbn. rewrite Hw. repeat split; auto.
  - intros f Hf. apply elem_of_nil in Hf. destruct Hf.
  - congruence.
Qed.

Lemma checkpoints_kept_trans (st1 st2 st3 : St) (c1 c2 : list call) :
  checkpoints_kept st1 st2 c1 -> checkpoints_kept st2 st3 c2 ->
  checkpoints_kept st1 st3 (c1 ++ c2).
Proof.
  intros (A1 & A2 & A3 & A4) (B1 & B2 & B3 & B4). unfold checkpoints_kept.
  rewrite saved_app. split; [|split; [|split]].
  - intros f Hf. destruct (decide (f ∈ saved c2)) as [H2|H2]; [apply B1; exact H2|].
    rewrite (B2 f H2). apply A1. apply elem_of_app in Hf as [Hf|Hf]; [exact Hf|contradiction].
  - intros f Hf. rewrite B2, A2; [reflexivity| |]; intros H; apply Hf, elem_of_app; auto.
  - intros H. apply app_eq_nil in H as [H1 H2]. rewrite (B3 H2). apply A3. exact H1.
  - intros H. destruct (saved c2) as [|x l] eqn:E2.
    + rewrite B3 by reflexivity. apply A4. rewrite app_nil_r in H. exact H.
    + apply B4. discriminate.
Qed.

Lemma checkpoints_kept_training (st st' : St) (calls : list call) :
  forallb training_call calls = true ->
  world st' = world st -> best_score (self st') = best_score (self st) ->
  checkpoints_kept st st' calls.
Proof.
  intros Hk Hw Hb. unfold checkpoints_kept. rewrite (training_saved _ Hk), Hw.
  repeat split; auto.
  - intros f Hf. apply elem_of_nil in Hf. destruct Hf.
  - congruence.
Qed.

Lemma improve_checkpoints (best : option string) (st : St) :
  exists calls : list call,
    calls_made st (snd (improve best st)) calls
    /\ checkpoints_kept st (snd (improve best st)) calls.
Proof.
  rewrite improve_exact. destruct (test_calls_evaluation st) as (calls & Hc & Hk).
  destruct (test_exact st) as (_ & Hs & Hw).
  assert (Hkept : checkpoints_kept st (snd (test st)) calls).
  { unfold checkpoints_kept. rewrite (evaluation_saved _ Hk), Hw, Hs.
    repeat split; auto.
    - intros f Hf. apply elem_of_nil in Hf. destruct Hf.
    - congruence. }
  destruct (fst (test st)) as [score|e|]; try (exists calls; split; assumption).
  destruct (_is_better (self (snd (test st))) score) as [[]|e|];
    try (exists calls; split; assumption).
  exists (calls ++ [CallTorchSave (save_filename (cwd (world (snd (test st))))
                      (self (snd (test st))))]).
  cbn [snd]. split.
  - eapply calls_made_trans; [exact Hc|].
    eapply (calls_made_trans _ _ _ [_] []); [apply save_calls|].
    apply calls_made_same. reflexivity.
  - apply (checkpoints_kept_trans st (snd (test st))); [exact Hkept|].
    unfold checkpoints_kept. cbn. repeat split.
    + intros f Hf. apply list_elem_of_singleton in Hf as ->.
      rewrite lookup_insert_eq. eauto.
    + intros f Hf. apply lookup_insert_ne. intros <-. apply Hf, list_elem_of_singleton.
      reflexivity.
    + discriminate.
    + eauto.
Qed.

Lemma train_loop_checkpoints (fuel : nat) (best : option string) (st : St) :
  exists calls : list call,
    calls_made st (snd (train_loop fuel best st)) calls
    /\ checkpoints_kept st (snd (train_loop fuel best st)) calls.
Proof.
  revert best st. induction fuel as [|fuel IH]; intros best st.
  - exists []. split; [apply calls_made_refl|]. apply checkpoints_kept_refl; reflexivity.
  - rewrite train_loop_unfold.
    destruct (train_epoch_frame st) as (c1 & Hc1 & Hk1 & Hb1 & _ & Hw1).
    pose proof (checkpoints_kept_training _ _ _ Hk1 Hw1 Hb1) as Hp1.
    destruct (train_epoch st) as [[[]|e|] st1]; cbn [snd] in *.
    2:{ exists c1. destruct e; cbn [snd]; split; assumption. }
    2:{ exists c1. split; assumption. }
    assert (Hev : exists c2,
               calls_made st1 (snd (if has_test_set (dataset_factory (self st1))
                                    then improve best st1 else (Ok best, st1))) c2
               /\ checkpoints_kept st1
                    (snd (if has_test_set (dataset_factory (self st1))
                          then improve best st1 else (Ok best, st1))) c2).
    { destruct (has_test_set _); [apply improve_checkpoints|].
      exists []. split; [apply calls_made_refl|].
      apply checkpoints_kept_refl; reflexivity. }
    destruct Hev as (c2 & Hc2 & Hp2).
    destruct (if has_test_set (dataset_factory (self st1))
              then improve best st1 else (Ok best, st1)) as [[best'|e|] st2];
      cbn [fst snd] in *.
    2,3: exists (c1 ++ c2); (split; [eapply calls_made_trans; eassumption|]);
         eapply checkpoints_kept_trans; eassumption.
    destruct (IH best' (epoch_end_step st2)) as (c3 & Hc3 & Hp3).
    exists (c1 ++ c2 ++ c3). split.
    + eapply calls_made_trans; [exact Hc1|]. eapply calls_made_trans; [exact Hc2|].
      destruct Hc3 as (seg & Hseg & Hm). exists seg. split; assumption.
    + eapply checkpoints_kept_trans; [exact Hp1|].
      eapply checkpoints_kept_trans; [exact Hp2|].
      destruct Hp3 as (A1 & A2 & A3 & A4). repeat split; assumption.
Qed.

(** ** What no method changes *)

Lemma loop_steps_world (st st' : St) :
  rtc loop_step st st' ->
  dirs (world st') = dirs (world st) /\ cwd (world st') = cwd (world st)
  /\ epoch (self st) <= epoch (self st').
Proof.
  induction 1 as [x|x y z Hxy _ (IH1 & IH2 & IH3)]; [repeat split; lia|].
  rewrite IH1, IH2. clear IH1 IH2.
  destruct Hxy as [st1 st2 H|st1|st1 b _|st1 tl sc|st1 _].
  - destruct H as [st1 m' _|st1 l|st1 c _|st1 f d]; cbn in *; repeat split; lia.
  - cbn in *; repeat split; lia.
  - cbn in *; repeat split; lia.
  - cbn in *; repeat split; lia.
  - cbn in *; repeat split; lia.
Qed.

(** ** The epochs and the evaluations of a run *)

Lemma begun_epochs_app (c1 c2 : list call) :
  begun_epochs (c1 ++ c2) = begun_epochs c1 ++ begun_epochs c2.
Proof. apply omap_app. Qed.

Lemma ended_epochs_app (c1 c2 : list call) :
  ended_epochs (c1 ++ c2) = ended_epochs c1 ++ ended_epochs c2.
Proof. apply omap_app. Qed.

Lemma evaluations_app (c1 c2 : list call) :
  evaluations (c1 ++ c2) = (evaluations c1 + evaluations c2)%nat.
Proof. unfold evaluations. rewrite omap_app. apply length_app. Qed.

Lemma batch_calls_epochs (calls : list call) :
  forallb batch_call calls = true ->
  begun_epochs calls = [] /\ ended_epochs calls = [] /\ evaluations calls = 0%nat.
Proof.
  induction calls as [|c calls IH]; [repeat split|]. cbn [forallb].
  intros H. apply andb_true_iff in H as [Hc H]. destruct (IH H) as (IH1 & IH2 & IH3).
  destruct c as [[]| | | | | | |]; try discriminate; repeat split; assumption.
Qed.

Lemma omap_test_batches {A : Type} (f : call -> option A) (l : list Batch) :
  (forall b, f (CallTestBatch b) = None) -> omap f (map CallTestBatch l) = [].
Proof.
  intros Hf. induction l as [|b l IH]; [reflexivity|].
  cbn [map omap list_omap]. rewrite Hf. exact IH.
Qed.

Lemma test_epochs (st : St) :
  exists calls : list call,
    calls_made st (snd (test st)) calls
    /\ begun_epochs calls = [] /\ ended_epochs calls = [] /\ evaluations calls = 1%nat.
Proof.
  destruct (test_exact st) as (Hc & _). eexists. split; [exact Hc|].
  unfold evaluations, begun_epochs, ended_epochs. cbn [omap list_omap].
  rewrite !omap_app, !omap_test_batches by reflexivity. repeat split.
Qed.

Lemma improve_epochs (best : option string) (st : St) :
  exists calls : list call,
    calls_made st (snd (improve best st)) calls
    /\ begun_epochs calls = [] /\ ended_epochs calls = [] /\ evaluations calls = 1%nat.
Proof.
  rewrite improve_exact. destruct (test_epochs st) as (calls & Hc & Hb & He & Hv).
  destruct (fst (test st)) as [score|e|];
    try (exists calls; repeat split; assumption).
  destruct (_is_better (self (snd (test st))) score) as [[]|e|];
    try (exists calls; repeat split; assumption).
  exists (calls ++ [CallTorchSave (save_filename (cwd (world (snd (test st))))
                      (self (snd (test st))))]).
  cbn [snd]. split; [|split; [|split]].
  - eapply calls_made_trans; [exact Hc|].
    eapply (calls_made_trans _ _ _ [_] []); [apply save_calls|].
    apply calls_made_same. reflexivity.
  - rewrite begun_epochs_app, Hb. reflexivity.
  - rewrite ended_epochs_app, He. reflexivity.
  - rewrite evaluations_app, Hv. reflexivity.
Qed.

Lemma epochs_run_nil (st : St) : epochs_run st [].
Proof.
  unfold epochs_run. cbn. repeat split; try lia. destruct (has_test_set _); reflexivity.
Qed.

(** An epoch that was cut. *)
Lemma epochs_run_cut (st : St) (calls : list call) :
  begun_epochs calls = [epoch (self st)] -> ended_epochs calls = [] ->
  evaluations calls = 0%nat -> epochs_run st calls.
Proof.
  intros Hb He Hv. unfold epochs_run. rewrite Hb, He, Hv. cbn.
  repeat split; try lia. destruct (has_test_set _); reflexivity.
Qed.

(** An epoch that ended, and what came after it. *)
Lemma epochs_run_step (st st3 : St) (calls c3 : list call) :
  begun_epochs calls = [epoch (self st)] -> ended_epochs calls = [epoch (self st)] ->
  evaluations calls = (if has_test_set (dataset_factory (self st)) then 1%nat else 0%nat) ->
  epoch (self st3) = epoch (self st) + 1 ->
  dataset_factory (self st3) = dataset_factory (self st) ->
  epochs_run st3 c3 -> epochs_run st (calls ++ c3).
Proof.
  intros Hb He Hv Hep Hdf (R1 & R2 & R3 & R4). unfold epochs_run.
  rewrite Hep in R1, R2. rewrite Hdf in R4.
  rewrite begun_epochs_app, ended_epochs_app, evaluations_app, Hb, He, Hv, R4.
  cbn [app length]. rewrite !Nat2Z.inj_succ.
  rewrite !(seqZ_cons _ (Z.succ _)) by lia. rewrite !Z.pred_succ.
  split; [f_equal; exact R1|]. split; [f_equal; exact R2|]. split; [lia|].
  destruct (has_test_set (dataset_factory (self st))); reflexivity.
Qed.

Lemma train_loop_epochs (fuel : nat) (best : option string) (st : St) :
  exists calls : list call,
    calls_made st (snd (train_loop fuel best st)) calls
    /\ epochs_run st calls
    /\ (forall r, fst (train_loop fuel best st) = Ok r ->
          epoch (self (snd (train_loop fuel best st)))
          = epoch (self st) + Z.of_nat (length (ended_epochs calls))).
Proof.
  revert best st. induction fuel as [|fuel IH]; intros best st.
  { exists []. split; [apply calls_made_refl|]. split; [apply epochs_run_nil|discriminate]. }
  assert (Hnil : forall o : outcome (option string),
            exists calls : list call,
              calls_made st (snd (o, st)) calls
              /\ epochs_run st calls
              /\ (forall r, fst (o, st) = Ok r ->
                    epoch (self (snd (o, st)))
                    = epoch (self st) + Z.of_nat (length (ended_epochs calls)))).
  { intros o. exists []. split; [apply calls_made_refl|].
    split; [apply epochs_run_nil|cbn; lia]. }
  rewrite train_loop_unfold.
  destruct (_should_stop_training (self st)) as [[]|e|] eqn:Hstop;
    try (rewrite train_epoch_unfold, Hstop; try destruct e; apply Hnil).
  destruct (train_epoch_exact st Hstop)
    as (bc & done & Hc1 & Hk & _ & _ & _ & _ & _ & _ & _ & Hep & _ & Hset & _).
  destruct (batch_calls_epochs _ Hk) as (Hbb & Hbe & Hbv).
  destruct (train_epoch st) as [[[]|e|] st1] eqn:E1; cbn [fst snd] in *.
  2,3: assert (Hcut : exists calls : list call,
                  calls_made st st1 calls
                  /\ epochs_run st calls
                  /\ epoch (self st1)
                     = epoch (self st) + Z.of_nat (length (ended_epochs calls)));
       [ rewrite app_nil_r in Hc1; eexists; split; [exact Hc1|];
         split; [apply epochs_run_cut; cbn; fold (begun_epochs bc);
                 fold (ended_epochs bc);
                 rewrite ?Hbb, ?Hbe; try reflexivity; exact Hbv
                |cbn; fold (ended_epochs bc); rewrite Hbe; cbn; lia]
       | destruct Hcut as (calls & Hc & Hr & He) ].
  2:{ exists calls. destruct e; cbn [fst snd]; (split; [exact Hc|]); (split; [exact Hr|]);
        try discriminate. intros _ _. exact He. }
  2:{ exists calls. cbn [fst snd]. split; [exact Hc|]. split; [exact Hr|]. discriminate. }
  assert (Hdf : dataset_factory (self st1) = dataset_factory (self st))
    by (destruct Hset as (_ & _ & _ & H & _); exact H).
  assert (Hev : exists c2 o2 st2,
             (if has_test_set (dataset_factory (self st1))
              then improve best st1 else (Ok best, st1)) = (o2, st2)
             /\ calls_made st1 st2 c2
             /\ begun_epochs c2 = []
             /\ ended_epochs c2 = []
             /\ evaluations c2
                = (if has_test_set (dataset_factory (self st)) then 1%nat else 0%nat)
             /\ epoch (self st2) = epoch (self st1)
             /\ dataset_factory (self st2) = dataset_factory (self st)).
  { rewrite Hdf. destruct (has_test_set (dataset_factory (self st))).
    - destruct (improve_epochs best st1) as (c2 & Hc2 & Hb2 & He2 & Hv2).
      destruct (improve_spec best st1) as (o2 & st2 & Hrun2 & Hsteps2 & (_ & He & _) & _).
      apply loop_steps_frame in Hsteps2 as (_ & _ & _ & Hd2 & _).
      rewrite Hrun2 in Hc2. cbn [snd] in Hc2. exists c2, o2, st2.
      repeat split; try assumption. congruence.
    - exists [], (Ok best), st1. repeat split; try assumption. apply calls_made_refl. }
  destruct Hev as (c2 & o2 & st2 & Hrun2 & Hc2 & Hb2 & He2 & Hv2 & Hep2 & Hdf2).
  rewrite Hrun2.
  set (c12 := CallHook (on_epoch_begin (epoch (self st))) :: bc
              ++ [CallHook (on_epoch_end (epoch (self st)))]) in *.
  assert (Hb12 : begun_epochs (c12 ++ c2) = [epoch (self st)]).
  { rewrite begun_epochs_app, Hb2, app_nil_r. unfold c12.
    change (begun_epochs (CallHook (on_epoch_begin (epoch (self st))) :: bc
                          ++ [CallHook (on_epoch_end (epoch (self st)))]))
      with (epoch (self st)
            :: begun_epochs (bc ++ [CallHook (on_epoch_end (epoch (self st)))])).
    rewrite begun_epochs_app, Hbb. reflexivity. }
  assert (He12 : ended_epochs (c12 ++ c2) = [epoch (self st)]).
  { rewrite ended_epochs_app, He2, app_nil_r. unfold c12.
    change (ended_epochs (CallHook (on_epoch_begin (epoch (self st))) :: bc
                          ++ [CallHook (on_epoch_end (epoch (self st)))]))
      with (ended_epochs (bc ++ [CallHook (on_epoch_end (epoch (self st)))])).
    rewrite ended_epochs_app, Hbe. reflexivity. }
  assert (Hv12 : evaluations (c12 ++ c2)
                 = if has_test_set (dataset_factory (self st)) then 1%nat else 0%nat).
  { rewrite evaluations_app, Hv2. unfold c12.
    change (evaluations (CallHook (on_epoch_begin (epoch (self st))) :: bc
                         ++ [CallHook (on_epoch_end (epoch (self st)))]))
      with (evaluations (bc ++ [CallHook (on_epoch_end (epoch (self st)))])).
    rewrite evaluations_app, Hbv. reflexivity. }
  assert (Hep3 : epoch (self (epoch_end_step st2)) = epoch (self st) + 1).
  { cbn. rewrite Hep2, Hep. reflexivity. }
  assert (Hdf3 : dataset_factory (self (epoch_end_step st2)) = dataset_factory (self st)).
  { cbn. exact Hdf2. }
  destruct o2 as [best'|e|].
  2,3: exists (c12 ++ c2); cbn [fst snd];
       (split; [eapply calls_made_trans; eassumption|]);
       (split; [|discriminate]); rewrite <- (app_nil_r (c12 ++ c2));
       apply (epochs_run_step st (epoch_end_step st2)); try assumption;
       apply epochs_run_nil.
  destruct (IH best' (epoch_end_step st2)) as (c3 & Hc3 & Hr3 & He3).
  exists ((c12 ++ c2) ++ c3). split; [|split].
  - eapply calls_made_trans; [eapply calls_made_trans; eassumption|].
    destruct Hc3 as (seg & Hseg & Hm). exists seg. split; assumption.
  - apply (epochs_run_step st (epoch_end_step st2)); assumption.
  - intros r Hr. rewrite (He3 r Hr), Hep3. rewrite ended_epochs_app, He12.
    cbn [app length]. lia.
Qed.

End Runs.

(* ===================================================================== *)
(** * Further properties: names and paths *)
(* ===================================================================== *)

Section Names.

(** ** Numbers in file names *)

Lemma lacks_append (c : ascii) (a b : string) : lacks c (a +:+ b) = lacks c a && lacks c b.
Proof.
  induction a as [|x a IH]; [reflexivity|]. rewrite append_cons.
  cbn [lacks]. rewrite IH. apply andb_assoc.
Qed.

Lemma lacks_uint (c : ascii) (d : Decimal.uint) :
  lacks c "0123456789" = true -> lacks c (NilEmpty.string_of_uint d) = true.
Proof.
  cbn [lacks]. rewrite !andb_true_iff. intros (H0&H1&H2&H3&H4&H5&H6&H7&H8&H9&_).
  induction d; cbn [NilEmpty.string_of_uint lacks]; rewrite ?IHd, ?andb_true_r;
    first [reflexivity|assumption].
Qed.

Lemma lacks_zeros (c : ascii) (n : nat) : lacks c "0" = true -> lacks c (zeros n) = true.
Proof.
  cbn [lacks]. rewrite andb_true_r. intros H.
  induction n as [|n IH]; cbn [zeros lacks]; [reflexivity|]. rewrite H, IH. reflexivity.
Qed.

Lemma to_uint_nonnil (n : N) : N.to_uint n <> Decimal.Nil.
Proof. destruct n; cbn; [discriminate|apply DecimalPos.Unsigned.to_uint_nonnil]. Qed.

Lemma digits_plain (z : Z) : digits z = NilEmpty.string_of_uint (N.to_uint (Z.abs_N z)).
Proof.
  unfold digits, NilZero.string_of_uint. pose proof (to_uint_nonnil (Z.abs_N z)) as H.
  destruct (N.to_uint (Z.abs_N z)); [congruence|reflexivity..].
Qed.

Lemma lacks_digits (c : ascii) (z : Z) : lacks c "0123456789" = true -> lacks c (digits z) = true.
Proof. intros H. rewrite digits_plain. apply lacks_uint. exact H. Qed.

Lemma lacks_format_05 (c : ascii) (z : Z) :
  lacks c "-0123456789" = true -> lacks c (format_05 z) = true.
Proof.
  intros H. change (lacks c ("-" +:+ "0123456789") = true) in H.
  rewrite lacks_append in H. apply andb_true_iff in H as [Hm Hd].
  assert (H0 : lacks c "0" = true).
  { cbn [lacks] in Hd |- *. apply andb_true_iff in Hd as [-> _]. reflexivity. }
  unfold format_05. destruct (z <? 0);
    rewrite ?lacks_append, ?(lacks_zeros _ _ H0), ?(lacks_digits _ _ Hd), ?Hm; reflexivity.
Qed.

Lemma uint_of_padded (k : nat) (d : Decimal.uint) :
  NilEmpty.uint_of_string (zeros k +:+ NilEmpty.string_of_uint d)
  = Some (leading_zeros k d).
Proof.
  induction k as [|k IH]; cbn [zeros leading_zeros].
  - rewrite append_nil_l. apply NilEmpty.usu.
  - rewrite append_cons. cbn [NilEmpty.uint_of_string]. rewrite IH. reflexivity.
Qed.

Lemma of_leading_zeros (k : nat) (d : Decimal.uint) :
  Pos.of_uint (leading_zeros k d) = Pos.of_uint d.
Proof. induction k as [|k IH]; [reflexivity|exact IH]. Qed.

Lemma padded_nonempty (k : nat) (z : Z) : zeros k +:+ digits z <> EmptyString.
Proof.
  apply append_nonempty. rewrite digits_plain.
  pose proof (to_uint_nonnil (Z.abs_N z)) as H.
  destruct (N.to_uint (Z.abs_N z)); [congruence|discriminate..].
Qed.

Lemma uint_of_string_padded (k : nat) (z : Z) :
  NilZero.uint_of_string (zeros k +:+ digits z)
  = Some (leading_zeros k (N.to_uint (Z.abs_N z))).
Proof.
  pose proof (padded_nonempty k z) as Hne. unfold NilZero.uint_of_string.
  destruct (zeros k +:+ digits z) eqn:E; [congruence|]. rewrite <- E.
  rewrite digits_plain. apply uint_of_padded.
Qed.

Lemma of_uint_padded (k : nat) (z : Z) :
  Z.of_uint (leading_zeros k (N.to_uint (Z.abs_N z))) = Z.abs z.
Proof.
  unfold Z.of_uint. rewrite of_leading_zeros.
  change (Pos.of_uint (N.to_uint (Z.abs_N z))) with (N.of_uint (N.to_uint (Z.abs_N z))).
  rewrite DecimalN.Unsigned.of_to. apply N2Z.inj_abs_N.
Qed.

(** Reading back what [format_05] wrote gives the number. *)
Lemma int_of_format_05 (z : Z) : int_of (format_05 z) = Some z.
Proof.
  unfold int_of, format_05. destruct (Z.ltb_spec z 0) as [Hneg|Hpos].
  - rewrite append_cons, append_nil_l. cbn [NilZero.int_of_string].
    change (("-" =? "-")%char) with true. cbv iota.
    rewrite uint_of_string_padded. cbn [option_map Z.of_int].
    rewrite of_uint_padded. f_equal. lia.
  - assert (Hm : lacks "-" (zeros (5 - String.length (digits z)) +:+ digits z) = true).
    { rewrite lacks_append, lacks_zeros, lacks_digits; reflexivity. }
    pose proof (padded_nonempty (5 - String.length (digits z)) z) as Hne.
    pose proof (uint_of_string_padded (5 - String.length (digits z)) z) as Hu.
    destruct (zeros (5 - String.length (digits z)) +:+ digits z) as [|a s] eqn:E;
      [congruence|].
    cbn [NilZero.int_of_string]. cbn [lacks] in Hm. apply andb_true_iff in Hm as [Ha _].
    apply negb_true_iff in Ha. rewrite Ha. rewrite Hu. cbn [option_map Z.of_int].
    rewrite of_uint_padded. f_equal. lia.
Qed.

Lemma format_05_inj (z z' : Z) : format_05 z = format_05 z' -> z = z'.
Proof.
  intros H. pose proof (int_of_format_05 z) as H1. rewrite H, int_of_format_05 in H1.
  congruence.
Qed.

(** ** Components of a string *)

Lemma append_inv_head (a x y : string) : a +:+ x = a +:+ y -> x = y.
Proof.
  induction a as [|c a IH]; [rewrite !append_nil_l; auto|].
  rewrite !append_cons. intros [= H]. apply IH. exact H.
Qed.

(** A string cut at the first [c] is cut in one way. *)
Lemma cut_unique (c : ascii) (x x' r r' : string) :
  lacks c x = true -> lacks c x' = true ->
  x +:+ String c r = x' +:+ String c r' -> x = x' /\ r = r'.
Proof.
  revert x'. induction x as [|a x IH]; intros [|a' x'] Hx Hx'; rewrite ?append_cons, ?append_nil_l.
  - intros [= ->]. auto.
  - intros [= <- _]. cbn [lacks] in Hx'. rewrite Ascii.eqb_refl in Hx'. discriminate.
  - intros [= -> _]. cbn [lacks] in Hx. rewrite Ascii.eqb_refl in Hx. discriminate.
  - intros [= <- H]. cbn [lacks] in Hx, Hx'.
    apply andb_true_iff in Hx as [_ Hx]. apply andb_true_iff in Hx' as [_ Hx'].
    destruct (IH x' Hx Hx' H) as [-> ->]. auto.
Qed.

Lemma checkpoint_pattern_inj (name : string) (e e' b b' : Z) (ext : string) :
  checkpoint_pattern name e b ext = checkpoint_pattern name e' b' ext ->
  e = e' /\ b = b'.
Proof.
  unfold checkpoint_pattern. intros H. apply append_inv_head in H.
  rewrite !append_cons, !append_nil_l in H. injection H as H.
  apply (cut_unique "_") in H as [He H]; [|apply lacks_format_05; reflexivity..].
  injection H as H.
  apply (cut_unique ".") in H as [Hb _]; [|apply lacks_format_05; reflexivity..].
  split; apply format_05_inj; assumption.
Qed.

(** ** The last component of a path *)

Lemma seps_dir_prefix (i : nat) : dir_prefix (posixpath.seps i).
Proof.
  induction i as [|i IH]; [left; reflexivity|]. right. cbn [posixpath.seps].
  destruct IH as [->|(q & ->)].
  - exists EmptyString. reflexivity.
  - exists (String posixpath.sep q). reflexivity.
Qed.

Lemma concat_snoc_dir (comps : list string) (f : string) :
  exists p, dir_prefix p /\ String.concat "/" (comps ++ [f]) = p +:+ f.
Proof.
  induction comps as [|x comps (p & Hp & IH)].
  - exists EmptyString. split; [left; reflexivity|reflexivity].
  - destruct comps as [|y comps].
    + exists (x +:+ "/"). split; [right; eauto|].
      cbn [app String.concat]. symmetry. apply append_assoc.
    + exists (x +:+ "/" +:+ p). split.
      * rewrite <- append_assoc. apply dir_prefix_append; [right; eauto|exact Hp].
      * cbn [app String.concat] in *. rewrite IH. rewrite !append_assoc. reflexivity.
Qed.

Lemma normpath_last_dir (q f : string) :
  dir_prefix q -> slash_free f = true ->
  f <> EmptyString -> f <> "." -> f <> ".." ->
  exists p, dir_prefix p /\ posixpath.normpath (q +:+ f) = p +:+ f.
Proof.
  intros Hq Hf H0 H1 H2. unfold posixpath.normpath.
  destruct (String.eqb_spec (q +:+ f) EmptyString) as [E|_].
  { destruct (append_nonempty q f H0 E). }
  destruct (split_dir_prefix q f Hq Hf) as (comps & ->).
  rewrite fold_left_app. cbn [fold_left].
  rewrite (norm_step_plain _ _ _ H0 H1 H2).
  destruct (concat_snoc_dir (fold_left (posixpath.norm_step
                                          (posixpath.initial_slashes (q +:+ f))) comps []) f)
    as (p & Hp & ->).
  cbv zeta. rewrite <- append_assoc.
  destruct (String.eqb_spec ((posixpath.seps (posixpath.initial_slashes (q +:+ f)) +:+ p)
                             +:+ f) EmptyString) as [E|_].
  { destruct (append_nonempty _ f H0 E). }
  eexists. split; [|reflexivity]. apply dir_prefix_append; [apply seps_dir_prefix|exact Hp].
Qed.

Lemma abspath_join_last_dir (cwd a f : string) :
  slash_free f = true ->
  f <> EmptyString -> f <> "." -> f <> ".." ->
  exists p, dir_prefix p /\ posixpath.abspath cwd (posixpath.join a f) = p +:+ f.
Proof.
  intros Hf H0 H1 H2. unfold posixpath.abspath.
  destruct (abspath_shape cwd a f Hf) as (q & -> & Hq).
  apply normpath_last_dir; assumption.
Qed.

Lemma last_component_unique (p p' f f' : string) :
  dir_prefix p -> dir_prefix p' -> slash_free f = true -> slash_free f' = true ->
  p +:+ f = p' +:+ f' -> f = f'.
Proof.
  intros Hp Hp' Hf Hf' E.
  destruct (split_dir_prefix p f Hp Hf) as (c & Hc).
  destruct (split_dir_prefix p' f' Hp' Hf') as (c' & Hc').
  rewrite E, Hc' in Hc. apply app_inj_tail in Hc as [_ Hc]. congruence.
Qed.

Lemma slash_free_checkpoint_pattern (name : string) (e b : Z) (ext : string) :
  slash_free name = true -> slash_free ext = true ->
  slash_free (checkpoint_pattern name e b ext) = true.
Proof.
  intros Hn He. unfold checkpoint_pattern.
  rewrite !slash_free_append, !slash_free_format_05, Hn, He. reflexivity.
Qed.

(** ** Absolute paths *)

Lemma startswith_sep_inv (s : string) :
  posixpath.startswith_sep s = true -> exists r, s = String posixpath.sep r.
Proof.
  destruct s as [|c r]; cbn; [discriminate|]. intros H. apply Ascii.eqb_eq in H.
  subst c. eauto.
Qed.

Lemma normpath_abs (x : string) :
  posixpath.startswith_sep x = true ->
  posixpath.startswith_sep (posixpath.normpath x) = true.
Proof.
  intros H. apply startswith_sep_inv in H as (r & ->). unfold posixpath.normpath.
  cbn [String.eqb]. cbv zeta.
  assert (Hi : exists i, posixpath.initial_slashes (String posixpath.sep r) = S i).
  { cbn. destruct r as [|c2 [|c3 r]]; cbn.
    - eauto.
    - destruct (Ascii.eqb c2 posixpath.sep); eauto.
    - destruct (Ascii.eqb c2 posixpath.sep); [destruct (Ascii.eqb c3 posixpath.sep)|]; eauto. }
  destruct Hi as (i & ->). cbn [posixpath.seps]. rewrite append_cons. reflexivity.
Qed.

Lemma abspath_abs (cwd path : string) :
  posixpath.isabs cwd = true -> posixpath.isabs (posixpath.abspath cwd path) = true.
Proof.
  intros Hcwd. unfold posixpath.abspath, posixpath.isabs in *.
  apply normpath_abs. destruct (posixpath.startswith_sep path) eqn:Hp; [exact Hp|].
  unfold posixpath.join. rewrite Hp.
  apply startswith_sep_inv in Hcwd as (r & ->).
  destruct (_ || _); rewrite append_cons; reflexivity.
Qed.

Lemma str_first (z : Z) (r : string) : posixpath.startswith_sep (str z +:+ r) = false.
Proof.
  unfold str. destruct (Z.to_int z) as [d|d]; cbn [NilZero.string_of_int].
  - unfold NilZero.string_of_uint. destruct d; reflexivity.
  - reflexivity.
Qed.

End Names.

(* ===================================================================== *)
(** * Further properties of the code *)
(* ===================================================================== *)

Section FurtherProperties.

Context {C : Collaborators}.

(** ** The model directory *)

(** X1. [get_model_dir] raises [Exception("Cannot figure out model dir.")]
    when the configuration has no [model_dir]; it returns only when
    [model_dir] is a string, and what it returns is the identifier joined to
    that directory: a path that ends with the identifier, and for an
    identifier that does not start with ['/'] the directory, a ['/'] unless
    the directory is empty or ends with one, and the identifier. *)
Theorem get_model_dir_result (config : gmap string value) (model_identifier : string) :
  (config !! "model_dir" = None ->
   get_model_dir config model_identifier = Raise (Exception "Cannot figure out model dir."))
  /\ (forall p : string,
        get_model_dir config model_identifier = Ok p ->
        exists model_dir : string,
          config !! "model_dir" = Some (VStr model_dir)
          /\ p = posixpath.join model_dir model_identifier
          /\ ends_with model_identifier p)
  /\ (forall model_dir : string,
        config !! "model_dir" = Some (VStr model_dir) ->
        posixpath.startswith_sep model_identifier = false ->
        get_model_dir config model_identifier
        = Ok (if String.eqb model_dir EmptyString || posixpath.endswith_sep model_dir
              then model_dir +:+ model_identifier
              else model_dir +:+ "/" +:+ model_identifier)).
Proof.
  unfold get_model_dir. split; [|split].
  - intros ->. reflexivity.
  - intros p. destruct (config !! "model_dir") as [[|z|d]|]; try discriminate.
    intros [= <-]. exists d. split; [reflexivity|]. split; [reflexivity|].
    unfold posixpath.join. destruct (posixpath.startswith_sep model_identifier).
    + exists EmptyString. reflexivity.
    + destruct (_ || _).
      * exists d. reflexivity.
      * exists (d +:+ "/"). symmetry. apply append_assoc.
  - intros d -> Hrel. unfold posixpath.join. rewrite Hrel.
    destruct (_ || _); reflexivity.
Qed.

(** ** The constructor *)

Lemma init_run (rnd : Z) (a : InitArgs) (w w' : World) (s : MLProject) :
  __init__ rnd a w = Ok (s, w') ->
  _run s = arg_run a
  /\ match arg_model_save_dir a with
     | Some d => model_save_dir s = d /\ w' = w
     | None =>
         get_model_dir (config s) (str (_id s) +:+ "_" +:+ model_name (model s))
         = Ok (model_save_dir s)
         /\ (model_save_dir s ∉ dirs w)
         /\ w' = mkWorld (files w) ({[model_save_dir s]} ∪ dirs w) (cwd w)
     end.
Proof.
  unfold __init__.
  destruct (match arg_model_state a with
            | Some ((_ :: _) as ms) => load_state_dict (get_model (arg_config a)) ms
            | _ => Ok (get_model (arg_config a))
            end) as [m0|e|]; cbn [obind]; try discriminate.
  destruct (torch_device (device_name (arg_config a))) as [d|e|]; cbn [obind];
    try discriminate.
  destruct (arg_model_save_dir a) as [dir|].
  - intros [= <- <-]. cbn. auto.
  - destruct (get_model_dir _ _) as [p|e|] eqn:Hp; cbn [obind]; try discriminate.
    destruct (bool_decide_reflect (p ∈ dirs w)) as [Hin|Hin]; [discriminate|].
    intros [= <- <-]. cbn. auto.
Qed.

(** X2. A new instance that is not handed a [model_save_dir] gets the
    directory [<model_dir>/<_id>_<model name>]: the identifier starts with
    the digits (or the sign) of [_id], so [os.path.join] never drops
    [model_dir]. [os.makedirs] makes that directory, which was not there
    before, and no file is touched. An instance that is handed a
    [model_save_dir] keeps it and makes no directory. *)
Theorem init_model_save_dir (rnd : Z) (a : InitArgs) (w w' : World) (s : MLProject) :
  __init__ rnd a w = Ok (s, w') ->
  (arg_model_save_dir a = None ->
   exists model_dir : string,
     config s !! "model_dir" = Some (VStr model_dir)
     /\ model_save_dir s
        = (if String.eqb model_dir EmptyString || posixpath.endswith_sep model_dir
           then model_dir else model_dir +:+ "/")
          +:+ str (_id s) +:+ "_" +:+ model_name (model s)
     /\ (model_save_dir s ∉ dirs w)
     /\ model_save_dir s ∈ dirs w'
     /\ files w' = files w
     /\ cwd w' = cwd w)
  /\ (forall d : string, arg_model_save_dir a = Some d -> model_save_dir s = d /\ w' = w).
Proof.
  intros Hinit. apply init_run in Hinit as (_ & Hdir). split.
  - intros Hnone. rewrite Hnone in Hdir. destruct Hdir as (Hp & Hnew & ->).
    unfold get_model_dir in Hp.
    destruct (config s !! "model_dir") as [[|z|d]|]; try discriminate.
    injection Hp as Hp. exists d. split; [reflexivity|]. split; [|split; [|split]].
    + rewrite <- Hp at 1. unfold posixpath.join. rewrite str_first.
      destruct (_ || _); [reflexivity|]. symmetry. apply append_assoc.
    + exact Hnew.
    + cbn. set_solver.
    + split; reflexivity.
  - intros d Hd. rewrite Hd in Hdir. exact Hdir.
Qed.

(** X3. [os.makedirs] is called without [exist_ok]: once an instance has
    made its directory, building an instance again from the same arguments
    (the same [_id] and model) raises [FileExistsError]. *)
Theorem init_twice_fails (rnd : Z) (a : InitArgs) (w w' : World) (s : MLProject) :
  __init__ rnd a w = Ok (s, w') ->
  arg_model_save_dir a = None ->
  __init__ rnd a w' = Raise (FileExistsError (model_save_dir s)).
Proof.
  intros Hinit Hnone. pose proof (init_run _ _ _ _ _ Hinit) as (_ & Hdir).
  rewrite Hnone in Hdir. destruct Hdir as (Hp & _ & Hw').
  revert Hinit Hp. unfold __init__.
  destruct (match arg_model_state a with
            | Some ((_ :: _) as ms) => load_state_dict (get_model (arg_config a)) ms
            | _ => Ok (get_model (arg_config a))
            end) as [m0|e|]; cbn [obind]; try discriminate.
  destruct (torch_device (device_name (arg_config a))) as [d|e|]; cbn [obind];
    try discriminate.
  rewrite Hnone.
  destruct (get_model_dir _ _) as [p|e|] eqn:Hp; cbn [obind]; try discriminate.
  destruct (bool_decide (p ∈ dirs w)); [discriminate|].
  intros [= <- _] _. cbn [model_save_dir].
  rewrite bool_decide_eq_true_2; [reflexivity|].
  rewrite Hw'. cbn. set_solver.
Qed.

(** X4. The [_id] of an instance is never 0: [_id or random.randint(...)]
    keeps an id that is not 0 and replaces a missing id, and the id 0, by the
    number drawn. *)
Theorem init_id (rnd : Z) (a : InitArgs) (w w' : World) (s : MLProject) :
  10 ^ 10 <= rnd <= 10 ^ 10 + 10 ^ 8 ->
  __init__ rnd a w = Ok (s, w') ->
  _id s <> 0
  /\ (forall z : Z, arg_id a = Some z -> z <> 0 -> _id s = z)
  /\ (arg_id a = None \/ arg_id a = Some 0 -> _id s = rnd).
Proof.
  intros Hrnd Hinit.
  destruct (init_shape _ _ _ _ _ Hinit) as (_ & _ & _ & Hid & _).
  rewrite Hid. split; [|split].
  - destruct (arg_id a) as [z|]; [|lia]. destruct (Z.eqb_spec z 0); lia.
  - intros z -> Hz. apply Z.eqb_neq in Hz. rewrite Hz. reflexivity.
  - intros [-> | ->]; reflexivity.
Qed.


(** X6. [from_run] builds a new instance for a sacred run: it holds the
    run and the configuration of the run, its counters are 0 and it has no
    best score, its [_id] is the id of the run (the number drawn when the
    run has none, or has the id 0), its model is the model of the
    configuration with no state loaded into it, and its directory has just
    been made. *)
Theorem from_run_instance (rnd : Z) (run : Run) (w w' : World) (s : MLProject) :
  from_run rnd run w = Ok (s, w') ->
  _run s = Some run
  /\ config s = run_config run
  /\ global_step s = 0 /\ epoch s = 0 /\ epoch_step s = 0
  /\ best_score s = None
  /\ _id s = match run_id run with
             | Some z => if z =? 0 then rnd else z
             | None => rnd
             end
  /\ model s = model_to (device s) (get_model (run_config run))
  /\ (model_save_dir s ∉ dirs w)
  /\ model_save_dir s ∈ dirs w'.
Proof.
  unfold from_run. intros Hinit.
  pose proof (init_run _ _ _ _ _ Hinit) as (Hrun & Hdir).
  destruct (init_shape _ _ _ _ _ Hinit)
    as (m0 & Hm0 & _ & Hid & Hc & Hm & Hg & He & Hes & Hb & _).
  cbn in Hrun, Hdir, Hm0, Hid, Hc, Hg, He, Hes. injection Hm0 as <-.
  destruct Hdir as (_ & Hnew & ->).
  repeat split; try assumption. cbn. set_solver.
Qed.

(** ** The evaluation runner *)

(** X7. [test] calls [model.eval()], then [test_batch] on every batch of
    the test loader in the order of the loader, then hands the aggregated
    losses to the writer under the current [global_step] and prints them;
    it calls none of the hooks of training and saves nothing. It changes
    the model and nothing else: the counters, the best score, the
    configuration, [model.log] and the files are what they were. *)
Theorem test_effects (st : St) :
  calls_made st (snd (test st))
    (CallHook eval_mode
     :: map CallTestBatch (test_loader (dataset_factory (self st)))
     ++ [CallAddScalarsTest (eval_losses (self st)) (global_step (self st));
         CallPrint (eval_losses (self st))])
  /\ self (snd (test st))
     = set_model (model_after_test (model_log (self st)) (eval_model (self st))
                    (test_loader (dataset_factory (self st)))) (self st)
  /\ same_setup (self st) (self (snd (test st)))
  /\ same_progress (self st) (self (snd (test st)))
  /\ best_score (self (snd (test st))) = best_score (self st)
  /\ model_log (self (snd (test st))) = model_log (self st)
  /\ world (snd (test st)) = world st.
Proof.
  destruct (test_exact st) as (Hc & Hs & Hw).
  split; [exact Hc|]. split; [exact Hs|]. rewrite Hs, Hw.
  repeat split.
Qed.

(** X8. With an empty test loader [test] has nothing to aggregate: it
    hands the writer an empty mapping, prints, and raises the [KeyError] of
    the benchmark metric, whatever the model. *)
Theorem test_empty_loader (st : St) :
  test_loader (dataset_factory (self st)) = [] ->
  fst (test st) = Raise (KeyError (benchmark_metric (model_hook eval_mode (model (self st)))))
  /\ calls_made st (snd (test st))
       [CallHook eval_mode; CallAddScalarsTest ∅ (global_step (self st)); CallPrint ∅].
Proof.
  intros Hempty. destruct (test_run st) as (st1 & _ & _ & _ & _ & Hrun).
  destruct (test_exact st) as (Hc & _).
  assert (Hl : eval_losses (self st) = ∅).
  { unfold eval_losses, eval_outputs. rewrite Hempty. reflexivity. }
  assert (Hb : eval_benchmark (self st)
               = benchmark_metric (model_hook eval_mode (model (self st)))).
  { unfold eval_benchmark. rewrite Hempty. reflexivity. }
  rewrite Hl, Hempty in Hc. split; [|exact Hc].
  rewrite Hrun, Hl, Hb, lookup_empty. reflexivity.
Qed.

(** ** The stop predicate *)

(** X9. The stop predicate is monotone in the counters: under the same
    configuration, once it says yes it says yes for every later
    [global_step] and [epoch]. *)
Theorem stop_is_stable (s s' : MLProject) :
  config s' = config s ->
  global_step s <= global_step s' ->
  epoch s <= epoch s' ->
  _should_stop_training s = Ok true ->
  _should_stop_training s' = Ok true.
Proof.
  unfold _should_stop_training, dict_getitem, py_ge. intros -> Hg He.
  destruct (config s !! "n_global_iterations") as [[|n|x]|]; try discriminate.
  - intros [= H]. f_equal. apply Z.leb_le in H. apply Z.leb_le. lia.
  - destruct (config s !! "n_epochs") as [[|n|x]|]; cbn [obind]; try discriminate.
    intros [= H]. f_equal. apply Z.leb_le in H. apply Z.leb_le. lia.
Qed.

(** ** Training *)

Lemma train_finished (fuel : nat) (st : St) :
  _should_stop_training (self st) = Ok true ->
  fst (train (S fuel) st) = Ok tt
  /\ calls_made st (snd (train (S fuel) st))
       [CallHook on_train_begin; CallHook train_mode; CallHook on_train_end]
  /\ same_progress (self st) (self (snd (train (S fuel) st)))
  /\ best_score (self (snd (train (S fuel) st))) = best_score (self st)
  /\ model_log (self (snd (train (S fuel) st))) = model_log (self st)
  /\ world (snd (train (S fuel) st)) = world st.
Proof.
  intros Hstop. rewrite train_unfold.
  set (st0 := snd (call_hook train_mode (snd (call_hook on_train_begin st)))).
  assert (Hstop0 : _should_stop_training (self st0) = Ok true).
  { rewrite <- Hstop. apply should_stop_frame; reflexivity. }
  rewrite train_loop_unfold, train_epoch_unfold, Hstop0.
  rewrite call_hook_run. cbn [fst snd]. split; [reflexivity|]. split; [|repeat split].
  eexists [_; _; _].
  split; [unfold st0; rewrite !call_hook_run; cbn; rewrite <- !app_assoc; reflexivity|].
  reflexivity.
Qed.

(** X10. [train] on an instance whose budget is used up (a budget of 0, or
    an instance loaded from the checkpoint of a finished run) returns at
    once: it calls [on_train_begin], [model.train()] and [on_train_end] and
    nothing else; no batch is trained on, nothing is evaluated or saved, and
    the counters and the best score are what they were. *)
Theorem train_finished_run (fuel : nat) (st : St) :
  _should_stop_training (self st) = Ok true ->
  fst (train (S fuel) st) = Ok tt
  /\ calls_made st (snd (train (S fuel) st))
       [CallHook on_train_begin; CallHook train_mode; CallHook on_train_end]
  /\ global_step (self (snd (train (S fuel) st))) = global_step (self st)
  /\ epoch (self (snd (train (S fuel) st))) = epoch (self st)
  /\ epoch_step (self (snd (train (S fuel) st))) = epoch_step (self st)
  /\ best_score (self (snd (train (S fuel) st))) = best_score (self st)
  /\ world (snd (train (S fuel) st)) = world st.
Proof.
  intros Hstop.
  destruct (train_finished fuel st Hstop) as (Hok & Hc & (Hg & He & Hes) & Hb & _ & Hw).
  repeat split; assumption.
Qed.

(** X11. Training is done once: after a [train] that returned, a second
    [train] on the same instance trains on no batch, evaluates and saves
    nothing, and leaves the counters, the best score and the files alone. *)
Theorem train_again (fuel fuel' : nat) (st : St) :
  fst (train fuel st) = Ok tt ->
  fst (train (S fuel') (snd (train fuel st))) = Ok tt
  /\ calls_made (snd (train fuel st)) (snd (train (S fuel') (snd (train fuel st))))
       [CallHook on_train_begin; CallHook train_mode; CallHook on_train_end]
  /\ same_progress (self (snd (train fuel st)))
       (self (snd (train (S fuel') (snd (train fuel st)))))
  /\ best_score (self (snd (train (S fuel') (snd (train fuel st)))))
     = best_score (self (snd (train fuel st)))
  /\ world (snd (train (S fuel') (snd (train fuel st)))) = world (snd (train fuel st)).
Proof.
  intros Hok. destruct (train_spec fuel st) as (o & st' & Hrun & _ & Hpost).
  rewrite Hrun in Hok |- *. cbn [fst snd] in *. subst o.
  destruct (train_finished fuel' st' Hpost) as (H1 & H2 & H3 & H4 & _ & H5).
  repeat split; try assumption; apply H3.
Qed.

(** X12. A configuration with neither [n_global_iterations] nor [n_epochs]
    stops [train] with [KeyError('n_epochs')] at the start of the first
    epoch: [on_train_begin] and [model.train()] have been called, no batch
    has been trained on, and [on_train_end] is not called. [train_epoch] on
    its own raises the same error and changes nothing. *)
Theorem train_without_budget (fuel : nat) (st : St) :
  config (self st) !! "n_global_iterations" = None ->
  config (self st) !! "n_epochs" = None ->
  train_epoch st = (Raise (KeyError "n_epochs"), st)
  /\ fst (train (S fuel) st) = Raise (KeyError "n_epochs")
  /\ calls_made st (snd (train (S fuel) st)) [CallHook on_train_begin; CallHook train_mode]
  /\ same_progress (self st) (self (snd (train (S fuel) st)))
  /\ world (snd (train (S fuel) st)) = world st.
Proof.
  intros H1 H2.
  assert (Hstop : forall s, config s = config (self st) ->
                            _should_stop_training s = Raise (KeyError "n_epochs")).
  { intros s Hs. unfold _should_stop_training, dict_getitem. rewrite Hs, H1, H2.
    reflexivity. }
  split; [rewrite train_epoch_unfold, (Hstop _ eq_refl); reflexivity|].
  rewrite train_unfold, train_loop_unfold, train_epoch_unfold.
  rewrite Hstop by reflexivity. cbn [fst snd].
  split; [reflexivity|]. split; [|repeat split].
  eexists [_; _].
  split; [rewrite !call_hook_run; cbn; rewrite <- !app_assoc; reflexivity|reflexivity].
Qed.

(** X13. The hooks of [train]: [on_train_begin] and [model.train()] are
    the first two calls and are not made again, so the model is put into
    training mode once, before the first epoch, and not after an
    evaluation has put it into evaluation mode. Between them and the end
    there are only calls of epochs, evaluations and checkpoints. When
    [train] returns, [on_train_end] is its last call; when [train] ends
    with an exception, [on_train_end] is not called and no artifact is
    registered. *)
Theorem train_hooks (fuel : nat) (st : St) :
  exists loop tail : list call,
    calls_made st (snd (train fuel st))
      ([CallHook on_train_begin; CallHook train_mode] ++ loop ++ tail)
    /\ forallb loop_call loop = true
    /\ match fst (train fuel st) with
       | Ok _ =>
           tail = [CallHook on_train_end]
           \/ exists filename : string,
                tail = [CallAddArtifact filename; CallHook on_train_end]
       | _ => tail = []
       end.
Proof.
  destruct (train_shape fuel st) as (loop & Hl & Hc).
  exists loop. eexists. split; [exact Hc|]. split; [exact Hl|].
  destruct (fst (train fuel st)); try reflexivity.
  unfold closing. destruct (_run (self st)); [destruct (last (saved loop))|]; eauto.
Qed.

(** X14. The artifact of a run: when [train] returns, it has registered
    with the sacred run the checkpoint saved last, once, if the instance
    holds a run and at least one checkpoint was saved, and nothing
    otherwise. An instance without a run (a loaded one, say) registers
    nothing, and neither does a [train] that ends with an exception. *)
Theorem train_artifact (fuel : nat) (st : St) :
  exists calls : list call,
    calls_made st (snd (train fuel st)) calls
    /\ artifacts calls
       = match fst (train fuel st), _run (self st), last (saved calls) with
         | Ok _, Some _, Some filename => [filename]
         | _, _, _ => []
         end.
Proof.
  destruct (train_shape fuel st) as (loop & Hl & Hc).
  eexists. split; [exact Hc|].
  rewrite !artifacts_app, !saved_app, (loop_artifacts _ Hl).
  cbn [artifacts saved omap list_omap app].
  destruct (fst (train fuel st)) as [[]|e|].
  - unfold closing. destruct (_run (self st)).
    + destruct (last (saved loop)) as [f|] eqn:El; cbn.
      * rewrite app_nil_r, El. reflexivity.
      * rewrite app_nil_r, El. reflexivity.
    + reflexivity.
  - reflexivity.
  - reflexivity.
Qed.

(** X15. Without a test set [train] never evaluates and never saves: its
    calls are the hooks and the calls of the epochs, no checkpoint is
    written and none is registered, and the best score and the files are
    what they were. *)
Theorem train_without_test_set (fuel : nat) (st : St) :
  has_test_set (dataset_factory (self st)) = false ->
  exists loop : list call,
    calls_made st (snd (train fuel st))
      ([CallHook on_train_begin; CallHook train_mode] ++ loop
       ++ match fst (train fuel st) with
          | Ok _ => [CallHook on_train_end]
          | _ => []
          end)
    /\ forallb training_call loop = true
    /\ best_score (self (snd (train fuel st))) = best_score (self st)
    /\ world (snd (train fuel st)) = world st.
Proof.
  intros Hno. rewrite train_unfold.
  set (st0 := snd (call_hook train_mode (snd (call_hook on_train_begin st)))).
  assert (H0 : calls_made st st0 [CallHook on_train_begin; CallHook train_mode]).
  { apply (calls_made_trans st (snd (call_hook on_train_begin st)) st0 [_] [_]);
      apply calls_made_hook. }
  destruct (train_loop_no_test fuel None st0 Hno) as (loop & Hc & Hk & Hb & Hw & Hr).
  exists loop.
  destruct (train_loop fuel None st0) as [[best|e|] st1]; cbn [fst snd] in *.
  - rewrite (Hr best eq_refl). rewrite call_hook_run. cbn [fst snd].
    split; [|split; [exact Hk|split; [exact Hb|exact Hw]]].
    eapply calls_made_trans; [exact H0|]. eapply calls_made_trans; [exact Hc|].
    eexists [_]. split; reflexivity.
  - rewrite app_nil_r. split; [eapply calls_made_trans; eassumption|auto].
  - rewrite app_nil_r. split; [eapply calls_made_trans; eassumption|auto].
Qed.

(** X16. Where an iteration budget stops the training. With
    [n_global_iterations = n], a loader of [L] batches ([L > 0]) and
    [global_step < n] at the start, a [train] that returns has stopped
    inside an epoch: [global_step] is [n], [epoch] has gone up by the
    number of whole epochs before the last batch, [(n - global_step - 1)
    div L], and [epoch_step] is the number of batches of the epoch that was
    cut, [(n - global_step - 1) mod L + 1]. The epoch in which the budget is
    reached is not counted, even when its last batch is the last of the
    loader. *)
Theorem iteration_budget_position (n : Z) (fuel : nat) (st : St) :
  config (self st) !! "n_global_iterations" = Some (VInt n) ->
  train_loader (dataset_factory (self st)) <> [] ->
  global_step (self st) < n ->
  fst (train fuel st) = Ok tt ->
  global_step (self (snd (train fuel st))) = n
  /\ epoch (self (snd (train fuel st)))
     = epoch (self st)
       + (n - global_step (self st) - 1)
         / Z.of_nat (length (train_loader (dataset_factory (self st))))
  /\ epoch_step (self (snd (train fuel st)))
     = (n - global_step (self st) - 1)
       mod Z.of_nat (length (train_loader (dataset_factory (self st)))) + 1.
Proof.
  intros Hcfg Hload Hlt. rewrite train_unfold.
  set (st0 := snd (call_hook train_mode (snd (call_hook on_train_begin st)))).
  destruct (train_loop fuel None st0) as [[best|e|] st1] eqn:E; try discriminate.
  intros _. apply (train_loop_position n) in E; [|exact Hcfg|exact Hload|exact Hlt].
  rewrite call_hook_run. cbn [fst snd].
  destruct best as [f|]; [destruct (_run (self st1))|]; exact E.
Qed.

(** X17. The steps of the scalars: along [train], and along one
    [train_epoch], the metrics of the batches go to the writer under the
    steps [global_step], [global_step + 1], ... of the start, one step per
    batch, without a gap or a repeat, up to the [global_step] of the end. *)
Theorem scalar_steps_consecutive (fuel : nat) (st : St) :
  (exists calls : list call,
     calls_made st (snd (train fuel st)) calls
     /\ scalar_steps calls
        = seqZ (global_step (self st))
            (global_step (self (snd (train fuel st))) - global_step (self st)))
  /\ (exists calls : list call,
        calls_made st (snd (train_epoch st)) calls
        /\ scalar_steps calls
           = seqZ (global_step (self st))
               (global_step (self (snd (train_epoch st))) - global_step (self st))).
Proof.
  destruct (train_spec fuel st) as (o & st' & Hrun & Hsteps & _).
  destruct (train_epoch_spec st) as (o2 & st2 & Hrun2 & Hsteps2 & _).
  rewrite Hrun, Hrun2. cbn [snd]. split.
  - destruct (loop_steps_scalar_steps _ _ Hsteps) as (calls & Hc & _ & Hs). eauto.
  - destruct (loop_steps_scalar_steps _ _ Hsteps2) as (calls & Hc & _ & Hs). eauto.
Qed.

(** ** The evaluation after an epoch *)


(** ** The log level *)

(** X19. [_set_log_level] assigns [model.log] and nothing else, and the
    only error it raises is the [TypeError] of an interval that is a string
    (a non-empty one: the empty string is falsy and skipped, like [None] and
    0). It never divides by zero. *)
Theorem set_log_level_errors (s : MLProject) :
  (forall s' : MLProject, _set_log_level s = Ok s' -> exists l, s' = set_model_log l s)
  /\ (forall e : exn,
        _set_log_level s = Raise e ->
        e = TypeError
        /\ exists x : string,
             x <> EmptyString
             /\ (dict_get (config s) "log_iteration_all" = VStr x
                 \/ dict_get (config s) "log_iteration_scalars" = VStr x))
  /\ _set_log_level s <> OutOfFuel
  /\ (forall x : string,
        x <> EmptyString ->
        dict_get (config s) "log_iteration_all" = VStr x ->
        _set_log_level s = Raise TypeError).
Proof.
  assert (Hpy : forall v a,
            match py_and_divides v a with
            | Ok _ => True
            | Raise e => e = TypeError /\ exists x, x <> EmptyString /\ v = VStr x
            | OutOfFuel => False
            end).
  { intros v a. unfold py_and_divides, py_mod. destruct v as [|z|x]; cbn; auto.
    - destruct (z =? 0); cbn; auto.
    - destruct (String.eqb_spec x EmptyString) as [->|Hx]; cbn; eauto. }
  split; [apply set_log_level_shape|]. unfold _set_log_level.
  pose proof (Hpy (dict_get (config s) "log_iteration_all") (epoch_step s)) as H1.
  pose proof (Hpy (dict_get (config s) "log_iteration_scalars") (epoch_step s)) as H2.
  split; [|split].
  - intros e.
    destruct (py_and_divides (dict_get (config s) "log_iteration_all") _) as [[]|e1|];
      cbn [obind]; try discriminate.
    + destruct (py_and_divides (dict_get (config s) "log_iteration_scalars") _)
        as [[]|e2|]; cbn [obind]; try discriminate.
      intros [= <-]. destruct H2 as (-> & x & Hx & Hv). eauto.
    + intros [= <-]. destruct H1 as (-> & x & Hx & Hv). eauto.
  - destruct (py_and_divides (dict_get (config s) "log_iteration_all") _) as [[]|e1|];
      cbn [obind]; try discriminate; try (destruct H1; fail).
    destruct (py_and_divides (dict_get (config s) "log_iteration_scalars") _)
      as [[]|e2|]; cbn [obind]; try discriminate. destruct H2.
  - intros x Hx ->. unfold py_and_divides. cbn.
    destruct (String.eqb_spec x EmptyString) as [->|_]; [congruence|reflexivity].
Qed.

Lemma py_and_divides_first (o : option Z) :
  py_and_divides (interval o) 0 = Ok (configured o).
Proof.
  destruct o as [k|]; [|reflexivity]. unfold py_and_divides. cbn.
  destruct (Z.eqb_spec k 0) as [->|Hk]; [reflexivity|]. cbn.
  rewrite Zmod_0_l. reflexivity.
Qed.

Lemma train_batches_trace (batches : list Batch) (st : St) :
  exists seg, trace (snd (train_batches batches st)) = trace st ++ seg.
Proof.
  destruct (train_batches_exact batches st) as (calls & done & (seg & Hseg & _) & _).
  eauto.
Qed.

(** X20. The first batch of an epoch is trained on at the highest level
    that is configured: [epoch_step] has just been set to 0, and 0 is a
    multiple of every interval, so the level is [ALL] when
    [log_iteration_all] is configured, else [SCALARS] when
    [log_iteration_scalars] is, else [NONE]. *)
Theorem first_batch_level (st : St) (b : Batch) (rest : list Batch)
    (log_it_all log_it_scalars : option Z) :
  _should_stop_training (self st) = Ok false ->
  train_loader (dataset_factory (self st)) = b :: rest ->
  dict_get (config (self st)) "log_iteration_all" = interval log_it_all ->
  dict_get (config (self st)) "log_iteration_scalars" = interval log_it_scalars ->
  exists (s1 : MLProject) (seg : list (call * MLProject)),
    trace (snd (train_epoch st))
    = trace st ++ (CallHook (on_epoch_begin (epoch (self st))), self st)
                  :: (CallTrainBatch b, s1) :: seg
    /\ epoch_step s1 = 0
    /\ model_log s1 = Some (highest_level log_it_all log_it_scalars).
Proof.
  intros Hstop Hload Ha Hs. rewrite train_epoch_unfold, Hstop, Hload.
  rewrite train_batches_cons.
  assert (Hlog : _set_log_level (self (epoch_begin_step st))
                 = Ok (set_model_log (highest_level log_it_all log_it_scalars)
                         (self (epoch_begin_step st)))).
  { unfold _set_log_level. cbn [epoch_begin_step with_self push self config epoch_step
      set_epoch_step set_model].
    rewrite Ha, Hs, !py_and_divides_first. unfold highest_level. cbn [obind].
    destruct (configured log_it_all); [reflexivity|]. cbn [obind].
    destruct (configured log_it_scalars); reflexivity. }
  rewrite Hlog. cbv zeta.
  set (st1 := mkSt _ (world (epoch_begin_step st)) (trace (epoch_begin_step st))).
  assert (Hb : exists e2,
             trace (batch_step b st1)
             = trace st ++ [(CallHook (on_epoch_begin (epoch (self st))), self st);
                            (CallTrainBatch b, self st1); e2]).
  { eexists. unfold st1, batch_step, epoch_begin_step, with_self, push.
    cbn [trace self world]. rewrite <- !app_assoc. reflexivity. }
  destruct Hb as (e2 & Hb).
  assert (Hend : forall st', (exists seg, trace st' = trace (batch_step b st1) ++ seg) ->
            exists s1 seg,
              trace st' = trace st ++ (CallHook (on_epoch_begin (epoch (self st))), self st)
                                      :: (CallTrainBatch b, s1) :: seg
              /\ epoch_step s1 = 0
              /\ model_log s1 = Some (highest_level log_it_all log_it_scalars)).
  { intros st' (seg & Hseg). exists (self st1), (e2 :: seg).
    rewrite Hseg, Hb. rewrite <- app_assoc. split; [reflexivity|]. split; reflexivity. }
  destruct (_should_stop_training (self (batch_step b st1))) as [[]|e|];
    try (cbn [snd]; apply Hend; exists []; symmetry; apply app_nil_r).
  destruct (train_batches_trace rest (batch_step b st1)) as (seg & Hseg).
  destruct (train_batches rest (batch_step b st1)) as [[[]|e|] st2]; cbn [snd] in *;
    try (apply Hend; exists seg; exact Hseg).
  rewrite call_hook_run. cbn [snd]. apply Hend. eexists (seg ++ [_]).
  cbn. rewrite Hseg, <- app_assoc. reflexivity.
Qed.

(** ** The epoch *)

(** X21. An epoch that is not stopped at its start calls
    [on_epoch_begin(epoch)], then trains on the batches of the loader in the
    order of the loader, each once, with the metrics of each batch written
    under the next step, and calls [on_epoch_end(epoch)] when, and only
    when, it has got through the whole loader. However it ends,
    [epoch_step] is the number of batches it trained on, [global_step] has
    gone up by that number, and [epoch], the best score and the files are
    what they were. *)
Theorem train_epoch_batches (st : St) :
  _should_stop_training (self st) = Ok false ->
  exists (calls : list call) (done : list Batch),
    calls_made st (snd (train_epoch st))
      (CallHook (on_epoch_begin (epoch (self st))) :: calls
       ++ match fst (train_epoch st) with
          | Ok _ => [CallHook (on_epoch_end (epoch (self st)))]
          | _ => []
          end)
    /\ forallb batch_call calls = true
    /\ trained_on calls = done
    /\ scalar_steps calls = seqZ (global_step (self st)) (Z.of_nat (length done))
    /\ done `prefix_of` train_loader (dataset_factory (self st))
    /\ (fst (train_epoch st) = Ok tt -> done = train_loader (dataset_factory (self st)))
    /\ epoch_step (self (snd (train_epoch st))) = Z.of_nat (length done)
    /\ global_step (self (snd (train_epoch st)))
       = global_step (self st) + Z.of_nat (length done)
    /\ epoch (self (snd (train_epoch st))) = epoch (self st)
    /\ best_score (self (snd (train_epoch st))) = best_score (self st)
    /\ world (snd (train_epoch st)) = world st.
Proof.
  intros Hstop.
  destruct (train_epoch_exact st Hstop)
    as (calls & done & Hc & Hk & Ht & Hs & Hp & Hok & _ & Hg & Hes & Hep & Hb & _ & Hw).
  exists calls, done. repeat split; assumption.
Qed.

(** ** The checkpoint store *)

(** X22. The name of a checkpoint tells its epoch and its epoch_step: for
    a model whose name has no ['/'], two instances with that model name get
    the same file name only at the same epoch and the same epoch_step,
    whatever their directories. Checkpoints of different moments of a run
    are never written over one another. *)
Theorem save_filename_injective (cwd cwd' : string) (s s' : MLProject) :
  slash_free (model_name (model s)) = true ->
  model_name (model s') = model_name (model s) ->
  save_filename cwd s = save_filename cwd' s' ->
  epoch s = epoch s' /\ epoch_step s = epoch_step s'.
Proof.
  intros Hname Hsame E.
  assert (Hlast : forall c t,
            model_name (model t) = model_name (model s) ->
            exists p, dir_prefix p
                      /\ save_filename c t
                         = p +:+ checkpoint_pattern (model_name (model s)) (epoch t)
                                   (epoch_step t) "torch").
  { intros c t Ht.
    destruct (checkpoint_pattern_plain (model_name (model s)) (epoch t) (epoch_step t)
                "torch") as (H0 & H1 & H2).
    unfold save_filename. rewrite Ht.
    apply (abspath_join_last_dir c (model_save_dir t)); try assumption.
    apply slash_free_checkpoint_pattern; [exact Hname|reflexivity]. }
  destruct (Hlast cwd s eq_refl) as (p & Hp & E1).
  destruct (Hlast cwd' s' Hsame) as (p' & Hp' & E2).
  rewrite E1, E2 in E.
  apply last_component_unique in E; try assumption;
    try (apply slash_free_checkpoint_pattern; [exact Hname|reflexivity]).
  apply checkpoint_pattern_inj in E. exact E.
Qed.

(** X23. [save_filename] is an absolute path whenever the working
    directory is one (as [os.getcwd()] is); and when [model_save_dir] is
    absolute the path does not depend on the working directory. *)
Theorem save_filename_absolute (cwd : string) (s : MLProject) :
  (posixpath.isabs cwd = true -> posixpath.isabs (save_filename cwd s) = true)
  /\ (posixpath.isabs (model_save_dir s) = true ->
      forall cwd' : string, save_filename cwd' s = save_filename cwd s).
Proof.
  split.
  - intros Hcwd. unfold save_filename. apply abspath_abs. exact Hcwd.
  - intros Hdir cwd'. unfold save_filename, posixpath.abspath.
    set (f := model_name (model s) +:+ _).
    assert (Habs : posixpath.isabs (posixpath.join (model_save_dir s) f) = true).
    { unfold posixpath.isabs, posixpath.join in *.
      destruct (posixpath.startswith_sep f) eqn:Hf; [exact Hf|].
      apply startswith_sep_inv in Hdir as (r & ->).
      destruct (_ || _); rewrite append_cons; reflexivity. }
    rewrite Habs. reflexivity.
Qed.


Lemma hooks_kept (st st' : St) (calls : list call) :
  calls_made st st' calls ->
  saved calls = [] -> world st' = world st -> best_score (self st') = best_score (self st) ->
  checkpoints_kept st st' calls.
Proof.
  intros _ Hs Hw Hb. unfold checkpoints_kept. rewrite Hs, Hw. repeat split; auto.
  - intros f Hf. apply elem_of_nil in Hf. destruct Hf.
  - congruence.
Qed.


(** X26. What [train] and [train_epoch] never touch: the [_id], the
    configuration, the sacred run, the dataset factory, the device and the
    two directories of the instance, the directories of the file system and
    the working directory. [epoch] never goes down in [train], and
    [train_epoch] leaves it as it is. *)
Theorem train_keeps_setup (fuel : nat) (st : St) :
  (same_setup (self st) (self (snd (train fuel st)))
   /\ dirs (world (snd (train fuel st))) = dirs (world st)
   /\ cwd (world (snd (train fuel st))) = cwd (world st)
   /\ epoch (self st) <= epoch (self (snd (train fuel st))))
  /\ (same_setup (self st) (self (snd (train_epoch st)))
      /\ dirs (world (snd (train_epoch st))) = dirs (world st)
      /\ cwd (world (snd (train_epoch st))) = cwd (world st)
      /\ epoch (self (snd (train_epoch st))) = epoch (self st)).
Proof.
  destruct (train_spec fuel st) as (o & st' & Hrun & Hsteps & _).
  destruct (train_epoch_spec st) as (o2 & st2 & Hrun2 & Hsteps2 & Hep2 & _).
  rewrite Hrun, Hrun2. cbn [snd]. split.
  - split; [apply loop_steps_frame; exact Hsteps|]. apply loop_steps_world. exact Hsteps.
  - split; [apply loop_steps_frame; exact Hsteps2|].
    destruct (loop_steps_world _ _ Hsteps2) as (H1 & H2 & _). auto.
Qed.

(** X27. The epochs of a run. The epochs [train] tells the model the
    start of, and those it tells the model the end of, are the epoch of the
    start and the ones after it, one by one and in order; at most the last
    epoch begun does not end (the stop cuts it). With a test set each epoch
    that ends is evaluated, once, and without a test set nothing is
    evaluated. When [train] returns, [epoch] has gone up by the number of
    epochs that have ended. *)
Theorem epochs_and_evaluations (fuel : nat) (st : St) :
  exists calls : list call,
    calls_made st (snd (train fuel st)) calls
    /\ begun_epochs calls
       = seqZ (epoch (self st)) (Z.of_nat (length (begun_epochs calls)))
    /\ ended_epochs calls
       = seqZ (epoch (self st)) (Z.of_nat (length (ended_epochs calls)))
    /\ (length (ended_epochs calls) <= length (begun_epochs calls)
        <= S (length (ended_epochs calls)))%nat
    /\ evaluations calls
       = (if has_test_set (dataset_factory (self st)) then length (ended_epochs calls)
          else 0%nat)
    /\ (fst (train fuel st) = Ok tt ->
        epoch (self (snd (train fuel st)))
        = epoch (self st) + Z.of_nat (length (ended_epochs calls))).
Proof.
  rewrite train_unfold.
  set (st0 := snd (call_hook train_mode (snd (call_hook on_train_begin st)))).
  assert (H0 : calls_made st st0 [CallHook on_train_begin; CallHook train_mode]).
  { apply (calls_made_trans st (snd (call_hook on_train_begin st)) st0 [_] [_]);
      apply calls_made_hook. }
  destruct (train_loop_epochs fuel None st0) as (loop & Hc & (Hb & Hr & Hle & Hv) & He).
  change (epoch (self st0)) with (epoch (self st)) in Hb, Hr, He.
  change (dataset_factory (self st0)) with (dataset_factory (self st)) in Hv.
  assert (H2 : exists tail,
             calls_made (snd (train_loop fuel None st0))
               (snd (match train_loop fuel None st0 with
                     | (Ok best, st1) =>
                         call_hook on_train_end
                           (match best, _run (self st1) with
                            | Some fname, Some _ => push (CallAddArtifact fname) st1
                            | _, _ => st1
                            end)
                     | (Raise e, st1) => (Raise e, st1)
                     | (OutOfFuel, st1) => (OutOfFuel, st1)
                     end)) tail
             /\ begun_epochs tail = [] /\ ended_epochs tail = []
             /\ evaluations tail = 0%nat).
  { destruct (train_loop fuel None st0) as [[best|e|] st1]; cbn [snd];
      try (exists []; split; [apply calls_made_refl|repeat split]).
    rewrite call_hook_run. cbn [snd].
    destruct best as [f|]; [destruct (_run (self st1))|].
    - exists [CallAddArtifact f; CallHook on_train_end]. split; [|repeat split].
      eexists [_; _]. split; [cbn; rewrite <- app_assoc; reflexivity|reflexivity].
    - exists [CallHook on_train_end]. split; [|repeat split].
      eexists [_]. split; reflexivity.
    - exists [CallHook on_train_end]. split; [|repeat split].
      eexists [_]. split; reflexivity. }
  destruct H2 as (tail & Hct & Hbt & Het & Hvt).
  exists (([CallHook on_train_begin; CallHook train_mode] ++ loop) ++ tail).
  split; [eapply calls_made_trans; [eapply calls_made_trans; eassumption|exact Hct]|].
  rewrite !begun_epochs_app, !ended_epochs_app, !evaluations_app, Hbt, Het, Hvt,
    !app_nil_r, Nat.add_0_r.
  change (begun_epochs [CallHook on_train_begin; CallHook train_mode]) with (@nil Z).
  change (ended_epochs [CallHook on_train_begin; CallHook train_mode]) with (@nil Z).
  change (evaluations [CallHook on_train_begin; CallHook train_mode]) with 0%nat.
  rewrite !app_nil_l, Nat.add_0_l.
  split; [exact Hb|]. split; [exact Hr|]. split; [exact Hle|]. split; [exact Hv|].
  destruct (train_loop fuel None st0) as [[best|e|] st1]; cbn [fst snd] in *;
    try discriminate.
  intros _. rewrite <- (He best eq_refl). rewrite call_hook_run.
  destruct best as [f|]; [destruct (_run (self st1))|]; reflexivity.
Qed.

End FurtherProperties.

(* ===================================================================== *)
(** * The further properties on the concrete collaborators *)
(* ===================================================================== *)

(** X1 on the example: the directory of run 7 of the model [net]. *)
Lemma get_model_dir_result_example :
  get_model_dir Example.config_epochs "7_net" = Ok "models/7_net"
  /\ get_model_dir ∅ "7_net" = Raise (Exception "Cannot figure out model dir.").
Proof.
  destruct (get_model_dir_result Example.config_epochs "7_net") as (_ & _ & H1).
  destruct (get_model_dir_result ∅ "7_net") as (H2 & _).
  split; [exact (H1 "models" eq_refl eq_refl)|exact (H2 eq_refl)].
Defined.

(** X2 on the example: the directory of a new instance. *)
Lemma init_model_save_dir_example :
  __init__ 10000000005 (default_args Example.config_epochs) Example.world0
  = Ok (Example.project Example.config_epochs, Example.world1)
  /\ model_save_dir (Example.project Example.config_epochs) = "models/10000000005_net"
  /\ (model_save_dir (Example.project Example.config_epochs) ∉ dirs Example.world0)
  /\ model_save_dir (Example.project Example.config_epochs) ∈ dirs Example.world1.
Proof.
  pose proof (example_init Example.config_epochs eq_refl eq_refl eq_refl) as Hinit.
  destruct (init_model_save_dir _ _ _ _ _ Hinit) as (H & _).
  destruct (H eq_refl) as (d & _ & _ & Hnew & Hin & _).
  split; [exact Hinit|]. split; [reflexivity|]. split; assumption.
Defined.

(** X3 on the example: the same instance cannot be built twice. *)
Lemma init_twice_fails_example :
  __init__ 10000000005 (default_args Example.config_epochs) Example.world0
  = Ok (Example.project Example.config_epochs, Example.world1)
  /\ __init__ 10000000005 (default_args Example.config_epochs) Example.world1
     = Raise (FileExistsError "models/10000000005_net").
Proof.
  pose proof (example_init Example.config_epochs eq_refl eq_refl eq_refl) as Hinit.
  split; [exact Hinit|].
  exact (init_twice_fails _ _ _ _ _ Hinit eq_refl).
Defined.

(** X4 on the example: the id 0 is replaced by the number drawn. *)
Lemma init_id_example :
  __init__ 10000000005
    (mkInitArgs Example.config_epochs (Some 0) 0 0 0 None None None None None)
    Example.world0
  = Ok (Example.project Example.config_epochs, Example.world1)
  /\ _id (Example.project Example.config_epochs) = 10000000005.
Proof.
  assert (Hinit : __init__ 10000000005
                    (mkInitArgs Example.config_epochs (Some 0) 0 0 0 None None None None
                       None)
                    Example.world0
                  = Ok (Example.project Example.config_epochs, Example.world1))
    by reflexivity.
  split; [exact Hinit|].
  assert (Hrnd : 10 ^ 10 <= 10000000005 <= 10 ^ 10 + 10 ^ 8) by lia.
  destruct (init_id _ _ _ _ _ Hrnd Hinit) as (_ & _ & H).
  apply H. right. reflexivity.
Defined.


(** X6 on the example: the instance of run 7. *)
Lemma from_run_instance_example :
  from_run 10000000005 Example.run7 Example.world0
  = Ok (Example.project_of_run, world Example.start_of_run)
  /\ _id Example.project_of_run = 7
  /\ _run Example.project_of_run = Some Example.run7
  /\ global_step Example.project_of_run = 0
  /\ model_save_dir Example.project_of_run ∈ dirs (world Example.start_of_run).
Proof.
  assert (H : from_run 10000000005 Example.run7 Example.world0
              = Ok (Example.project_of_run, world Example.start_of_run))
    by reflexivity.
  destruct (from_run_instance _ _ _ _ _ H) as (H1 & _ & H2 & _ & _ & _ & H3 & _ & _ & H4).
  split; [exact H|]. repeat split; assumption.
Defined.

(** X7 on the example: the calls of an evaluation over two batches. *)
Lemma test_effects_example :
  calls_made (Example.start Example.config_epochs)
    (snd (test (Example.start Example.config_epochs)))
    [@CallHook (Example.collaborators Example.net Example.data) eval_mode;
     @CallTestBatch (Example.collaborators Example.net Example.data) 2%float;
     @CallTestBatch (Example.collaborators Example.net Example.data) 3%float;
     CallAddScalarsTest (eval_losses (Example.project Example.config_epochs)) 0;
     CallPrint (eval_losses (Example.project Example.config_epochs))]
  /\ world (snd (test (Example.start Example.config_epochs))) = Example.world1.
Proof.
  destruct (test_effects (Example.start Example.config_epochs))
    as (Hc & _ & _ & _ & _ & _ & Hw).
  split; [exact Hc|exact Hw].
Defined.

(** X8 on the example: no held-out batch, no score. *)
Lemma test_empty_loader_example :
  fst (test Example.start_no_test) = Raise (KeyError "loss")
  /\ calls_made Example.start_no_test (snd (test Example.start_no_test))
       [CallHook eval_mode; CallAddScalarsTest ∅ 0; CallPrint ∅].
Proof. exact (test_empty_loader Example.start_no_test eq_refl). Defined.

(** X9 on the example: a budget of 100 iterations, at steps 100 and 250. *)
Lemma stop_is_stable_example :
  _should_stop_training (set_global_step 100 (Example.project Example.config_iterations))
  = Ok true
  /\ _should_stop_training (set_global_step 250 (Example.project Example.config_iterations))
     = Ok true.
Proof.
  assert (H : _should_stop_training
                (set_global_step 100 (Example.project Example.config_iterations))
              = Ok true) by reflexivity.
  split; [exact H|].
  apply (stop_is_stable (set_global_step 100 (Example.project Example.config_iterations)));
    [reflexivity|cbn; lia|cbn; lia|exact H].
Defined.

(** X10 on the example: an instance at epoch 3 of 3. *)
Lemma train_finished_run_example :
  fst (train 1 (mkSt (set_epoch 3 (Example.project Example.config_epochs))
                  Example.world1 []))
  = Ok tt
  /\ calls_made (mkSt (set_epoch 3 (Example.project Example.config_epochs))
                   Example.world1 [])
       (snd (train 1 (mkSt (set_epoch 3 (Example.project Example.config_epochs))
                        Example.world1 [])))
       [CallHook on_train_begin; CallHook train_mode; CallHook on_train_end].
Proof.
  destruct (train_finished_run 0
              (mkSt (set_epoch 3 (Example.project Example.config_epochs)) Example.world1 [])
              eq_refl) as (H1 & H2 & _).
  split; assumption.
Defined.

(** X11 on the example: three epochs, and a second [train] after them. *)
Lemma train_again_example :
  fst (train 4 (Example.start Example.config_epochs)) = Ok tt
  /\ fst (train 1 (snd (train 4 (Example.start Example.config_epochs)))) = Ok tt
  /\ global_step (self (snd (train 1 (snd (train 4 (Example.start Example.config_epochs))))))
     = 9.
Proof.
  assert (H : fst (train 4 (Example.start Example.config_epochs)) = Ok tt)
    by (vm_compute; reflexivity).
  destruct (train_again 4 0 (Example.start Example.config_epochs) H)
    as (H1 & _ & (H2 & _) & _).
  split; [exact H|]. split; [exact H1|]. rewrite H2. vm_compute. reflexivity.
Defined.

(** X12 on the example: a configuration with a directory and no budget. *)
Lemma train_without_budget_example :
  fst (train 1 (Example.start Example.config_no_budget)) = Raise (KeyError "n_epochs")
  /\ calls_made (Example.start Example.config_no_budget)
       (snd (train 1 (Example.start Example.config_no_budget)))
       [CallHook on_train_begin; CallHook train_mode].
Proof.
  destruct (train_without_budget 0 (Example.start Example.config_no_budget)
              eq_refl eq_refl) as (_ & H1 & H2 & _).
  split; assumption.
Defined.

(** X13 on the example: three epochs between the hooks. *)
Lemma train_hooks_example :
  fst (train 4 (Example.start Example.config_epochs)) = Ok tt
  /\ exists loop tail : list call,
       calls_made (Example.start Example.config_epochs)
         (snd (train 4 (Example.start Example.config_epochs)))
         ([CallHook on_train_begin; CallHook train_mode] ++ loop ++ tail)
       /\ forallb loop_call loop = true
       /\ (tail = [CallHook on_train_end]
           \/ exists filename, tail = [CallAddArtifact filename; CallHook on_train_end]).
Proof.
  assert (H : fst (train 4 (Example.start Example.config_epochs)) = Ok tt)
    by (vm_compute; reflexivity).
  split; [exact H|].
  destruct (train_hooks 4 (Example.start Example.config_epochs)) as (loop & tail & Hc & Hl & Ht).
  rewrite H in Ht. exists loop, tail. split; [exact Hc|]. split; [exact Hl|exact Ht].
Defined.

(** X14 on the example: the run gets the checkpoint of the first epoch, the
    only one saved (the losses of the later epochs are no improvement). *)
Lemma train_artifact_example :
  exists calls : list call,
    calls_made Example.start_of_run (snd (train 4 Example.start_of_run)) calls
    /\ saved calls = ["/home/user/models/7_net/net_e00000_b00003.torch"]
    /\ artifacts calls = ["/home/user/models/7_net/net_e00000_b00003.torch"].
Proof.
  destruct (train_artifact 4 Example.start_of_run) as (calls & Hc & Ha).
  exists calls. split; [exact Hc|].
  assert (Hcalls : calls = map fst (trace (snd (train 4 Example.start_of_run)))).
  { destruct Hc as (seg & Hseg & <-). rewrite Hseg. reflexivity. }
  assert (Hs : saved calls = ["/home/user/models/7_net/net_e00000_b00003.torch"]).
  { rewrite Hcalls. vm_compute. reflexivity. }
  split; [exact Hs|]. rewrite Ha, Hs. vm_compute. reflexivity.
Defined.

(** X15 on the example: three epochs without a test set. *)
Lemma train_without_test_set_example :
  fst (train 4 Example.start_no_test) = Ok tt
  /\ best_score (self (snd (train 4 Example.start_no_test))) = None
  /\ files (world (snd (train 4 Example.start_no_test))) = ∅.
Proof.
  destruct (train_without_test_set 4 Example.start_no_test eq_refl)
    as (loop & _ & _ & Hb & Hw).
  split; [vm_compute; reflexivity|]. split; [exact Hb|]. rewrite Hw. reflexivity.
Defined.

(** X16 on the example: a budget of 100 iterations over epochs of three
    batches stops after the first batch of epoch 33. *)
Lemma iteration_budget_position_example :
  fst (train 101 (Example.start Example.config_iterations)) = Ok tt
  /\ global_step (self (snd (train 101 (Example.start Example.config_iterations)))) = 100
  /\ epoch (self (snd (train 101 (Example.start Example.config_iterations)))) = 33
  /\ epoch_step (self (snd (train 101 (Example.start Example.config_iterations)))) = 1.
Proof.
  assert (H : fst (train 101 (Example.start Example.config_iterations)) = Ok tt)
    by (vm_compute; reflexivity).
  assert (Hl : train_loader (dataset_factory (self (Example.start Example.config_iterations)))
               <> []) by discriminate.
  destruct (iteration_budget_position 100 101 (Example.start Example.config_iterations)
              eq_refl Hl eq_refl H) as (H1 & H2 & H3).
  split; [exact H|]. split; [exact H1|]. split; [rewrite H2|rewrite H3]; reflexivity.
Defined.

(** X17 on the example: nine batches under the steps 0 to 8. *)
Lemma scalar_steps_consecutive_example :
  exists calls : list call,
    calls_made (Example.start Example.config_epochs)
      (snd (train 4 (Example.start Example.config_epochs))) calls
    /\ scalar_steps calls = [0; 1; 2; 3; 4; 5; 6; 7; 8].
Proof.
  destruct (scalar_steps_consecutive 4 (Example.start Example.config_epochs))
    as ((calls & Hc & Hs) & _).
  exists calls. split; [exact Hc|]. rewrite Hs. vm_compute. reflexivity.
Defined.


(** X19 on the example: an interval that is a string. *)
Lemma set_log_level_errors_example :
  _set_log_level (Example.project Example.config_often) = Raise TypeError.
Proof.
  destruct (set_log_level_errors (Example.project Example.config_often)) as (_ & _ & _ & H).
  apply (H "often"); [discriminate|reflexivity].
Defined.

(** X20 on the example: with the intervals 10 and 2 the first batch of an
    epoch is trained on at the level [ALL]. *)
Lemma first_batch_level_example :
  exists (s1 : MLProject) (seg : list (call * MLProject)),
    trace (snd (train_epoch (Example.start Example.config_epochs)))
    = (CallHook (on_epoch_begin 0), Example.project Example.config_epochs)
      :: (@CallTrainBatch (Example.collaborators Example.net Example.data) 1%float, s1)
      :: seg
    /\ epoch_step s1 = 0
    /\ model_log s1 = Some ALL.
Proof.
  exact (first_batch_level (Example.start Example.config_epochs) 1%float
           [2%float; 3%float] (Some 10) (Some 2) eq_refl eq_refl eq_refl eq_refl).
Defined.

(** X21 on the example: an epoch over three batches. *)
Lemma train_epoch_batches_example :
  fst (train_epoch (Example.start Example.config_epochs)) = Ok tt
  /\ exists calls : list (call (C := Example.collaborators Example.net Example.data)),
       calls_made (Example.start Example.config_epochs)
         (snd (train_epoch (Example.start Example.config_epochs)))
         (CallHook (on_epoch_begin 0) :: calls ++ [CallHook (on_epoch_end 0)])
       /\ trained_on calls = [1%float; 2%float; 3%float]
       /\ scalar_steps calls = [0; 1; 2]
       /\ epoch_step (self (snd (train_epoch (Example.start Example.config_epochs)))) = 3.
Proof.
  assert (H : fst (train_epoch (Example.start Example.config_epochs)) = Ok tt)
    by (vm_compute; reflexivity).
  split; [exact H|].
  destruct (train_epoch_batches (Example.start Example.config_epochs) eq_refl)
    as (calls & done & Hc & _ & Ht & Hs & _ & Hok & Hes & _).
  rewrite H in Hc. specialize (Hok H). rewrite Hok in Ht, Hs, Hes.
  exists calls. split; [exact Hc|]. split; [exact Ht|]. split; [exact Hs|exact Hes].
Defined.

(** X22 on the example: the same file reached from two working
    directories is a checkpoint of the same epoch and epoch_step. *)
Lemma save_filename_injective_example :
  save_filename "/home/user"
    (set_epoch 3 (set_epoch_step 7 (Example.project Example.config_epochs)))
  = save_filename "/tmp"
      (@mkMLProject (Example.collaborators Example.net Example.data) 5
         Example.config_epochs None Example.data Example.net None "cpu" 10 3 7 None None
         "/home/user/models/10000000005_net")
  /\ epoch (set_epoch 3 (set_epoch_step 7 (Example.project Example.config_epochs))) = 3
  /\ epoch_step (set_epoch 3 (set_epoch_step 7 (Example.project Example.config_epochs))) = 7.
Proof.
  assert (H : save_filename "/home/user"
                (set_epoch 3 (set_epoch_step 7 (Example.project Example.config_epochs)))
              = save_filename "/tmp"
                  (@mkMLProject (Example.collaborators Example.net Example.data) 5
                     Example.config_epochs None Example.data Example.net None "cpu" 10 3 7
                     None None "/home/user/models/10000000005_net"))
    by (vm_compute; reflexivity).
  split; [exact H|].
  apply (save_filename_injective "/home/user" "/tmp"
           (set_epoch 3 (set_epoch_step 7 (Example.project Example.config_epochs)))
           (@mkMLProject (Example.collaborators Example.net Example.data) 5
              Example.config_epochs None Example.data Example.net None "cpu" 10 3 7
              None None "/home/user/models/10000000005_net")
           eq_refl eq_refl H).
Defined.

(** X23 on the example: a relative [model_save_dir] is resolved against
    the working directory. *)
Lemma save_filename_absolute_example :
  posixpath.isabs (save_filename "/home/user" (Example.project Example.config_epochs))
  = true
  /\ save_filename "/home/user" (Example.project Example.config_epochs)
     = "/home/user/models/10000000005_net/net_e00000_b00000.torch".
Proof.
  destruct (save_filename_absolute "/home/user" (Example.project Example.config_epochs))
    as (H & _).
  split; [exact (H eq_refl)|vm_compute; reflexivity].
Defined.



(** X26 on the example: the configuration and the directory after three
    epochs. *)
Lemma train_keeps_setup_example :
  config (self (snd (train 4 (Example.start Example.config_epochs))))
  = Example.config_epochs
  /\ model_save_dir (self (snd (train 4 (Example.start Example.config_epochs))))
     = "models/10000000005_net"
  /\ dirs (world (snd (train 4 (Example.start Example.config_epochs))))
     = dirs Example.world1.
Proof.
  destruct (train_keeps_setup 4 (Example.start Example.config_epochs))
    as (((_ & Hc & _ & _ & _ & _ & Hd) & Hdirs & _) & _).
  split; [exact Hc|]. split; [exact Hd|exact Hdirs].
Defined.

(** X27 on the example: the epochs 0, 1 and 2, each evaluated. *)
Lemma epochs_and_evaluations_example :
  exists calls : list call,
    calls_made (Example.start Example.config_epochs)
      (snd (train 4 (Example.start Example.config_epochs))) calls
    /\ begun_epochs calls = [0; 1; 2]
    /\ ended_epochs calls = [0; 1; 2]
    /\ evaluations calls = 3%nat
    /\ epoch (self (snd (train 4 (Example.start Example.config_epochs)))) = 3.
Proof.
  destruct (epochs_and_evaluations 4 (Example.start Example.config_epochs))
    as (calls & Hc & Hb & Hr & _ & Hv & He).
  exists calls. split; [exact Hc|].
  assert (Hcalls : calls = map fst (trace (snd (train 4 (Example.start
                                                           Example.config_epochs))))).
  { destruct Hc as (seg & Hseg & <-). rewrite Hseg. reflexivity. }
  assert (Hn : length (ended_epochs calls) = 3%nat).
  { rewrite Hcalls. vm_compute. reflexivity. }
  assert (Hm : length (begun_epochs calls) = 3%nat).
  { rewrite Hcalls. vm_compute. reflexivity. }
  rewrite Hn in Hr, Hv, He. rewrite Hm in Hb.
  split; [exact Hb|]. split; [exact Hr|]. split; [exact Hv|].
  apply He. vm_compute. reflexivity.
Defined.
